(** * Metabolites dashboard (app.py): tables, loading, filtering, statistics

    A shallow embedding of [app.py].  The program is a thin layer over
    pandas, so the part of pandas it calls is embedded with it:

    - a DataFrame is its column labels and its rows, every row carrying its
      index label (pandas aligns a boolean key with a frame by label);
    - a cell is a missing value, an int64, a float64 or a text;
    - a Python exception is a value of [exn], and every operation that can
      raise returns a [result].

    Numbers: a float64 is modelled by the rational it denotes.  The reader
    rounds a decimal text to the nearest float64, and the cast to int64 cuts
    to the range of int64; sums are exact, and the infinities are outside the
    model.  The tables hold counts, on which float64 arithmetic is exact. *)

From Stdlib Require Import String Ascii Bool Arith ZArith QArith Lia List.
From Stdlib Require Import Permutation.
Import ListNotations.

Local Open Scope string_scope.
Local Open Scope list_scope.

(* ===================================================================== *)
(** ** Exceptions and results *)
(* ===================================================================== *)

Inductive exn : Type :=
| FileNotFoundError (path : string)   (* the file cannot be found or read *)
| ParserError                         (* a data line has too many fields *)
| KeyError (label : string)           (* no column of that label *)
| ValueError                          (* a text that is not a number *)
| IndexingError                       (* unalignable boolean Series *)
| TypeError.                          (* a text where a number is summed *)

Inductive result (A : Type) : Type :=
| Ok (a : A)
| Raise (e : exn).

Arguments Ok {A} a.
Arguments Raise {A} e.

Definition bind {A B : Type} (m : result A) (k : A -> result B) : result B :=
  match m with
  | Ok a => k a
  | Raise e => Raise e
  end.

Notation "x <- m ;; k" := (bind m (fun x => k))
  (at level 61, m at next level, right associativity).

Fixpoint mapM {A B : Type} (f : A -> result B) (l : list A) : result (list B) :=
  match l with
  | [] => Ok []
  | x :: t => y <- f x ;; ys <- mapM f t ;; Ok (y :: ys)
  end.

(* ===================================================================== *)
(** ** Cells, Series and DataFrames *)
(* ===================================================================== *)

Inductive cell : Type :=
| NaN                 (* missing value *)
| IntV (z : Z)        (* int64 *)
| FloatV (q : Q)      (* float64 *)
| StrV (s : string).  (* object holding a str *)

(** [a == b] on scalars, as pandas evaluates it cell by cell: a missing
    value equals nothing, 1 equals 1.0, a number never equals a text. *)
Definition cell_eqb (a b : cell) : bool :=
  match a, b with
  | IntV x, IntV y => Z.eqb x y
  | IntV x, FloatV q => Qeq_bool (inject_Z x) q
  | FloatV q, IntV y => Qeq_bool q (inject_Z y)
  | FloatV p, FloatV q => Qeq_bool p q
  | StrV s, StrV t => String.eqb s t
  | _, _ => false
  end.

(** Identity of values in a hash table ([unique], [value_counts]): as [==],
    but all missing values are one value. *)
Definition cell_same (a b : cell) : bool :=
  match a, b with
  | NaN, NaN => true
  | _, _ => cell_eqb a b
  end.

Definition isna (c : cell) : bool :=
  match c with NaN => true | _ => false end.

(** A Series: values with their index labels. *)
Definition Series (A : Type) : Type := list (nat * A).

(** A row: its index label and its cells, in column order. *)
Definition row : Type := (nat * list cell)%type.

Record DataFrame : Type := mkDataFrame {
  columns : list string;
  rows : list row
}.

Definition index (df : DataFrame) : list nat := map fst (rows df).

Definition labels {A : Type} (s : Series A) : list nat := map fst s.
Definition values {A : Type} (s : Series A) : list A := map snd s.

(** The index read_csv gives a frame: 0, 1, ..., n-1. *)
Definition RangeIndex (df : DataFrame) : Prop :=
  index df = seq 0 (length (rows df)).

Fixpoint position (label : string) (cols : list string) : option nat :=
  match cols with
  | [] => None
  | c :: t => if String.eqb c label then Some 0%nat
              else option_map S (position label t)
  end.

(** [df[label]] *)
Definition getitem (df : DataFrame) (label : string) : result (Series cell) :=
  match position label (columns df) with
  | None => Raise (KeyError label)
  | Some j => Ok (map (fun r : row => (fst r, nth j (snd r) NaN)) (rows df))
  end.

(** [series == v] *)
Definition eq_scalar (s : Series cell) (v : cell) : Series bool :=
  map (fun e : nat * cell => (fst e, cell_eqb (snd e) v)) s.

Fixpoint lookup_label {A : Type} (l : nat) (s : Series A) : option A :=
  match s with
  | [] => None
  | (k, v) :: t => if Nat.eqb k l then Some v else lookup_label l t
  end.

Definition index_equals (a b : list nat) : bool :=
  if list_eq_dec Nat.eq_dec a b then true else false.

(** pandas' [check_bool_indexer]: a boolean Series whose index is the
    frame's is used as it stands; any other is reindexed to the frame's
    labels, and a frame label the key lacks raises IndexingError.  (Labels
    are distinct in every frame of this program.) *)
Definition check_bool_indexer (idx : list nat) (key : Series bool)
  : result (list bool) :=
  if index_equals (labels key) idx then Ok (values key)
  else mapM (fun l => match lookup_label l key with
                      | Some b => Ok b
                      | None => Raise IndexingError
                      end) idx.

(** The rows kept by a boolean mask, position by position. *)
Definition take_mask {A : Type} (m : list bool) (l : list A) : list A :=
  map snd (filter fst (combine m l)).

(** [df[key]] for a boolean Series [key] *)
Definition getitem_bool (df : DataFrame) (key : Series bool) : result DataFrame :=
  m <- check_bool_indexer (index df) key ;;
  Ok {| columns := columns df; rows := take_mask m (rows df) |}.

(* ===================================================================== *)
(** ** app.py: filter_by_type_strain *)
(* ===================================================================== *)

Definition is_type_strain_header : string := "is_type_strain_header".

(** [df[df['is_type_strain_header'] == type_strain_value]] *)
Definition filter_by_type_strain (df : DataFrame) (type_strain_value : cell)
  : result DataFrame :=
  col <- getitem df is_type_strain_header ;;
  getitem_bool df (eq_scalar col type_strain_value).

(* ===================================================================== *)
(** ** The input files and pandas' read_csv *)
(* ===================================================================== *)

(** A csv file after tokenising: the column labels of its header line (the
    reader makes repeated names distinct) and the text fields of each data
    line. *)
Record csv : Type := mkCsv {
  header : list string;
  records : list (list string)
}.

(** The file system: what is at a path, if it can be read. *)
Definition files : Type := string -> option csv.

(** The texts read_csv takes for a missing value (its default na_values). *)
Definition na_values : list string :=
  [EmptyString; "#N/A"; "#N/A N/A"; "#NA"; "-1.#IND"; "-1.#QNAN"; "-NaN"; "-nan";
   "1.#IND"; "1.#QNAN"; "<NA>"; "N/A"; "NA"; "NULL"; "NaN"; "None"; "n/a";
   "nan"; "null"].

Definition is_na (f : string) : bool := existsb (String.eqb f) na_values.

Definition digit_of (c : ascii) : option Z :=
  let n := nat_of_ascii c in
  if (48 <=? n)%nat && (n <=? 57)%nat then Some (Z.of_nat (n - 48)) else None.

(** Decimal digits, most significant first, continuing from [acc]. *)
Fixpoint read_digits (s : string) (acc : Z) : option Z :=
  match s with
  | EmptyString => Some acc
  | String c t =>
      match digit_of c with
      | Some d => read_digits t (10 * acc + d)
      | None => None
      end
  end.

Definition split_sign (s : string) : bool * string :=
  match s with
  | String c t =>
      if Ascii.eqb c "-"%char then (true, t)
      else if Ascii.eqb c "+"%char then (false, t)
      else (false, s)
  | EmptyString => (false, s)
  end.

(** The reader's integers: an optional sign and decimal digits. *)
Definition read_int (s : string) : option Z :=
  let (neg, body) := split_sign s in
  match body with
  | EmptyString => None
  | _ => option_map (fun z => if neg then Z.opp z else z) (read_digits body 0)
  end.

Definition is_blank (c : ascii) : bool :=
  Ascii.eqb c " "%char || Ascii.eqb c "009"%char.

Fixpoint skip_blanks (s : string) : string :=
  match s with
  | String c t => if is_blank c then skip_blanks t else s
  | EmptyString => s
  end.

Fixpoint all_blanks (s : string) : bool :=
  match s with
  | String c t => is_blank c && all_blanks t
  | EmptyString => true
  end.

(** The decimal digits a text starts with, continuing from [acc]: their
    value, how many they are, and the rest of the text. *)
Fixpoint take_digits (s : string) (acc : Z) (n : nat) : Z * nat * string :=
  match s with
  | String c t =>
      match digit_of c with
      | Some d => take_digits t (10 * acc + d) (S n)
      | None => (acc, n, s)
      end
  | EmptyString => (acc, n, s)
  end.

(** An exponent, if the text starts with one: e or E, an optional sign and
    at least one digit. *)
Definition read_exponent (s : string) : option (Z * string) :=
  match s with
  | String c t =>
      if Ascii.eqb c "e"%char || Ascii.eqb c "E"%char then
        let (neg, body) := split_sign t in
        let '(e, n, rest) := take_digits body 0 0 in
        if (n =? 0)%nat then None
        else Some (if neg then Z.opp e else e, rest)
      else Some (0%Z, s)
  | EmptyString => Some (0%Z, s)
  end.

(** [m * 10^e] *)
Definition scale10 (m e : Z) : Q :=
  if (0 <=? e)%Z then inject_Z (m * 10 ^ e)
  else Qmake m (Z.to_pos (10 ^ (- e))).

(** The integer nearest to [n / d], a half going to the even side. *)
Definition round_half_even (n d : Z) : Z :=
  let q := (n / d)%Z in
  let r := (n mod d)%Z in
  match (2 * r ?= d)%Z with
  | Lt => q
  | Gt => (q + 1)%Z
  | Eq => if Z.even q then q else (q + 1)%Z
  end.

(** The float64 nearest to a rational: 53 significant bits, exponents down
    to that of the subnormal numbers; nothing when the magnitude is beyond
    the largest float64. *)
Definition binary64 (q : Q) : option Q :=
  let n := Z.abs (Qnum q) in
  let d := Zpos (Qden q) in
  if (n =? 0)%Z then Some 0%Q
  else
    let e0 := (Z.log2 n - Z.log2 d)%Z in
    let above := if (0 <=? e0)%Z then (d * 2 ^ e0 <=? n)%Z
                 else (d <=? n * 2 ^ (- e0))%Z in
    let e := if above then e0 else (e0 - 1)%Z in
    let s := Z.max (e - 52) (-1074) in
    let m := if (0 <=? s)%Z then round_half_even n (d * 2 ^ s)
             else round_half_even (n * 2 ^ (- s)) d in
    let m := if (Qnum q <? 0)%Z then Z.opp m else m in
    if (0 <=? s)%Z then
      if (2 ^ 1024 <=? Z.abs m * 2 ^ s)%Z then None
      else Some (inject_Z (m * 2 ^ s))
    else Some (Qred (Qmake m (Z.to_pos (2 ^ (- s))))).

(** The reader's floats: blanks, an optional sign, digits with an optional
    point (a digit on one side of it at least), an optional exponent,
    blanks; the value is the nearest float64.  (The spellings of the
    infinities are read as text by the model.) *)
Definition read_float (s : string) : option Q :=
  let (neg, body) := split_sign (skip_blanks s) in
  let '(whole, n_whole, after_whole) := take_digits body 0 0 in
  let '(mantissa, n_fraction, after_mantissa) :=
    match after_whole with
    | String c t =>
        if Ascii.eqb c "."%char then take_digits t whole 0
        else (whole, 0%nat, after_whole)
    | EmptyString => (whole, 0%nat, after_whole)
    end in
  if (n_whole + n_fraction =? 0)%nat then None
  else
    match read_exponent after_mantissa with
    | None => None
    | Some (e, rest) =>
        if all_blanks rest then
          binary64 (scale10 (if neg then Z.opp mantissa else mantissa)
                            (e - Z.of_nat n_fraction))
        else None
    end.

Inductive dtype : Type :=
| float64
| str       (* a dtype asked for in the mapping *)
| int64
| object.   (* a dtype the reader infers *)

Fixpoint lookup_dtype (label : string) (m : list (string * dtype)) : option dtype :=
  match m with
  | [] => None
  | (k, d) :: t => if String.eqb k label then Some d else lookup_dtype label t
  end.

(** The dtype the reader infers for a column without an entry in the
    mapping: int64 when every field is an integer, float64 when every field
    is a number or missing, object otherwise. *)
Definition infer_dtype (fields : list string) : dtype :=
  if forallb (fun f => match read_int f with Some _ => true | None => false end) fields
  then int64
  else if forallb (fun f => is_na f ||
                     match read_float f with Some _ => true | None => false end) fields
  then float64
  else object.

(** A field as a cell of a column of the given dtype. *)
Definition convert (d : dtype) (f : string) : result cell :=
  match d with
  | int64 =>
      match read_int f with
      | Some z => Ok (IntV z)
      | None => Raise ValueError
      end
  | float64 =>
      if is_na f then Ok NaN
      else match read_float f with
           | Some q => Ok (FloatV q)
           | None => Raise ValueError
           end
  | str | object => Ok (if is_na f then NaN else StrV f)
  end.

(** The field of a data line in column [j]; a short line is padded with
    missing fields. *)
Definition field (j : nat) (line : list string) : string := nth j line EmptyString.

Definition column_dtype (mapping : list (string * dtype)) (f : csv)
  (j : nat) (label : string) : dtype :=
  match lookup_dtype label mapping with
  | Some d => d
  | None => infer_dtype (map (field j) (records f))
  end.

Definition column_dtypes (mapping : list (string * dtype)) (f : csv) : list dtype :=
  map (fun jl : nat * string => column_dtype mapping f (fst jl) (snd jl))
      (combine (seq 0 (length (header f))) (header f)).

Definition convert_line (dtypes : list dtype) (line : list string)
  : result (list cell) :=
  mapM (fun jd : nat * dtype => convert (snd jd) (field (fst jd) line))
       (combine (seq 0 (length dtypes)) dtypes).

(** [pd.read_csv(file_path, dtype=mapping, low_memory=False)].  Entries of
    the mapping for columns the file lacks are ignored.  A data line longer
    than the header raises ParserError.  (pandas reads a file whose first
    data line is longer than the header with the leading fields as the
    index; a frame of the model has no index of that kind, and the model
    takes such a file for one that cannot be read.) *)
Definition read_csv (fs : files) (file_path : string)
  (mapping : list (string * dtype)) : result DataFrame :=
  match fs file_path with
  | None => Raise (FileNotFoundError file_path)
  | Some f =>
      if existsb (fun line => (length (header f) <? length line)%nat) (records f)
      then Raise ParserError
      else
        data <- mapM (convert_line (column_dtypes mapping f)) (records f) ;;
        Ok {| columns := header f;
              rows := combine (seq 0 (length data)) data |}
  end.

(* ===================================================================== *)
(** ** Series and frame operations used by the loader *)
(* ===================================================================== *)

(** [series.fillna(0)] *)
Definition fillna (fill : cell) (s : Series cell) : Series cell :=
  map (fun e : nat * cell => (fst e, if isna (snd e) then fill else snd e)) s.

(** Rounding toward zero, as a cast of a float to an integer does. *)
Definition truncate (q : Q) : Z := Z.quot (Qnum q) (Zpos (Qden q)).

Definition int64_min : Z := (- 2 ^ 63)%Z.
Definition int64_max : Z := (2 ^ 63 - 1)%Z.

Definition in_int64 (z : Z) : bool :=
  (int64_min <=? z)%Z && (z <=? int64_max)%Z.

(** The cast of a float64 to int64: the value cut toward zero; a value that
    does not fit comes out as the least int64 (what the conversion
    instruction of x86-64, on which numpy relies, leaves). *)
Definition cast_int64 (q : Q) : Z :=
  if in_int64 (truncate q) then truncate q else int64_min.

(** One value under [astype(int)]; a missing value cannot be cast. *)
Definition to_int (c : cell) : result cell :=
  match c with
  | NaN => Raise ValueError
  | IntV z => Ok (IntV z)
  | FloatV q => Ok (IntV (cast_int64 q))
  | StrV s => match read_int s with
              | Some z => Ok (IntV z)
              | None => Raise ValueError
              end
  end.

(** [series.astype(int)] *)
Definition astype_int (s : Series cell) : result (Series cell) :=
  mapM (fun e : nat * cell => c <- to_int (snd e) ;; Ok (fst e, c)) s.

Fixpoint set_nth {A : Type} (j : nat) (x : A) (l : list A) : list A :=
  match l, j with
  | [], _ => []
  | _ :: t, O => x :: t
  | y :: t, S j' => y :: set_nth j' x t
  end.

(** [df[label] = series] for a column the frame has and a series over the
    frame's own index: the column's cells are replaced, row by row. *)
Definition setitem (df : DataFrame) (label : string) (s : Series cell)
  : result DataFrame :=
  match position label (columns df) with
  | None => Raise (KeyError label)
  | Some j =>
      Ok {| columns := columns df;
            rows := map (fun rc : row * cell =>
                           (fst (fst rc), set_nth j (snd rc) (snd (fst rc))))
                        (combine (rows df) (values s)) |}
  end.

Definition keep_columns (keep : list bool) (df : DataFrame) : DataFrame :=
  {| columns := take_mask keep (columns df);
     rows := map (fun r : row => (fst r, take_mask keep (snd r))) (rows df) |}.

(** [df.drop(columns=[label])]: every column of that label goes; a frame
    without one raises KeyError. *)
Definition drop_column (df : DataFrame) (label : string) : result DataFrame :=
  match position label (columns df) with
  | None => Raise (KeyError label)
  | Some _ =>
      Ok (keep_columns (map (fun c => negb (String.eqb c label)) (columns df)) df)
  end.

(* ===================================================================== *)
(** ** app.py: load_and_clean_data *)
(* ===================================================================== *)

Definition ID : string := "ID".
Definition species : string := "species".
Definition designation_header : string := "designation_header".
Definition strain_number_header : string := "strain_number_header".

Definition dtype_mapping : list (string * dtype) :=
  [(ID, float64); (species, str); (is_type_strain_header, float64);
   (designation_header, str); (strain_number_header, str)].

Definition load_and_clean_data (fs : files) (file_path : string)
  : result DataFrame :=
  df <- read_csv fs file_path dtype_mapping ;;
  id <- getitem df ID ;;
  id <- astype_int (fillna (IntV 0) id) ;;
  df <- setitem df ID id ;;
  ts <- getitem df is_type_strain_header ;;
  ts <- astype_int (fillna (IntV 0) ts) ;;
  df <- setitem df is_type_strain_header ts ;;
  drop_column df strain_number_header.

(** What load_and_clean_data does with the frame read_csv returns: its
    lines from the first fillna to the return. *)
Definition clean_data (df : DataFrame) : result DataFrame :=
  id <- getitem df ID ;;
  id <- astype_int (fillna (IntV 0) id) ;;
  df <- setitem df ID id ;;
  ts <- getitem df is_type_strain_header ;;
  ts <- astype_int (fillna (IntV 0) ts) ;;
  df <- setitem df is_type_strain_header ts ;;
  drop_column df strain_number_header.

(* ===================================================================== *)
(** ** app.py: count_metabolites *)
(* ===================================================================== *)

(** A cell as a summand: a missing value is skipped (counts as 0), a text
    takes the reduction out of the numbers. *)
Definition number (c : cell) : result Q :=
  match c with
  | NaN => Ok 0%Q
  | IntV z => Ok (inject_Z z)
  | FloatV q => Ok q
  | StrV _ => Raise TypeError
  end.

Definition sum_numbers (xs : list Q) : Q := fold_left Qplus xs 0%Q.

Definition sum_cells (cs : list cell) : result Q :=
  xs <- mapM number cs ;; Ok (sum_numbers xs).

Definition column_cells (j : nat) (df : DataFrame) : list cell :=
  map (fun r : row => nth j (snd r) NaN) (rows df).

(** [df.columns[4:]], each label with its position. *)
Definition metabolite_columns (df : DataFrame) : list (nat * string) :=
  skipn 4 (combine (seq 0 (length (columns df))) (columns df)).

(** [df[metabolite_columns].sum()]: a Series over the metabolite labels. *)
Definition count_metabolites (df : DataFrame) : result (list (string * Q)) :=
  mapM (fun jl : nat * string =>
          s <- sum_cells (column_cells (fst jl) df) ;; Ok (snd jl, s))
       (metabolite_columns df).

(** [.sum()] of that Series. *)
Definition total (s : list (string * Q)) : Q := sum_numbers (map snd s).

(* ===================================================================== *)
(** ** app.py: compute_statistics *)
(* ===================================================================== *)

(** [series.unique()]: the values in order of first appearance. *)
Definition unique (l : list cell) : list cell :=
  fold_left (fun seen v => if existsb (fun k => cell_same k v) seen then seen
                           else seen ++ [v]) l [].

(** [df[key_df['is_type_strain_header'] == v]] *)
Definition masked (df key_df : DataFrame) (v : Z) : result DataFrame :=
  col <- getitem key_df is_type_strain_header ;;
  getitem_bool df (eq_scalar col (IntV v)).

(** [len(df[...]['species'].unique())] *)
Definition species_count (sel : DataFrame) : result nat :=
  sp <- getitem sel species ;; Ok (length (unique (values sp))).

(** [count_metabolites(df[...]).sum()] *)
Definition metabolite_total (sel : DataFrame) : result Q :=
  s <- count_metabolites sel ;; Ok (total s).

Record stats_row : Type := mkStats {
  Category : string;
  Species_Count : nat;
  Prod_Metabolites : Q;
  Util_Metabolites : Q;
  Anti_Metabolites : Q
}.

Definition compute_statistics (prod_df util_df anti_df : DataFrame)
  : result (list stats_row) :=
  (* Type strain statistics *)
  type_strain_species_count <- (sel <- masked prod_df prod_df 1 ;; species_count sel) ;;
  type_strain_prod <- (sel <- masked prod_df prod_df 1 ;; metabolite_total sel) ;;
  type_strain_util <- (sel <- masked util_df prod_df 1 ;; metabolite_total sel) ;;
  type_strain_anti <- (sel <- masked anti_df prod_df 1 ;; metabolite_total sel) ;;
  (* Non-type strain statistics *)
  non_type_strain_species_count <- (sel <- masked prod_df prod_df 0 ;; species_count sel) ;;
  non_type_strain_prod <- (sel <- masked prod_df prod_df 0 ;; metabolite_total sel) ;;
  non_type_strain_util <- (sel <- masked util_df prod_df 0 ;; metabolite_total sel) ;;
  non_type_strain_anti <- (sel <- masked anti_df prod_df 0 ;; metabolite_total sel) ;;
  (* Summing both *)
  let total_species_count := (type_strain_species_count + non_type_strain_species_count)%nat in
  let total_prod := (type_strain_prod + non_type_strain_prod)%Q in
  let total_util := (type_strain_util + non_type_strain_util)%Q in
  let total_anti := (type_strain_anti + non_type_strain_anti)%Q in
  Ok [ mkStats "Type Strain" type_strain_species_count type_strain_prod
               type_strain_util type_strain_anti;
       mkStats "Non-Type Strain" non_type_strain_species_count non_type_strain_prod
               non_type_strain_util non_type_strain_anti;
       mkStats "Total" total_species_count total_prod total_util total_anti ].

(* ===================================================================== *)
(** ** app.py: the checkbox dispatch *)
(* ===================================================================== *)

(** The frames the analyses read, from the two checkboxes. *)
Definition filtered_frames (show_type_strain_1 show_type_strain_0 : bool)
  (prod_df util_df anti_df : DataFrame)
  : result (DataFrame * DataFrame * DataFrame) :=
  if show_type_strain_1 && negb show_type_strain_0 then
    p <- filter_by_type_strain prod_df (IntV 1) ;;
    u <- filter_by_type_strain util_df (IntV 1) ;;
    a <- filter_by_type_strain anti_df (IntV 1) ;;
    Ok (p, u, a)
  else if negb show_type_strain_1 && show_type_strain_0 then
    p <- filter_by_type_strain prod_df (IntV 0) ;;
    u <- filter_by_type_strain util_df (IntV 0) ;;
    a <- filter_by_type_strain anti_df (IntV 0) ;;
    Ok (p, u, a)
  else
    Ok (prod_df, util_df, anti_df).

(* ===================================================================== *)
(** ** pandas' value_counts and head; the top species *)
(* ===================================================================== *)

(** One more occurrence of [k] in a frequency table kept in order of first
    appearance. *)
Fixpoint bump (k : cell) (tbl : list (cell * nat)) : list (cell * nat) :=
  match tbl with
  | [] => [(k, 1%nat)]
  | (k', c) :: t => if cell_same k' k then (k', S c) :: t
                    else (k', c) :: bump k t
  end.

(** The frequency table of the values that are not missing. *)
Definition frequency_table (vals : list cell) : list (cell * nat) :=
  fold_left (fun tbl v => if isna v then tbl else bump v tbl) vals [].

(** Insertion into a list ascending by count: the entry goes in front of the
    first entry whose count is not smaller than its own. *)
Fixpoint insert (x : cell * nat) (l : list (cell * nat)) : list (cell * nat) :=
  match l with
  | [] => [x]
  | y :: t => if (snd x <=? snd y)%nat then x :: y :: t else y :: insert x t
  end.

(** Ascending sort, taking the entries from left to right. *)
Definition argsort (l : list (cell * nat)) : list (cell * nat) :=
  fold_left (fun sorted x => insert x sorted) l [].

(** [sort_values(ascending=False)] as pandas' nargsort does it: the entries
    reversed, sorted ascending, reversed again.  pandas promises the
    descending order only.  The ascending sort is numpy's default one, which
    is not stable: where entries of equal count end up depends on the
    versions of pandas and numpy at hand.  The model takes the order pandas
    2.2 is seen to give on a short Series, in which equal counts come out in
    the reverse of their order in the Series. *)
Definition sort_values_descending (l : list (cell * nat)) : list (cell * nat) :=
  rev (argsort (rev l)).

(** [series.value_counts()] *)
Definition value_counts (s : Series cell) : list (cell * nat) :=
  sort_values_descending (frequency_table (values s)).

(** [.head(n)] *)
Definition head {A : Type} (n : nat) (l : list A) : list A := firstn n l.

(** [df[column].value_counts().head(n)]; the three "Top 10 ... Species"
    buttons evaluate it with column 'species' and n = 10. *)
Definition top_categorical_counts (df : DataFrame) (column : string) (n : nat)
  : result (list (cell * nat)) :=
  s <- getitem df column ;; Ok (head n (value_counts s)).

Definition top_10_species (df : DataFrame) : result (list (cell * nat)) :=
  top_categorical_counts df species 10.

(* ===================================================================== *)
(** ** Vocabulary of the statements *)
(* ===================================================================== *)

(** The cell of a row in column [j]. *)
Definition cell_at (j : nat) (r : row) : cell := nth j (snd r) NaN.

(** A cell that equals 0 or equals 1 (as an int64 or as a float64). *)
Definition zero_or_one (c : cell) : bool :=
  cell_eqb c (IntV 0) || cell_eqb c (IntV 1).

(** The frame has a type-strain column and its cells are all 0 or 1. *)
Definition binary_type_strain (df : DataFrame) : Prop :=
  exists s, getitem df is_type_strain_header = Ok s /\
            Forall (fun c => zero_or_one c = true) (values s).

(** The rows of [df] whose cell in column [j] equals [v], in a frame. *)
Definition rows_where (j : nat) (v : cell) (df : DataFrame) : DataFrame :=
  {| columns := columns df;
     rows := filter (fun r => cell_eqb (cell_at j r) v) (rows df) |}.

(** The rows of [df] at the positions where the row of [key_df] at the same
    position has [v] in column [j]. *)
Definition rows_at (key_df : DataFrame) (j : nat) (v : cell) (df : DataFrame)
  : DataFrame :=
  {| columns := columns df;
     rows := take_mask (map (fun r => cell_eqb (cell_at j r) v) (rows key_df))
                       (rows df) |}.

(** [r] is the statistics row of the partition of value [v]: the species
    and the production metabolites of the prod rows of that value, and the
    metabolites of the util and anti rows selected by the same prod key. *)
Definition partition_row (prod_df util_df anti_df : DataFrame) (v : Z)
  (r : stats_row) : Prop :=
  exists sel_prod sel_util sel_anti,
    masked prod_df prod_df v = Ok sel_prod /\
    masked util_df prod_df v = Ok sel_util /\
    masked anti_df prod_df v = Ok sel_anti /\
    species_count sel_prod = Ok (Species_Count r) /\
    metabolite_total sel_prod = Ok (Prod_Metabolites r) /\
    metabolite_total sel_util = Ok (Util_Metabolites r) /\
    metabolite_total sel_anti = Ok (Anti_Metabolites r).

(** The species cells of the rows of [df] with [v] in column [j], [k] being
    the species column. *)
Definition species_of (j k : nat) (v : cell) (df : DataFrame) : list cell :=
  map (cell_at k) (rows (rows_where j v df)).

(** The integer a cell of an integer column stands for. *)
Definition int_of (c : cell) : Z :=
  match c with
  | NaN => 0%Z
  | IntV z => z
  | FloatV q => cast_int64 q
  | StrV s => match read_int s with Some z => z | None => 0%Z end
  end.

(** The frame with the cells of column [j] made integers. *)
Definition clean_column (j : nat) (df : DataFrame) : DataFrame :=
  {| columns := columns df;
     rows := map (fun r : row =>
                    (fst r, set_nth j (IntV (int_of (cell_at j r))) (snd r)))
                 (rows df) |}.

(** The column labels load_and_clean_data keeps. *)
Definition kept (label : string) : bool :=
  negb (String.eqb label strain_number_header).

(** The cell an integer column of the loaded frame holds for a data line:
    0 for a missing field, the number read, cast to int64, otherwise. *)
Definition cleaned (fld : string) (c : cell) : Prop :=
  exists z, c = IntV z /\
    (is_na fld = true -> z = 0%Z) /\
    (is_na fld = false -> exists q, read_float fld = Some q /\ z = cast_int64 q).

(** The sorted list while the insertion sort runs: [fill l] has taken the
    entries of [l] from the last to the first. *)
Definition fill (l : list (cell * nat)) : list (cell * nat) :=
  fold_right insert [] l.

(** The frame the loader builds from the cells read: the two integer columns
    cleaned, the strain-number column dropped. *)
Definition loaded_frame (f : csv) (data : list (list cell)) (j1 j2 : nat)
  : DataFrame :=
  keep_columns (map kept (header f))
    (clean_column j2
       (clean_column j1
          {| columns := header f;
             rows := combine (seq 0 (length data)) data |})).

(** [a] stands somewhere before [b] in the list. *)
Fixpoint precedes {A : Type} (a b : A) (l : list A) : Prop :=
  match l with
  | [] => False
  | x :: t => (x = a /\ In b t) \/ precedes a b t
  end.

(** The values that are not missing. *)
Definition dropna (l : list cell) : list cell :=
  filter (fun v => negb (isna v)) l.

(** How many of the values are the value [v]. *)
Definition occurrences (v : cell) (vals : list cell) : nat :=
  length (filter (cell_same v) vals).

(* ===================================================================== *)
(** ** Sample files *)
(* ===================================================================== *)

Definition fixed_header : list string :=
  [ID; species; is_type_strain_header; designation_header; strain_number_header].

(** Two strains of one species, the first a type strain. *)
Definition prod_csv : csv :=
  mkCsv (fixed_header ++ ["metA"; "metB"])
        [ ["1"; "Bacillus"; "1"; "x"; "s1"; "2"; "0"];
          ["2"; "Bacillus"; "0"; "y"; "s2"; "0"; "3"] ].

(** The same strains, with the type-strain marks the other way round. *)
Definition util_csv : csv :=
  mkCsv (fixed_header ++ ["metC"])
        [ ["1"; "Bacillus"; "0"; "x"; "s1"; "5"];
          ["2"; "Bacillus"; "1"; "y"; "s2"; "7"] ].

(** One strain only, its identifier and its mark left blank. *)
Definition anti_csv : csv :=
  mkCsv (fixed_header ++ ["metD"])
        [ [EmptyString; "Bacillus"; EmptyString; "x"; "s1"; "1"] ].

(** A file without the species and the designation columns. *)
Definition bare_csv : csv :=
  mkCsv [ID; is_type_strain_header; strain_number_header; "metA"]
        [ ["1"; "1"; "s1"; "2"] ].

(** A file without the type-strain and the strain-number columns. *)
Definition short_csv : csv :=
  mkCsv [ID; species; designation_header; "metA"]
        [ ["1"; "Bacillus"; "x"; "2"] ].

Definition sample_files : files :=
  fun path =>
    if String.eqb path "metabolites/prod.csv" then Some prod_csv
    else if String.eqb path "metabolites/util.csv" then Some util_csv
    else if String.eqb path "metabolites/anti.csv" then Some anti_csv
    else if String.eqb path "metabolites/bare.csv" then Some bare_csv
    else if String.eqb path "metabolites/short.csv" then Some short_csv
    else None.

Definition loaded_columns (metabolites : list string) : list string :=
  [ID; species; is_type_strain_header; designation_header] ++ metabolites.

Definition sample_prod : DataFrame :=
  {| columns := loaded_columns ["metA"; "metB"];
     rows := [ (0%nat, [IntV 1; StrV "Bacillus"; IntV 1; StrV "x"; IntV 2; IntV 0]);
               (1%nat, [IntV 2; StrV "Bacillus"; IntV 0; StrV "y"; IntV 0; IntV 3]) ] |}.

Definition sample_util : DataFrame :=
  {| columns := loaded_columns ["metC"];
     rows := [ (0%nat, [IntV 1; StrV "Bacillus"; IntV 0; StrV "x"; IntV 5]);
               (1%nat, [IntV 2; StrV "Bacillus"; IntV 1; StrV "y"; IntV 7]) ] |}.

Definition sample_anti : DataFrame :=
  {| columns := loaded_columns ["metD"];
     rows := [ (0%nat, [IntV 0; StrV "Bacillus"; IntV 0; StrV "x"; IntV 1]) ] |}.

Definition sample_bare : DataFrame :=
  {| columns := [ID; is_type_strain_header; "metA"];
     rows := [ (0%nat, [IntV 1; IntV 1; IntV 2]) ] |}.

(** A table of strains, one row for each species name given. *)
Definition strains_of (names : list string) : DataFrame :=
  {| columns := loaded_columns [];
     rows := combine (seq 0 (length names))
               (map (fun s => [IntV 0; StrV s; IntV 0; StrV "x"]) names) |}.

(** Thirteen strains of three species: five of A, five of B, three of C. *)
Definition sample_species : DataFrame :=
  strains_of ["A"; "B"; "C"; "B"; "A"; "A"; "B"; "C"; "B"; "A"; "C"; "B"; "A"].


(* ===================================================================== *)
(** ** app.py: the top metabolites *)
(* ===================================================================== *)

(** Insertion into a list ascending by sum: the entry goes in front of the
    first entry whose sum is not smaller than its own. *)
Fixpoint insert_sum (x : string * Q) (l : list (string * Q)) : list (string * Q) :=
  match l with
  | [] => [x]
  | y :: t => if Qle_bool (snd x) (snd y) then x :: y :: t
              else y :: insert_sum x t
  end.

Definition argsort_sums (l : list (string * Q)) : list (string * Q) :=
  fold_left (fun sorted x => insert_sum x sorted) l [].

(** [sort_values(ascending=False)] on the Series of the metabolite counts,
    in the way of [sort_values_descending]. *)
Definition sort_sums_descending (l : list (string * Q)) : list (string * Q) :=
  rev (argsort_sums (rev l)).

(** [count_metabolites(df).sort_values(ascending=False).head(n)]; the three
    "Top 10 ... Metabolites" buttons evaluate it with n = 10. *)
Definition top_metabolites (df : DataFrame) (n : nat)
  : result (list (string * Q)) :=
  s <- count_metabolites df ;; Ok (head n (sort_sums_descending s)).

Definition top_10_metabolites (df : DataFrame) : result (list (string * Q)) :=
  top_metabolites df 10.

(* ===================================================================== *)
(** ** app.py: the script *)
(* ===================================================================== *)

(** What one run of the script puts on the page, in the order of the calls. *)
Inductive element : Type :=
| Title (text : string)                  (* st.title *)
| Text (text : string)                   (* st.write of a str *)
| Table (t : list stats_row)             (* st.write of the statistics frame *)
| Sums (s : list (string * Q))           (* st.write of a Series of counts *)
| Counts (s : list (cell * nat))         (* st.write of a value_counts Series *)
| SidebarHeader (text : string)          (* st.sidebar.header *)
| SidebarCheckbox (label : string)       (* st.sidebar.checkbox *)
| SidebarButton (label : string).        (* st.sidebar.button *)

(** The state of the widgets in a run: what the two checkboxes and the nine
    buttons return. *)
Record widgets : Type := mkWidgets {
  show_type_strain_1 : bool;
  show_type_strain_0 : bool;
  show_prod_count : bool;
  show_util_count : bool;
  show_anti_count : bool;
  show_prod_species : bool;
  show_util_species : bool;
  show_anti_species : bool;
  show_prod_metabolites : bool;
  show_util_metabolites : bool;
  show_anti_metabolites : bool
}.

(** A piece of the script: from what is on the page so far to the page after
    it and its value, or the exception that stopped the run there. *)
Definition script (A : Type) : Type := list element -> list element * result A.

Definition ret {A : Type} (a : A) : script A := fun page => (page, Ok a).

Definition then_ {A B : Type} (m : script A) (k : A -> script B) : script B :=
  fun page =>
    match m page with
    | (page', Ok a) => k a page'
    | (page', Raise e) => (page', Raise e)
    end.

Notation "x <~ m ;; k" := (then_ m (fun x => k))
  (at level 61, m at next level, right associativity).

(** A call that puts an element on the page. *)
Definition render (e : element) : script unit :=
  fun page => (page ++ [e], Ok tt).

(** A computation that puts nothing on the page. *)
Definition eval {A : Type} (r : result A) : script A := fun page => (page, r).

Definition checkbox (label : string) (state : bool) : script bool :=
  _ <~ render (SidebarCheckbox label) ;; ret state.

Definition button (label : string) (state : bool) : script bool :=
  _ <~ render (SidebarButton label) ;; ret state.

(** [if pressed: st.write(heading); st.write(analysis)] *)
Definition show {A : Type} (pressed : bool) (heading : string)
  (analysis : result A) (as_element : A -> element) : script unit :=
  if pressed then
    _ <~ render (Text heading) ;;
    x <~ eval analysis ;;
    render (as_element x)
  else ret tt.

(** The script, from its first line to its last. *)
Definition app (fs : files) (w : widgets) : script unit :=
  prod_df <~ eval (load_and_clean_data fs "metabolites/prod.csv") ;;
  util_df <~ eval (load_and_clean_data fs "metabolites/util.csv") ;;
  anti_df <~ eval (load_and_clean_data fs "metabolites/anti.csv") ;;
  _ <~ render (Title "Metabolites Overview") ;;
  _ <~ render (Text "### Broad Statistics for Type and Non-Type Strains") ;;
  stats_df <~ eval (compute_statistics prod_df util_df anti_df) ;;
  _ <~ render (Table stats_df) ;;
  _ <~ render (SidebarHeader "Filter by Type Strain") ;;
  show_1 <~ checkbox "Show Type Strain (1)" (show_type_strain_1 w) ;;
  show_0 <~ checkbox "Show Non-Type Strain (0)" (show_type_strain_0 w) ;;
  filtered <~ eval (filtered_frames show_1 show_0 prod_df util_df anti_df) ;;
  let prod_df_filtered := fst (fst filtered) in
  let util_df_filtered := snd (fst filtered) in
  let anti_df_filtered := snd filtered in
  _ <~ render (SidebarHeader "Select Analysis") ;;
  b1 <~ button "Show Production Metabolite Count" (show_prod_count w) ;;
  b2 <~ button "Show Utilization Metabolite Count" (show_util_count w) ;;
  b3 <~ button "Show Antimicrobial Metabolite Count" (show_anti_count w) ;;
  b4 <~ button "Show Top 10 Production Species" (show_prod_species w) ;;
  b5 <~ button "Show Top 10 Utilization Species" (show_util_species w) ;;
  b6 <~ button "Show Top 10 Antimicrobial Species" (show_anti_species w) ;;
  b7 <~ button "Show Top 10 Production Metabolites" (show_prod_metabolites w) ;;
  b8 <~ button "Show Top 10 Utilization Metabolites" (show_util_metabolites w) ;;
  b9 <~ button "Show Top 10 Antimicrobial Metabolites" (show_anti_metabolites w) ;;
  _ <~ show b1 "### Total Production Metabolite Count"
            (count_metabolites prod_df_filtered) Sums ;;
  _ <~ show b2 "### Total Utilization Metabolite Count"
            (count_metabolites util_df_filtered) Sums ;;
  _ <~ show b3 "### Total Antimicrobial Metabolite Count"
            (count_metabolites anti_df_filtered) Sums ;;
  _ <~ show b4 "### Top 10 Species Producing Metabolites"
            (top_10_species prod_df_filtered) Counts ;;
  _ <~ show b5 "### Top 10 Species Utilizing Metabolites"
            (top_10_species util_df_filtered) Counts ;;
  _ <~ show b6 "### Top 10 Species with Antimicrobial Metabolites"
            (top_10_species anti_df_filtered) Counts ;;
  _ <~ show b7 "### Top 10 Production Metabolites"
            (top_10_metabolites prod_df_filtered) Sums ;;
  _ <~ show b8 "### Top 10 Utilization Metabolites"
            (top_10_metabolites util_df_filtered) Sums ;;
  show b9 "### Top 10 Antimicrobial Metabolites"
       (top_10_metabolites anti_df_filtered) Sums.

(** A run from the empty page: the page at the end, and how the run ended. *)
Definition run (fs : files) (w : widgets) : list element * result unit :=
  app fs w [].

(** The widgets of a first visit: both checkboxes ticked, no button pressed. *)
Definition first_visit : widgets :=
  mkWidgets true true false false false false false false false false false.

(* ===================================================================== *)
(** ** Vocabulary of the further properties *)
(* ===================================================================== *)

(** A frame with its columns and no row. *)
Definition no_rows (df : DataFrame) : DataFrame :=
  {| columns := columns df; rows := [] |}.

(** Every row has one cell per column. *)
Definition rectangular (df : DataFrame) : Prop :=
  Forall (fun r : row => length (snd r) = length (columns df)) (rows df).

(** A cell that is not a text: it can be summed. *)
Definition numeric (c : cell) : bool :=
  match c with StrV _ => false | _ => true end.

(** A cell that sums as an integer: an int64 or a missing value. *)
Definition integral (c : cell) : bool :=
  match c with NaN | IntV _ => true | _ => false end.

(** Every cell of the frame from the fifth column on satisfies [P]. *)
Definition metabolites_all (P : cell -> bool) (df : DataFrame) : Prop :=
  Forall (fun r : row => forallb P (skipn 4 (snd r)) = true) (rows df).

Definition sumZ (zs : list Z) : Z := fold_right Z.add 0%Z zs.

(** The sum of column [j] of a frame of integers. *)
Definition column_sum (j : nat) (df : DataFrame) : Z :=
  sumZ (map (fun r : row => int_of (cell_at j r)) (rows df)).

(** The sum of all the metabolite cells of a frame of integers. *)
Definition grand_sum (df : DataFrame) : Z :=
  sumZ (map (fun jl : nat * string => column_sum (fst jl) df)
            (metabolite_columns df)).

(** The list the insertion sort of the sums builds, taking the entries of
    [l] from the last to the first. *)
Definition fill_sums (l : list (string * Q)) : list (string * Q) :=
  fold_right insert_sum [] l.

(** The occurrences a frequency table accounts for. *)
Definition sum_counts (l : list (cell * nat)) : nat :=
  fold_right (fun e acc => (snd e + acc)%nat) 0%nat l.

(** The metabolite cells of the rows of a frame. *)
Definition metabolite_cells (df : DataFrame) : list (list cell) :=
  map (fun r : row => skipn 4 (snd r)) (rows df).

(** Two frames with the same index, as many columns and the same metabolite
    cells; their first four columns may differ. *)
Definition same_metabolites (df df' : DataFrame) : Prop :=
  index df = index df' /\
  length (columns df) = length (columns df') /\
  metabolite_cells df = metabolite_cells df'.

(** The page of a run in which no button is pressed: the title, the
    statistics and the widgets of the sidebar. *)
Definition base_page (st : list stats_row) : list element :=
  [ Title "Metabolites Overview";
    Text "### Broad Statistics for Type and Non-Type Strains";
    Table st;
    SidebarHeader "Filter by Type Strain";
    SidebarCheckbox "Show Type Strain (1)";
    SidebarCheckbox "Show Non-Type Strain (0)";
    SidebarHeader "Select Analysis";
    SidebarButton "Show Production Metabolite Count";
    SidebarButton "Show Utilization Metabolite Count";
    SidebarButton "Show Antimicrobial Metabolite Count";
    SidebarButton "Show Top 10 Production Species";
    SidebarButton "Show Top 10 Utilization Species";
    SidebarButton "Show Top 10 Antimicrobial Species";
    SidebarButton "Show Top 10 Production Metabolites";
    SidebarButton "Show Top 10 Utilization Metabolites";
    SidebarButton "Show Top 10 Antimicrobial Metabolites" ].

(** The three tables are loaded from the script's three paths. *)
Definition loaded (fs : files) (prod_df util_df anti_df : DataFrame) : Prop :=
  load_and_clean_data fs "metabolites/prod.csv" = Ok prod_df /\
  load_and_clean_data fs "metabolites/util.csv" = Ok util_df /\
  load_and_clean_data fs "metabolites/anti.csv" = Ok anti_df.

(** The nine blocks at the end of the script, run on three given frames:
    what the buttons pressed put on the page. *)
Definition analyses (w : widgets) (prod_frame util_frame anti_frame : DataFrame)
  : script unit :=
  _ <~ show (show_prod_count w) "### Total Production Metabolite Count"
            (count_metabolites prod_frame) Sums ;;
  _ <~ show (show_util_count w) "### Total Utilization Metabolite Count"
            (count_metabolites util_frame) Sums ;;
  _ <~ show (show_anti_count w) "### Total Antimicrobial Metabolite Count"
            (count_metabolites anti_frame) Sums ;;
  _ <~ show (show_prod_species w) "### Top 10 Species Producing Metabolites"
            (top_10_species prod_frame) Counts ;;
  _ <~ show (show_util_species w) "### Top 10 Species Utilizing Metabolites"
            (top_10_species util_frame) Counts ;;
  _ <~ show (show_anti_species w)
            "### Top 10 Species with Antimicrobial Metabolites"
            (top_10_species anti_frame) Counts ;;
  _ <~ show (show_prod_metabolites w) "### Top 10 Production Metabolites"
            (top_10_metabolites prod_frame) Sums ;;
  _ <~ show (show_util_metabolites w) "### Top 10 Utilization Metabolites"
            (top_10_metabolites util_frame) Sums ;;
  show (show_anti_metabolites w) "### Top 10 Antimicrobial Metabolites"
       (top_10_metabolites anti_frame) Sums.

(** A frame as read_csv returns one: float64 in the ID and the type-strain
    columns, with gaps. *)
Definition sample_read : DataFrame :=
  {| columns := fixed_header ++ ["metD"];
     rows := [ (0%nat, [NaN; StrV "Bacillus"; FloatV 1; StrV "x"; StrV "s1"; IntV 1]);
               (1%nat, [FloatV (5 # 2); StrV "Bacillus"; NaN; StrV "y"; StrV "s2";
                        IntV 4]) ] |}.

(** That frame after the loader's cleaning. *)
Definition sample_cleaned : DataFrame :=
  {| columns := loaded_columns ["metD"];
     rows := [ (0%nat, [IntV 0; StrV "Bacillus"; IntV 1; StrV "x"; IntV 1]);
               (1%nat, [IntV 2; StrV "Bacillus"; IntV 0; StrV "y"; IntV 4]) ] |}.

(** A piece of the script only adds to the page. *)
Definition appends {A : Type} (m : script A) : Prop :=
  forall page, exists rest, fst (m page) = page ++ rest.

(** Splits a hypothesis [(x <- m ;; k) = Ok b] into its two runs. *)
Ltac bind_inv H :=
  match type of H with
  | bind ?m _ = Ok _ =>
      let a := fresh "a" in
      let Ha := fresh "Hrun" in
      destruct m as [a |] eqn:Ha; [simpl in H | discriminate H]
  end.

(* ===================================================================== *)
(** * Properties *)
(* ===================================================================== *)

(** ** Results *)

Lemma bind_Ok {A B : Type} (m : result A) (k : A -> result B) (b : B) :
  bind m k = Ok b -> exists a, m = Ok a /\ k a = Ok b.
Proof.
  destruct m as [a | e]; simpl; intros H; [exists a; auto | discriminate].
Qed.

Lemma bind_Raise {A B : Type} (m : result A) (k : A -> result B) (e : exn) :
  m = Raise e -> bind m k = Raise e.
Proof. intros ->. reflexivity. Qed.

Lemma mapM_Ok_length {A B : Type} (f : A -> result B) (l : list A) (r : list B) :
  mapM f l = Ok r -> length r = length l.
Proof.
  revert r; induction l as [| x t IH]; simpl; intros r H.
  - injection H as <-. reflexivity.
  - bind_inv H. bind_inv H. injection H as <-. simpl. f_equal. eauto.
Qed.

Lemma mapM_Ok_nth {A B : Type} (f : A -> result B) (l : list A) (r : list B) :
  mapM f l = Ok r ->
  forall i x, nth_error l i = Some x ->
  exists y, nth_error r i = Some y /\ f x = Ok y.
Proof.
  revert r; induction l as [| a t IH]; simpl; intros r H i x Hi.
  - destruct i; discriminate.
  - bind_inv H. bind_inv H. injection H as <-.
    destruct i as [| i]; simpl in *.
    + injection Hi as <-. eauto.
    + eauto.
Qed.

Lemma mapM_total {A B : Type} (f : A -> result B) (g : A -> B) (l : list A) :
  (forall x, In x l -> f x = Ok (g x)) -> mapM f l = Ok (map g l).
Proof.
  induction l as [| a t IH]; simpl; intros H; [reflexivity |].
  rewrite (H a) by auto. simpl. rewrite IH by auto. reflexivity.
Qed.

Lemma mapM_Raise {A B : Type} (f : A -> result B) (l : list A) (x : A) (e : exn) :
  In x l -> f x = Raise e -> exists e', mapM f l = Raise e'.
Proof.
  induction l as [| a t IH]; simpl; intros Hin Hx; [contradiction |].
  destruct Hin as [-> | Hin].
  - rewrite Hx. simpl. eauto.
  - destruct (f a); simpl; [| eauto].
    destruct (IH Hin Hx) as (e' & ->). simpl. eauto.
Qed.

(** ** Masks and columns *)

Lemma take_mask_map {A : Type} (f : A -> bool) (l : list A) :
  take_mask (map f l) l = filter f l.
Proof.
  unfold take_mask. induction l as [| x t IH]; simpl; [reflexivity |].
  destruct (f x); simpl; rewrite IH; reflexivity.
Qed.

Lemma index_equals_refl (l : list nat) : index_equals l l = true.
Proof.
  unfold index_equals. destruct (list_eq_dec Nat.eq_dec l l); congruence.
Qed.

Lemma getitem_Ok (df : DataFrame) (label : string) (s : Series cell) :
  getitem df label = Ok s ->
  exists j, position label (columns df) = Some j /\
            s = map (fun r : row => (fst r, nth j (snd r) NaN)) (rows df).
Proof.
  unfold getitem. destruct (position label (columns df)) as [j |]; intros H.
  - injection H as <-. eauto.
  - discriminate.
Qed.

Lemma getitem_labels (df : DataFrame) (label : string) (s : Series cell) :
  getitem df label = Ok s -> labels s = index df.
Proof.
  intros H. apply getitem_Ok in H. destruct H as (j & _ & ->).
  unfold labels, index. rewrite map_map. reflexivity.
Qed.

Lemma eq_scalar_labels (s : Series cell) (v : cell) :
  labels (eq_scalar s v) = labels s.
Proof. unfold labels, eq_scalar. rewrite map_map. reflexivity. Qed.

(** Filtering a frame on its own column keeps, in order, the rows whose cell
    equals the value. *)
Lemma filter_by_type_strain_rows (df : DataFrame) (v : cell) (j : nat) :
  position is_type_strain_header (columns df) = Some j ->
  filter_by_type_strain df v =
    Ok {| columns := columns df;
          rows := filter (fun r => cell_eqb (cell_at j r) v) (rows df) |}.
Proof.
  intros Hj. unfold filter_by_type_strain, getitem. rewrite Hj. simpl.
  unfold getitem_bool, check_bool_indexer.
  rewrite eq_scalar_labels. unfold labels at 1. rewrite map_map. simpl.
  fold (index df). rewrite index_equals_refl. simpl.
  f_equal. f_equal.
  unfold values, eq_scalar. rewrite !map_map. simpl.
  apply (take_mask_map (fun r => cell_eqb (cell_at j r) v)).
Qed.

Lemma filter_partition_Permutation {A : Type} (f g : A -> bool) (l : list A) :
  (forall x, In x l -> f x = negb (g x)) ->
  Permutation (filter f l ++ filter g l) l.
Proof.
  induction l as [| x t IH]; simpl; intros H; [constructor |].
  assert (Hx : f x = negb (g x)) by auto.
  assert (IH' : Permutation (filter f t ++ filter g t) t) by auto.
  destruct (g x); simpl in Hx; rewrite Hx; simpl.
  - apply Permutation_sym, Permutation_cons_app, Permutation_sym, IH'.
  - constructor. exact IH'.
Qed.

Lemma zero_or_one_exclusive (c : cell) :
  zero_or_one c = true -> cell_eqb c (IntV 1) = negb (cell_eqb c (IntV 0)).
Proof.
  unfold zero_or_one. destruct c as [| z | q | s]; simpl; try discriminate.
  - destruct (Z.eqb_spec z 0) as [-> | H0]; simpl; [reflexivity | auto].
  - destruct (Qeq_bool q (inject_Z 0)) eqn:E0; simpl; [| auto].
    intros _. destruct (Qeq_bool q (inject_Z 1)) eqn:E1; [| reflexivity].
    apply Qeq_bool_iff in E0, E1. rewrite E0 in E1. discriminate E1.
Qed.

(** A cell that equals 0 or 1 does not equal a value that equals neither. *)
Lemma zero_or_one_other (c v : cell) :
  zero_or_one c = true ->
  cell_eqb (IntV 0) v = false -> cell_eqb (IntV 1) v = false ->
  cell_eqb c v = false.
Proof.
  unfold zero_or_one. intros Hc H0 H1.
  destruct c as [| z | q | s]; simpl in Hc; try discriminate Hc.
  - apply orb_true_iff in Hc. destruct Hc as [Hc | Hc];
      apply Z.eqb_eq in Hc; subst z; assumption.
  - assert (Hq : forall k : Z, Qeq_bool q (inject_Z k) = true ->
               cell_eqb (IntV k) v = false -> cell_eqb (FloatV q) v = false).
    { intros k Hk Hkv. apply Qeq_bool_iff in Hk.
      destruct v as [| y | p | t]; simpl in *; try reflexivity.
      - destruct (Qeq_bool q (inject_Z y)) eqn:E; [| reflexivity].
        apply Qeq_bool_iff in E. rewrite Hk in E.
        unfold Qeq in E. simpl in E. apply Z.eqb_neq in Hkv. lia.
      - destruct (Qeq_bool q p) eqn:E; [| reflexivity].
        apply Qeq_bool_iff in E. rewrite Hk in E.
        apply Qeq_bool_iff in E. congruence. }
    apply orb_true_iff in Hc. destruct Hc as [Hc | Hc]; eauto.
Qed.

Lemma binary_type_strain_cells (df : DataFrame) :
  binary_type_strain df ->
  exists j, position is_type_strain_header (columns df) = Some j /\
            forall r, In r (rows df) -> zero_or_one (cell_at j r) = true.
Proof.
  intros (s & Hs & Hall). apply getitem_Ok in Hs. destruct Hs as (j & Hj & ->).
  exists j. split; [exact Hj |]. intros r Hr.
  rewrite Forall_forall in Hall. apply Hall.
  unfold values. rewrite map_map. simpl.
  change (nth j (snd r) NaN) with ((fun x : row => nth j (snd x) NaN) r).
  apply in_map. exact Hr.
Qed.

(** C4: on a table whose type-strain values are all 0 or 1, the filter for 1
    and the filter for 0 both return; each result has the table's columns and
    is the table's rows with that value, in their order, cells untouched; and
    the rows of the two results together are, as a multiset, the rows of the
    table. *)
Theorem filter_by_type_strain_partition (df : DataFrame) :
  binary_type_strain df ->
  exists j t1 t0,
    position is_type_strain_header (columns df) = Some j /\
    filter_by_type_strain df (IntV 1) = Ok t1 /\
    filter_by_type_strain df (IntV 0) = Ok t0 /\
    columns t1 = columns df /\ columns t0 = columns df /\
    rows t1 = filter (fun r => cell_eqb (cell_at j r) (IntV 1)) (rows df) /\
    rows t0 = filter (fun r => cell_eqb (cell_at j r) (IntV 0)) (rows df) /\
    Permutation (rows t1 ++ rows t0) (rows df).
Proof.
  intros Hbin. destruct (binary_type_strain_cells df Hbin) as (j & Hj & Hcells).
  exists j. eexists. eexists.
  split; [exact Hj |].
  split; [apply filter_by_type_strain_rows; exact Hj |].
  split; [apply filter_by_type_strain_rows; exact Hj |].
  simpl. repeat split.
  apply filter_partition_Permutation.
  intros r Hr. apply zero_or_one_exclusive, Hcells, Hr.
Qed.

(** C10: on a table whose type-strain values are all 0 or 1, the filter for
    a value that equals neither 0 nor 1 returns, and returns the table's
    columns with no row. *)
Theorem filter_by_type_strain_other_value (df : DataFrame) (v : cell) :
  binary_type_strain df ->
  cell_eqb (IntV 0) v = false ->
  cell_eqb (IntV 1) v = false ->
  filter_by_type_strain df v = Ok {| columns := columns df; rows := [] |}.
Proof.
  intros Hbin H0 H1.
  destruct (binary_type_strain_cells df Hbin) as (j & Hj & Hcells).
  rewrite (filter_by_type_strain_rows df v j Hj). f_equal. f_equal.
  induction (rows df) as [| r t IH]; simpl; [reflexivity |].
  assert (Hr : cell_eqb (cell_at j r) v = false).
  { apply zero_or_one_other; [apply Hcells; left; reflexivity | exact H0 | exact H1]. }
  rewrite Hr. apply IH. intros r' Hr'. apply Hcells. right. exact Hr'.
Qed.

Lemma filter_by_type_strain_partition_witness :
  binary_type_strain sample_prod /\
  exists j t1 t0,
    position is_type_strain_header (columns sample_prod) = Some j /\
    filter_by_type_strain sample_prod (IntV 1) = Ok t1 /\
    filter_by_type_strain sample_prod (IntV 0) = Ok t0 /\
    columns t1 = columns sample_prod /\ columns t0 = columns sample_prod /\
    rows t1 = filter (fun r => cell_eqb (cell_at j r) (IntV 1)) (rows sample_prod) /\
    rows t0 = filter (fun r => cell_eqb (cell_at j r) (IntV 0)) (rows sample_prod) /\
    Permutation (rows t1 ++ rows t0) (rows sample_prod).
Proof.
  assert (Hbin : binary_type_strain sample_prod).
  { eexists. split; [reflexivity |]. simpl.
    repeat (apply Forall_cons; [reflexivity |]). apply Forall_nil. }
  split; [exact Hbin |].
  apply (filter_by_type_strain_partition sample_prod). exact Hbin.
Defined.

Lemma filter_by_type_strain_other_value_witness :
  binary_type_strain sample_prod /\
  cell_eqb (IntV 0) (IntV 2) = false /\
  cell_eqb (IntV 1) (IntV 2) = false /\
  filter_by_type_strain sample_prod (IntV 2)
    = Ok {| columns := columns sample_prod; rows := [] |}.
Proof.
  assert (Hbin : binary_type_strain sample_prod).
  { eexists. split; [reflexivity |]. simpl.
    repeat (apply Forall_cons; [reflexivity |]). apply Forall_nil. }
  split; [exact Hbin |].
  split; [reflexivity |]. split; [reflexivity |].
  apply (filter_by_type_strain_other_value sample_prod (IntV 2));
    [exact Hbin | reflexivity | reflexivity].
Defined.

(** ** The checkbox dispatch *)

(** The frames of the dispatch: with both checkboxes selected, or neither,
    the three tables as they are; with only "Show Type Strain (1)" selected
    each table cut down to its own rows of type-strain value 1, and with only
    "Show Non-Type Strain (0)" selected to its own rows of value 0, every
    table on its own is_type_strain column. *)
Theorem filtered_frames_policy (prod_df util_df anti_df : DataFrame) :
  filtered_frames true true prod_df util_df anti_df
    = Ok (prod_df, util_df, anti_df) /\
  filtered_frames false false prod_df util_df anti_df
    = Ok (prod_df, util_df, anti_df) /\
  forall jp ju ja,
    position is_type_strain_header (columns prod_df) = Some jp ->
    position is_type_strain_header (columns util_df) = Some ju ->
    position is_type_strain_header (columns anti_df) = Some ja ->
    filtered_frames true false prod_df util_df anti_df
      = Ok (rows_where jp (IntV 1) prod_df, rows_where ju (IntV 1) util_df,
            rows_where ja (IntV 1) anti_df) /\
    filtered_frames false true prod_df util_df anti_df
      = Ok (rows_where jp (IntV 0) prod_df, rows_where ju (IntV 0) util_df,
            rows_where ja (IntV 0) anti_df).
Proof.
  split; [reflexivity |]. split; [reflexivity |].
  intros jp ju ja Hp Hu Ha. unfold filtered_frames. simpl.
  rewrite !(filter_by_type_strain_rows prod_df _ jp Hp),
          !(filter_by_type_strain_rows util_df _ ju Hu),
          !(filter_by_type_strain_rows anti_df _ ja Ha).
  split; reflexivity.
Qed.

Lemma filtered_frames_policy_witness :
  position is_type_strain_header (columns sample_prod) = Some 2%nat /\
  position is_type_strain_header (columns sample_util) = Some 2%nat /\
  position is_type_strain_header (columns sample_anti) = Some 2%nat /\
  filtered_frames true false sample_prod sample_util sample_anti
    = Ok (rows_where 2 (IntV 1) sample_prod, rows_where 2 (IntV 1) sample_util,
          rows_where 2 (IntV 1) sample_anti) /\
  filtered_frames false true sample_prod sample_util sample_anti
    = Ok (rows_where 2 (IntV 0) sample_prod, rows_where 2 (IntV 0) sample_util,
          rows_where 2 (IntV 0) sample_anti).
Proof.
  split; [reflexivity |]. split; [reflexivity |]. split; [reflexivity |].
  apply (proj2 (proj2 (filtered_frames_policy sample_prod sample_util sample_anti)));
    reflexivity.
Defined.

(** ** Boolean keys over range indexes *)

Lemma lookup_label_range {A : Type} (key : Series A) (a l : nat) :
  labels key = seq a (length key) -> (a <= l)%nat ->
  lookup_label l key = nth_error (values key) (l - a).
Proof.
  revert a; induction key as [| [k v] t IH]; simpl; intros a Hlab Hle.
  - destruct (l - a)%nat; reflexivity.
  - injection Hlab as -> Hlab.
    destruct (Nat.eqb_spec a l) as [-> | Hne].
    + rewrite Nat.sub_diag. reflexivity.
    + rewrite (IH (S a) Hlab) by lia.
      replace (l - a)%nat with (S (l - S a)) by lia. reflexivity.
Qed.

Lemma map_nth_seq_firstn {A : Type} (l : list A) (d : A) (n : nat) :
  (n <= length l)%nat -> map (fun i => nth i l d) (seq 0 n) = firstn n l.
Proof.
  revert l; induction n as [| n IH]; intros l Hn; [reflexivity |].
  destruct l as [| x t]; simpl in Hn; [lia |].
  simpl. f_equal. rewrite <- seq_shift, map_map. apply IH. lia.
Qed.

Lemma labels_length {A : Type} (s : Series A) : length (labels s) = length s.
Proof. apply length_map. Qed.

Lemma values_length {A : Type} (s : Series A) : length (values s) = length s.
Proof. apply length_map. Qed.

(** A key indexed 0..k-1 against a frame indexed 0..n-1: cut to the frame's
    length when it is long enough, an error when it is shorter. *)
Lemma check_bool_indexer_range (n : nat) (key : Series bool) :
  labels key = seq 0 (length key) ->
  ((n <= length key)%nat ->
     check_bool_indexer (seq 0 n) key = Ok (firstn n (values key))) /\
  ((length key < n)%nat ->
     exists e, check_bool_indexer (seq 0 n) key = Raise e).
Proof.
  intros Hlab. unfold check_bool_indexer, index_equals.
  destruct (list_eq_dec Nat.eq_dec (labels key) (seq 0 n)) as [Heq | Hne].
  - assert (Hn : length key = n).
    { rewrite <- (labels_length key), Heq, length_seq. reflexivity. }
    split; intros Hlen; [| lia].
    rewrite firstn_all2; [reflexivity | rewrite values_length; lia].
  - split; intros Hlen.
    + rewrite (mapM_total _ (fun l => nth l (values key) false)).
      * rewrite map_nth_seq_firstn; [reflexivity | rewrite values_length; lia].
      * intros l Hl. apply in_seq in Hl.
        rewrite (lookup_label_range key 0 l Hlab) by lia.
        rewrite Nat.sub_0_r.
        destruct (nth_error (values key) l) as [b |] eqn:Hb.
        -- rewrite (nth_error_nth _ _ _ Hb). reflexivity.
        -- apply nth_error_None in Hb. rewrite values_length in Hb. lia.
    + apply (mapM_Raise _ _ (length key) IndexingError).
      * apply in_seq. lia.
      * rewrite (lookup_label_range key 0 _ Hlab) by lia.
        rewrite Nat.sub_0_r.
        assert (H : nth_error (values key) (length key) = None).
        { apply nth_error_None. rewrite values_length. lia. }
        rewrite H. reflexivity.
Qed.

Lemma take_mask_firstn {A : Type} (m : list bool) (l : list A) :
  take_mask (firstn (length l) m) l = take_mask m l.
Proof.
  unfold take_mask. f_equal. f_equal.
  revert m; induction l as [| x t IH]; intros m; simpl.
  - destruct m; reflexivity.
  - destruct m as [| b m]; simpl; [reflexivity |]. f_equal. apply IH.
Qed.

(** On frames indexed by position, masking [df] with the type-strain column
    of [key_df] keeps the rows of [df] at the positions of the rows of
    [key_df] holding the value; it raises when [df] is the longer. *)
Lemma masked_range (df key_df : DataFrame) (v : Z) (j : nat) :
  RangeIndex df -> RangeIndex key_df ->
  position is_type_strain_header (columns key_df) = Some j ->
  ((length (rows df) <= length (rows key_df))%nat ->
     masked df key_df v = Ok (rows_at key_df j (IntV v) df)) /\
  ((length (rows key_df) < length (rows df))%nat ->
     exists e, masked df key_df v = Raise e).
Proof.
  intros Hdf Hkey Hj. unfold masked, getitem. rewrite Hj. simpl.
  set (col := map (fun r : row => (fst r, nth j (snd r) NaN)) (rows key_df)).
  assert (Hlen : length (eq_scalar col (IntV v)) = length (rows key_df)).
  { unfold eq_scalar, col. rewrite !length_map. reflexivity. }
  assert (Hlab : labels (eq_scalar col (IntV v))
                 = seq 0 (length (eq_scalar col (IntV v)))).
  { rewrite Hlen, eq_scalar_labels. unfold labels, col. rewrite map_map. exact Hkey. }
  unfold getitem_bool. rewrite Hdf.
  destruct (check_bool_indexer_range (length (rows df)) _ Hlab) as [Hok Herr].
  rewrite Hlen in Hok, Herr. split; intros Hle.
  - rewrite (Hok Hle). simpl. unfold rows_at. f_equal. f_equal.
    rewrite take_mask_firstn. f_equal.
    unfold values, eq_scalar, col. rewrite !map_map. reflexivity.
  - destruct (Herr Hle) as (e & ->). simpl. eauto.
Qed.

(** ** compute_statistics *)

Lemma masked_self (df : DataFrame) (v : Z) :
  masked df df v = filter_by_type_strain df (IntV v).
Proof. reflexivity. Qed.

Lemma masked_Ok_position (df key_df sel : DataFrame) (v : Z) :
  masked df key_df v = Ok sel ->
  exists j, position is_type_strain_header (columns key_df) = Some j.
Proof.
  unfold masked, getitem. intros H.
  destruct (position is_type_strain_header (columns key_df)) as [j |]; [eauto |].
  discriminate H.
Qed.

Lemma species_count_Ok (sel : DataFrame) (n : nat) :
  species_count sel = Ok n ->
  exists k, position species (columns sel) = Some k /\
            n = length (unique (map (cell_at k) (rows sel))).
Proof.
  unfold species_count. intros H. bind_inv H. injection H as <-.
  apply getitem_Ok in Hrun. destruct Hrun as (k & Hk & ->).
  exists k. split; [exact Hk |].
  unfold values. rewrite map_map. reflexivity.
Qed.

(** What a returned summary is made of. *)
Lemma compute_statistics_Ok (prod_df util_df anti_df : DataFrame)
  (st : list stats_row) :
  compute_statistics prod_df util_df anti_df = Ok st ->
  exists ts nts,
    partition_row prod_df util_df anti_df 1 ts /\
    partition_row prod_df util_df anti_df 0 nts /\
    Category ts = "Type Strain" /\ Category nts = "Non-Type Strain" /\
    st = [ts; nts;
          mkStats "Total"
                  (Species_Count ts + Species_Count nts)
                  (Prod_Metabolites ts + Prod_Metabolites nts)
                  (Util_Metabolites ts + Util_Metabolites nts)
                  (Anti_Metabolites ts + Anti_Metabolites nts)].
Proof.
  unfold compute_statistics. intros H.
  destruct (masked prod_df prod_df 1) as [sp1 |] eqn:Hp1; [| discriminate H].
  destruct (masked prod_df prod_df 0) as [sp0 |] eqn:Hp0;
    [| simpl in H; repeat bind_inv H; discriminate H].
  simpl in H.
  destruct (species_count sp1) as [c1 |] eqn:Hc1; [simpl in H | discriminate H].
  destruct (metabolite_total sp1) as [p1 |] eqn:Hm1; [simpl in H | discriminate H].
  destruct (masked util_df prod_df 1) as [su1 |] eqn:Hu1; [simpl in H | discriminate H].
  destruct (metabolite_total su1) as [u1 |] eqn:Hmu1; [simpl in H | discriminate H].
  destruct (masked anti_df prod_df 1) as [sa1 |] eqn:Ha1; [simpl in H | discriminate H].
  destruct (metabolite_total sa1) as [a1 |] eqn:Hma1; [simpl in H | discriminate H].
  destruct (species_count sp0) as [c0 |] eqn:Hc0; [simpl in H | discriminate H].
  destruct (metabolite_total sp0) as [p0 |] eqn:Hm0; [simpl in H | discriminate H].
  destruct (masked util_df prod_df 0) as [su0 |] eqn:Hu0; [simpl in H | discriminate H].
  destruct (metabolite_total su0) as [u0 |] eqn:Hmu0; [simpl in H | discriminate H].
  destruct (masked anti_df prod_df 0) as [sa0 |] eqn:Ha0; [simpl in H | discriminate H].
  destruct (metabolite_total sa0) as [a0 |] eqn:Hma0; [simpl in H | discriminate H].
  injection H as <-.
  exists (mkStats "Type Strain" c1 p1 u1 a1), (mkStats "Non-Type Strain" c0 p0 u0 a0).
  split; [exists sp1, su1, sa1; simpl; auto 10 |].
  split; [exists sp0, su0, sa0; simpl; auto 10 |].
  simpl. auto.
Qed.

Lemma sample_files_load :
  load_and_clean_data sample_files "metabolites/prod.csv" = Ok sample_prod /\
  load_and_clean_data sample_files "metabolites/util.csv" = Ok sample_util /\
  load_and_clean_data sample_files "metabolites/anti.csv" = Ok sample_anti /\
  load_and_clean_data sample_files "metabolites/bare.csv" = Ok sample_bare.
Proof. repeat split; vm_compute; reflexivity. Qed.

(** The species count of a partition: the distinct species cells of the prod
    rows holding the partition's value. *)
Lemma partition_row_species (prod_df util_df anti_df : DataFrame) (v : Z)
  (r : stats_row) :
  partition_row prod_df util_df anti_df v r ->
  exists j k,
    position is_type_strain_header (columns prod_df) = Some j /\
    position species (columns prod_df) = Some k /\
    Species_Count r = length (unique (species_of j k (IntV v) prod_df)).
Proof.
  intros (sp & su & sa & Hsp & _ & _ & Hc & _).
  destruct (masked_Ok_position _ _ _ _ Hsp) as (j & Hj).
  rewrite masked_self, (filter_by_type_strain_rows _ _ j Hj) in Hsp.
  injection Hsp as <-.
  apply species_count_Ok in Hc. destruct Hc as (k & Hk & Hn).
  exists j, k. auto.
Qed.

(** C2: a returned summary has three rows, "Type Strain", "Non-Type Strain"
    and "Total", and every number of the Total row is the sum of the two
    numbers above it.  Its Species Count is the number of distinct species
    among the type-strain rows of prod plus the number among the others: a
    species on both sides is counted on both
    (see [species_on_both_sides_counted_twice]). *)
Theorem compute_statistics_total_row (prod_df util_df anti_df : DataFrame)
  (st : list stats_row) :
  compute_statistics prod_df util_df anti_df = Ok st ->
  exists ts nts tot j k,
    st = [ts; nts; tot] /\
    Category ts = "Type Strain" /\ Category nts = "Non-Type Strain" /\
    Category tot = "Total" /\
    Species_Count tot = (Species_Count ts + Species_Count nts)%nat /\
    Prod_Metabolites tot = (Prod_Metabolites ts + Prod_Metabolites nts)%Q /\
    Util_Metabolites tot = (Util_Metabolites ts + Util_Metabolites nts)%Q /\
    Anti_Metabolites tot = (Anti_Metabolites ts + Anti_Metabolites nts)%Q /\
    position is_type_strain_header (columns prod_df) = Some j /\
    position species (columns prod_df) = Some k /\
    Species_Count ts = length (unique (species_of j k (IntV 1) prod_df)) /\
    Species_Count nts = length (unique (species_of j k (IntV 0) prod_df)).
Proof.
  intros H. apply compute_statistics_Ok in H.
  destruct H as (ts & nts & Hts & Hnts & Hc1 & Hc0 & ->).
  destruct (partition_row_species _ _ _ _ _ Hts) as (j & k & Hj & Hk & Hn1).
  destruct (partition_row_species _ _ _ _ _ Hnts) as (j' & k' & Hj' & Hk' & Hn0).
  rewrite Hj in Hj'. injection Hj' as <-.
  rewrite Hk in Hk'. injection Hk' as <-.
  exists ts, nts. eexists. exists j, k. simpl. repeat split; assumption.
Qed.

Lemma compute_statistics_total_row_witness :
  compute_statistics sample_prod sample_util sample_util
    = Ok [ mkStats "Type Strain" 1 2 5 5; mkStats "Non-Type Strain" 1 3 7 7;
           mkStats "Total" 2 (2 + 3) (5 + 7) (5 + 7) ] /\
  exists ts nts tot j k,
    [ mkStats "Type Strain" 1 2 5 5; mkStats "Non-Type Strain" 1 3 7 7;
      mkStats "Total" 2 (2 + 3) (5 + 7) (5 + 7) ] = [ts; nts; tot] /\
    Category ts = "Type Strain" /\ Category nts = "Non-Type Strain" /\
    Category tot = "Total" /\
    Species_Count tot = (Species_Count ts + Species_Count nts)%nat /\
    Prod_Metabolites tot = (Prod_Metabolites ts + Prod_Metabolites nts)%Q /\
    Util_Metabolites tot = (Util_Metabolites ts + Util_Metabolites nts)%Q /\
    Anti_Metabolites tot = (Anti_Metabolites ts + Anti_Metabolites nts)%Q /\
    position is_type_strain_header (columns sample_prod) = Some j /\
    position species (columns sample_prod) = Some k /\
    Species_Count ts = length (unique (species_of j k (IntV 1) sample_prod)) /\
    Species_Count nts = length (unique (species_of j k (IntV 0) sample_prod)).
Proof.
  split; [reflexivity |].
  apply (compute_statistics_total_row sample_prod sample_util sample_util).
  reflexivity.
Defined.

(** The example of C2: the one species of the sample prod table has a type
    strain and another strain; the Total row counts it twice, while the table
    has one distinct species. *)
Lemma species_on_both_sides_counted_twice :
  exists ts nts tot,
    compute_statistics sample_prod sample_util sample_util = Ok [ts; nts; tot] /\
    Species_Count ts = 1%nat /\ Species_Count nts = 1%nat /\
    Species_Count tot = 2%nat /\
    length (unique (map (cell_at 1) (rows sample_prod))) = 1%nat.
Proof. do 3 eexists. repeat split. Qed.

(** C1: on tables indexed by position, as the loader leaves them, the Util
    and Anti numbers of the row of each partition value p (1 for "Type
    Strain", 0 for "Non-Type Strain") are the metabolite totals of the util
    and anti rows standing at the positions where the prod row has
    is_type_strain = p: the key is prod's column, whatever util's and anti's
    own columns hold (see [util_masked_by_prod_not_by_itself]). *)
Theorem compute_statistics_masks_by_prod (prod_df util_df anti_df : DataFrame)
  (st : list stats_row) :
  RangeIndex prod_df -> RangeIndex util_df -> RangeIndex anti_df ->
  compute_statistics prod_df util_df anti_df = Ok st ->
  exists j ts nts tot,
    position is_type_strain_header (columns prod_df) = Some j /\
    st = [ts; nts; tot] /\
    metabolite_total (rows_at prod_df j (IntV 1) util_df) = Ok (Util_Metabolites ts) /\
    metabolite_total (rows_at prod_df j (IntV 1) anti_df) = Ok (Anti_Metabolites ts) /\
    metabolite_total (rows_at prod_df j (IntV 0) util_df) = Ok (Util_Metabolites nts) /\
    metabolite_total (rows_at prod_df j (IntV 0) anti_df) = Ok (Anti_Metabolites nts).
Proof.
  intros Hp Hu Ha H. apply compute_statistics_Ok in H.
  destruct H as (ts & nts & Hts & Hnts & _ & _ & ->).
  destruct Hts as (sp1 & su1 & sa1 & Hsp1 & Hsu1 & Hsa1 & _ & _ & Hmu1 & Hma1).
  destruct Hnts as (sp0 & su0 & sa0 & Hsp0 & Hsu0 & Hsa0 & _ & _ & Hmu0 & Hma0).
  destruct (masked_Ok_position _ _ _ _ Hsp1) as (j & Hj).
  assert (Hsel : forall df sel v,
             RangeIndex df -> masked df prod_df v = Ok sel ->
             sel = rows_at prod_df j (IntV v) df).
  { intros df sel v Hdf Hsel.
    destruct (masked_range df prod_df v j Hdf Hp Hj) as [Hok Herr].
    destruct (Nat.le_gt_cases (length (rows df)) (length (rows prod_df))) as [Hle | Hgt].
    - rewrite (Hok Hle) in Hsel. injection Hsel as <-. reflexivity.
    - destruct (Herr Hgt) as (e & He). rewrite He in Hsel. discriminate Hsel. }
  exists j, ts, nts. eexists. split; [exact Hj |]. split; [reflexivity |].
  rewrite <- (Hsel _ _ _ Hu Hsu1), <- (Hsel _ _ _ Ha Hsa1),
          <- (Hsel _ _ _ Hu Hsu0), <- (Hsel _ _ _ Ha Hsa0).
  auto.
Qed.

Lemma compute_statistics_masks_by_prod_witness :
  RangeIndex sample_prod /\ RangeIndex sample_util /\ RangeIndex sample_anti /\
  compute_statistics sample_prod sample_util sample_anti
    = Ok [ mkStats "Type Strain" 1 2 5 1; mkStats "Non-Type Strain" 1 3 7 0;
           mkStats "Total" 2 (2 + 3) (5 + 7) (1 + 0) ] /\
  exists j ts nts tot,
    position is_type_strain_header (columns sample_prod) = Some j /\
    [ mkStats "Type Strain" 1 2 5 1; mkStats "Non-Type Strain" 1 3 7 0;
      mkStats "Total" 2 (2 + 3) (5 + 7) (1 + 0) ] = [ts; nts; tot] /\
    metabolite_total (rows_at sample_prod j (IntV 1) sample_util)
      = Ok (Util_Metabolites ts) /\
    metabolite_total (rows_at sample_prod j (IntV 1) sample_anti)
      = Ok (Anti_Metabolites ts) /\
    metabolite_total (rows_at sample_prod j (IntV 0) sample_util)
      = Ok (Util_Metabolites nts) /\
    metabolite_total (rows_at sample_prod j (IntV 0) sample_anti)
      = Ok (Anti_Metabolites nts).
Proof.
  split; [reflexivity |]. split; [reflexivity |]. split; [reflexivity |].
  split; [reflexivity |].
  apply (compute_statistics_masks_by_prod sample_prod sample_util sample_anti);
    reflexivity.
Defined.

(** The example of C1: in the sample util table the type strain is the second
    row, in prod the first.  The "Type Strain" row reports the metabolites of
    util's first row (5), not those of util's own type strain (7). *)
Lemma util_masked_by_prod_not_by_itself :
  exists ts nts tot,
    compute_statistics sample_prod sample_util sample_util = Ok [ts; nts; tot] /\
    Util_Metabolites ts = 5 /\
    (own <- filter_by_type_strain sample_util (IntV 1) ;; metabolite_total own)
      = Ok 7.
Proof. do 3 eexists. repeat split. Qed.

(** C9, as the code has it: on tables indexed by position, when util or anti
    has more rows than prod the key built from prod cannot be aligned with
    it, and compute_statistics raises instead of returning a summary. *)
Theorem compute_statistics_short_prod_raises (prod_df util_df anti_df : DataFrame) :
  RangeIndex prod_df -> RangeIndex util_df -> RangeIndex anti_df ->
  (length (rows prod_df) < length (rows util_df))%nat \/
  (length (rows prod_df) < length (rows anti_df))%nat ->
  exists e, compute_statistics prod_df util_df anti_df = Raise e.
Proof.
  intros Hp Hu Ha Hlen.
  destruct (compute_statistics prod_df util_df anti_df) as [st | e] eqn:H;
    [exfalso | eauto].
  apply compute_statistics_Ok in H.
  destruct H as (ts & _ & (sp1 & su1 & sa1 & Hsp1 & Hsu1 & Hsa1 & _) & _).
  destruct (masked_Ok_position _ _ _ _ Hsp1) as (j & Hj).
  destruct Hlen as [Hlt | Hlt].
  - destruct (masked_range util_df prod_df 1 j Hu Hp Hj) as [_ Herr].
    destruct (Herr Hlt) as (e & He). rewrite He in Hsu1. discriminate Hsu1.
  - destruct (masked_range anti_df prod_df 1 j Ha Hp Hj) as [_ Herr].
    destruct (Herr Hlt) as (e & He). rewrite He in Hsa1. discriminate Hsa1.
Qed.

Lemma compute_statistics_short_prod_raises_witness :
  RangeIndex sample_anti /\ RangeIndex sample_util /\ RangeIndex sample_prod /\
  ((length (rows sample_anti) < length (rows sample_util))%nat \/
   (length (rows sample_anti) < length (rows sample_prod))%nat) /\
  exists e, compute_statistics sample_anti sample_util sample_prod = Raise e.
Proof.
  split; [reflexivity |]. split; [reflexivity |]. split; [reflexivity |].
  split; [left; simpl; lia |].
  apply (compute_statistics_short_prod_raises sample_anti sample_util sample_prod);
    [reflexivity | reflexivity | reflexivity | left; simpl; lia].
Defined.

(** C9 fails as stated: the sample anti table has one row and the prod table
    two, both as loaded, and compute_statistics returns a summary; the key
    built from prod is cut down to anti's one row. *)
Lemma compute_statistics_long_prod_returns :
  load_and_clean_data sample_files "metabolites/prod.csv" = Ok sample_prod /\
  load_and_clean_data sample_files "metabolites/util.csv" = Ok sample_util /\
  load_and_clean_data sample_files "metabolites/anti.csv" = Ok sample_anti /\
  length (rows sample_prod) = 2%nat /\ length (rows sample_anti) = 1%nat /\
  compute_statistics sample_prod sample_util sample_anti
    = Ok [ mkStats "Type Strain" 1 2 5 1; mkStats "Non-Type Strain" 1 3 7 0;
           mkStats "Total" 2 (2 + 3) (5 + 7) (1 + 0) ].
Proof. repeat split; vm_compute; reflexivity. Qed.

(** ** The reader *)

Lemma position_nth_error (label : string) (cols : list string) (j : nat) :
  position label cols = Some j -> nth_error cols j = Some label.
Proof.
  revert j; induction cols as [| c t IH]; simpl; intros j H; [discriminate |].
  destruct (String.eqb_spec c label) as [-> | Hne].
  - injection H as <-. reflexivity.
  - destruct (position label t) as [j0 |]; [| discriminate].
    injection H as <-. simpl. auto.
Qed.

Lemma position_Some_In (label : string) (cols : list string) (j : nat) :
  position label cols = Some j -> In label cols.
Proof.
  intros H. apply position_nth_error in H. eapply nth_error_In. exact H.
Qed.

Lemma position_lt (label : string) (cols : list string) (j : nat) :
  position label cols = Some j -> (j < length cols)%nat.
Proof.
  intros H. apply position_nth_error in H. apply nth_error_Some. congruence.
Qed.

Lemma nth_error_combine_seq {A : Type} (l : list A) (a j : nat) (x : A) :
  nth_error l j = Some x ->
  nth_error (combine (seq a (length l)) l) j = Some ((a + j)%nat, x).
Proof.
  revert a j; induction l as [| y t IH]; intros a j H.
  - destruct j; discriminate.
  - destruct j as [| j]; simpl in *.
    + injection H as <-. rewrite Nat.add_0_r. reflexivity.
    + rewrite (IH (S a) j H). f_equal. f_equal. lia.
Qed.

Lemma column_dtypes_nth (mapping : list (string * dtype)) (f : csv)
  (label : string) (j : nat) (d : dtype) :
  position label (header f) = Some j ->
  lookup_dtype label mapping = Some d ->
  nth_error (column_dtypes mapping f) j = Some d.
Proof.
  intros Hj Hd. apply position_nth_error in Hj.
  unfold column_dtypes. rewrite nth_error_map.
  rewrite (nth_error_combine_seq _ 0 j label Hj). simpl.
  unfold column_dtype. rewrite Hd. reflexivity.
Qed.

Lemma convert_line_Ok (dtypes : list dtype) (line : list string)
  (cells : list cell) :
  convert_line dtypes line = Ok cells ->
  length cells = length dtypes /\
  forall j d, nth_error dtypes j = Some d ->
    exists c, nth_error cells j = Some c /\ convert d (field j line) = Ok c.
Proof.
  unfold convert_line. intros H. split.
  - rewrite (mapM_Ok_length _ _ _ H), length_combine, length_seq. lia.
  - intros j d Hd.
    destruct (mapM_Ok_nth _ _ _ H j (j, d)) as (c & Hc & Hconv).
    + rewrite (nth_error_combine_seq _ 0 j d Hd). reflexivity.
    + exists c. auto.
Qed.

Lemma read_csv_Ok (fs : files) (file_path : string)
  (mapping : list (string * dtype)) (df : DataFrame) :
  read_csv fs file_path mapping = Ok df ->
  exists f data,
    fs file_path = Some f /\
    mapM (convert_line (column_dtypes mapping f)) (records f) = Ok data /\
    df = {| columns := header f; rows := combine (seq 0 (length data)) data |}.
Proof.
  unfold read_csv. destruct (fs file_path) as [f |]; [| discriminate].
  destruct (existsb _ (records f)); [discriminate |].
  intros H. bind_inv H. injection H as <-. eauto.
Qed.

(** A cell of a float64 column: missing for a missing field, the number
    read otherwise. *)
Lemma convert_float64 (f : string) (c : cell) :
  convert float64 f = Ok c ->
  (is_na f = true /\ c = NaN) \/
  (is_na f = false /\ exists q, read_float f = Some q /\ c = FloatV q).
Proof.
  unfold convert. destruct (is_na f).
  - intros H. injection H as <-. auto.
  - destruct (read_float f) as [q |]; [| discriminate].
    intros H. injection H as <-. right. eauto.
Qed.

(** ** The loader's column steps *)

Lemma mapM_Ok_map {A B : Type} (f : A -> result B) (g : A -> B)
  (l : list A) (r : list B) :
  (forall x y, In x l -> f x = Ok y -> y = g x) ->
  mapM f l = Ok r -> r = map g l.
Proof.
  revert r; induction l as [| a t IH]; simpl; intros r Hg H.
  - injection H as <-. reflexivity.
  - bind_inv H. bind_inv H. injection H as <-.
    f_equal; [eapply Hg; eauto | apply IH; auto].
Qed.

Lemma mapM_map {A B C : Type} (f : B -> result C) (h : A -> B) (l : list A) :
  mapM f (map h l) = mapM (fun x => f (h x)) l.
Proof. induction l as [| x t IH]; simpl; [reflexivity | rewrite IH; reflexivity]. Qed.

Lemma to_int_fillna (c y : cell) :
  to_int (if isna c then IntV 0 else c) = Ok y -> y = IntV (int_of c).
Proof.
  destruct c as [| z | q | s]; simpl; intros H; try (injection H as <-; reflexivity).
  destruct (read_int s); [injection H as <-; reflexivity | discriminate].
Qed.

Lemma map_combine_map {A B C : Type} (g : A -> B) (h : A * B -> C) (l : list A) :
  map h (combine l (map g l)) = map (fun x => h (x, g x)) l.
Proof. induction l as [| x t IH]; simpl; [reflexivity | rewrite IH; reflexivity]. Qed.

(** Reading a column, filling its gaps with 0, casting it to int and storing
    it back makes the cells of that column integers and changes nothing
    else. *)
Lemma clean_column_step (df df' : DataFrame) (label : string)
  (s s' : Series cell) :
  getitem df label = Ok s ->
  astype_int (fillna (IntV 0) s) = Ok s' ->
  setitem df label s' = Ok df' ->
  exists j, position label (columns df) = Some j /\ df' = clean_column j df.
Proof.
  intros Hget Hcast Hset.
  apply getitem_Ok in Hget. destruct Hget as (j & Hj & ->).
  exists j. split; [exact Hj |].
  unfold setitem in Hset. rewrite Hj in Hset. injection Hset as <-.
  unfold clean_column. f_equal.
  unfold astype_int, fillna in Hcast. rewrite map_map, mapM_map in Hcast.
  apply (mapM_Ok_map _ (fun r : row => (fst r, IntV (int_of (cell_at j r))))) in Hcast.
  2:{ intros x y _ Hx. simpl in Hx. bind_inv Hx. injection Hx as <-.
      apply to_int_fillna in Hrun. subst a. reflexivity. }
  subst s'. unfold values. rewrite map_map. simpl.
  apply (map_combine_map
           (fun r : row => IntV (int_of (cell_at j r)))
           (fun rc : row * cell => (fst (fst rc), set_nth j (snd rc) (snd (fst rc))))).
Qed.

Lemma set_nth_length {A : Type} (j : nat) (x : A) (l : list A) :
  length (set_nth j x l) = length l.
Proof.
  revert j; induction l as [| y t IH]; intros [| j]; simpl; auto.
Qed.

Lemma nth_set_nth_same {A : Type} (j : nat) (x d : A) (l : list A) :
  (j < length l)%nat -> nth j (set_nth j x l) d = x.
Proof.
  revert j; induction l as [| y t IH]; intros [| j]; simpl; intros H;
    try lia; [reflexivity | apply IH; lia].
Qed.

Lemma nth_set_nth_other {A : Type} (i j : nat) (x d : A) (l : list A) :
  i <> j -> nth i (set_nth j x l) d = nth i l d.
Proof.
  revert i j; induction l as [| y t IH]; intros [| i] [| j] H; simpl;
    try reflexivity; [congruence | apply IH; congruence].
Qed.

(** Dropping columns by label moves a kept column, and its cell in every
    row moves with it. *)
Lemma take_mask_position (keep : string -> bool) (label : string)
  (cols : list string) (j : nat) :
  keep label = true ->
  position label cols = Some j ->
  exists j', position label (take_mask (map keep cols) cols) = Some j' /\
             forall cells : list cell,
               nth j' (take_mask (map keep cols) cells) NaN = nth j cells NaN.
Proof.
  intros Hkeep. revert j; induction cols as [| c t IH]; simpl; intros j H;
    [discriminate |].
  destruct (String.eqb_spec c label) as [-> | Hne].
  - injection H as <-. rewrite Hkeep. exists 0%nat. unfold take_mask. simpl.
    rewrite String.eqb_refl. split; [reflexivity |].
    intros [| x cs]; reflexivity.
  - destruct (position label t) as [j0 |]; [| discriminate].
    injection H as <-. destruct (IH j0 eq_refl) as (j' & Hpos & Hcells).
    unfold take_mask in *. destruct (keep c); simpl.
    + exists (S j'). apply String.eqb_neq in Hne. rewrite Hne, Hpos.
      split; [reflexivity |].
      intros [| x cs]; simpl; [destruct j0; reflexivity | apply Hcells].
    + exists j'. split; [exact Hpos |].
      intros [| x cs]; simpl; [destruct j', j0; reflexivity | apply Hcells].
Qed.

Lemma drop_column_Ok (df df' : DataFrame) (label : string) :
  drop_column df label = Ok df' ->
  (exists j, position label (columns df) = Some j) /\
  df' = keep_columns (map (fun c => negb (String.eqb c label)) (columns df)) df.
Proof.
  unfold drop_column. destruct (position label (columns df)) as [j |];
    [| discriminate].
  intros H. injection H as <-. eauto.
Qed.

(** What a frame returned by the loader is made of: the cells read from the
    file, the ID and the type-strain columns made integers, the strain-number
    column gone. *)
Lemma load_and_clean_data_Ok (fs : files) (file_path : string) (df : DataFrame) :
  load_and_clean_data fs file_path = Ok df ->
  exists f data j1 j2 j3,
    fs file_path = Some f /\
    mapM (convert_line (column_dtypes dtype_mapping f)) (records f) = Ok data /\
    position ID (header f) = Some j1 /\
    position is_type_strain_header (header f) = Some j2 /\
    position strain_number_header (header f) = Some j3 /\
    df = loaded_frame f data j1 j2.
Proof.
  unfold load_and_clean_data. intros H.
  bind_inv H. rename a into df0, Hrun into Hread.
  bind_inv H. rename a into id, Hrun into Hid.
  bind_inv H. rename a into id', Hrun into Hid'.
  bind_inv H. rename a into df1, Hrun into Hset1.
  bind_inv H. rename a into ts, Hrun into Hts.
  bind_inv H. rename a into ts', Hrun into Hts'.
  bind_inv H. rename a into df2, Hrun into Hset2.
  apply read_csv_Ok in Hread. destruct Hread as (f & data & Hf & Hdata & ->).
  destruct (clean_column_step _ _ _ _ _ Hid Hid' Hset1) as (j1 & Hj1 & ->).
  destruct (clean_column_step _ _ _ _ _ Hts Hts' Hset2) as (j2 & Hj2 & ->).
  apply drop_column_Ok in H. destruct H as ((j3 & Hj3) & ->).
  simpl in Hj1, Hj2, Hj3.
  exists f, data, j1, j2, j3. repeat split; assumption.
Qed.

Lemma column_dtypes_length (mapping : list (string * dtype)) (f : csv) :
  length (column_dtypes mapping f) = length (header f).
Proof.
  unfold column_dtypes. rewrite length_map, length_combine, length_seq. lia.
Qed.

Lemma map_fst_combine_seq {A : Type} (l : list A) (a : nat) :
  map fst (combine (seq a (length l)) l) = seq a (length l).
Proof.
  revert a; induction l as [| x t IH]; intros a; simpl;
    [reflexivity | f_equal; apply IH].
Qed.

Section LoadedColumn.

Variables (f : csv) (data : list (list cell)) (j1 j2 : nat).

Hypothesis Hdata :
  mapM (convert_line (column_dtypes dtype_mapping f)) (records f) = Ok data.
Hypothesis Hj1 : position ID (header f) = Some j1.
Hypothesis Hj2 : position is_type_strain_header (header f) = Some j2.

Lemma loaded_positions_differ : j1 <> j2.
Proof.
  intros <-. apply position_nth_error in Hj1, Hj2.
  rewrite Hj1 in Hj2. discriminate Hj2.
Qed.

Lemma loaded_index : index (loaded_frame f data j1 j2) = seq 0 (length (records f)).
Proof.
  unfold index, loaded_frame, keep_columns, clean_column. simpl.
  rewrite !map_map. simpl.
  rewrite <- (mapM_Ok_length _ _ _ Hdata).
  apply map_fst_combine_seq.
Qed.

Lemma loaded_column (label : string) (j : nat) :
  position label (header f) = Some j ->
  lookup_dtype label dtype_mapping = Some float64 ->
  kept label = true ->
  j = j1 \/ j = j2 ->
  exists s,
    getitem (loaded_frame f data j1 j2) label = Ok s /\
    length s = length (records f) /\
    forall i line, nth_error (records f) i = Some line ->
      exists c, nth_error (values s) i = Some c /\ cleaned (field j line) c.
Proof.
  intros Hj Hd Hkept Hjj.
  destruct (take_mask_position kept label (header f) j Hkept Hj)
    as (j' & Hpos & Hcells).
  unfold getitem. unfold loaded_frame at 1. simpl. rewrite Hpos.
  eexists. split; [reflexivity |]. split.
  - unfold loaded_frame, keep_columns, clean_column. simpl.
    rewrite !length_map. unfold row.
    rewrite length_combine, length_seq, Nat.min_id.
    apply (mapM_Ok_length _ _ _ Hdata).
  - intros i line Hline.
    destruct (mapM_Ok_nth _ _ _ Hdata i line Hline) as (cells & Hcs & Hconv).
    apply convert_line_Ok in Hconv. destruct Hconv as (Hlen & Hconv).
    rewrite column_dtypes_length in Hlen.
    destruct (Hconv j float64 (column_dtypes_nth _ _ _ _ _ Hj Hd))
      as (c & Hc & Hcv).
    assert (Hlt1 : (j1 < length cells)%nat)
      by (rewrite Hlen; eapply position_lt; exact Hj1).
    assert (Hlt2 : (j2 < length cells)%nat)
      by (rewrite Hlen; eapply position_lt; exact Hj2).
    unfold values, loaded_frame, keep_columns, clean_column. simpl.
    rewrite !map_map. simpl. rewrite nth_error_map. unfold row.
    rewrite (nth_error_combine_seq data 0 i cells Hcs). simpl.
    eexists. split; [reflexivity |].
    rewrite Hcells. unfold cell_at. simpl.
    assert (Hval : nth j
               (set_nth j2
                  (IntV (int_of
                     (nth j2 (set_nth j1 (IntV (int_of (nth j1 cells NaN))) cells) NaN)))
                  (set_nth j1 (IntV (int_of (nth j1 cells NaN))) cells)) NaN
             = IntV (int_of c)).
    { pose proof loaded_positions_differ as Hne.
      apply (nth_error_nth _ _ NaN) in Hc.
      destruct Hjj as [-> | ->].
      - rewrite nth_set_nth_other by exact Hne.
        rewrite nth_set_nth_same by exact Hlt1. rewrite Hc. reflexivity.
      - rewrite nth_set_nth_same by (rewrite set_nth_length; exact Hlt2).
        rewrite nth_set_nth_other by congruence. rewrite Hc. reflexivity. }
    rewrite Hval. exists (int_of c). split; [reflexivity |].
    destruct (convert_float64 _ _ Hcv) as [(Hna & ->) | (Hna & q & Hq & ->)];
      rewrite Hna; split; intros H; try discriminate H.
    + reflexivity.
    + exists q. split; [exact Hq | reflexivity].
Qed.

End LoadedColumn.

(** A frame returned by the loader is indexed 0, 1, ..., n-1. *)
Lemma load_and_clean_data_RangeIndex (fs : files) (file_path : string)
  (df : DataFrame) :
  load_and_clean_data fs file_path = Ok df -> RangeIndex df.
Proof.
  intros H. apply load_and_clean_data_Ok in H.
  destruct H as (f & data & j1 & j2 & j3 & _ & Hdata & Hj1 & Hj2 & _ & ->).
  pose proof (loaded_index f data j1 j2 Hdata) as Hidx.
  assert (Hlen : length (index (loaded_frame f data j1 j2))
                 = length (rows (loaded_frame f data j1 j2)))
    by apply length_map.
  rewrite Hidx, length_seq in Hlen.
  unfold RangeIndex. rewrite Hidx, Hlen. reflexivity.
Qed.

Lemma clean_data_Ok (df0 df : DataFrame) :
  clean_data df0 = Ok df ->
  exists j1 j2,
    position ID (columns df0) = Some j1 /\
    position is_type_strain_header (columns df0) = Some j2 /\
    df = keep_columns (map kept (columns df0))
           (clean_column j2 (clean_column j1 df0)).
Proof.
  unfold clean_data. intros H.
  bind_inv H. rename a into id, Hrun into Hid.
  bind_inv H. rename a into id', Hrun into Hid'.
  bind_inv H. rename a into df1, Hrun into Hset1.
  bind_inv H. rename a into ts, Hrun into Hts.
  bind_inv H. rename a into ts', Hrun into Hts'.
  bind_inv H. rename a into df2, Hrun into Hset2.
  destruct (clean_column_step _ _ _ _ _ Hid Hid' Hset1) as (j1 & Hj1 & ->).
  destruct (clean_column_step _ _ _ _ _ Hts Hts' Hset2) as (j2 & Hj2 & ->).
  apply drop_column_Ok in H. destruct H as (_ & ->).
  simpl in Hj2. exists j1, j2. repeat split; assumption.
Qed.

(** The cell of a cleaned column: the integer of the cell read. *)
Lemma cleaned_cell (cols : list string) (cells : list cell) (j1 j2 j j' : nat) :
  j1 <> j2 -> (j1 < length cells)%nat -> (j2 < length cells)%nat ->
  j = j1 \/ j = j2 ->
  (forall cs : list cell, nth j' (take_mask (map kept cols) cs) NaN = nth j cs NaN) ->
  nth j'
    (take_mask (map kept cols)
       (set_nth j2
          (IntV (int_of (nth j2 (set_nth j1 (IntV (int_of (nth j1 cells NaN))) cells)
                             NaN)))
          (set_nth j1 (IntV (int_of (nth j1 cells NaN))) cells))) NaN
  = IntV (int_of (nth j cells NaN)).
Proof.
  intros Hne Hlt1 Hlt2 Hjj Hcells. rewrite Hcells.
  destruct Hjj as [-> | ->].
  - rewrite nth_set_nth_other by exact Hne.
    rewrite nth_set_nth_same by exact Hlt1. reflexivity.
  - rewrite nth_set_nth_same by (rewrite set_nth_length; exact Hlt2).
    rewrite nth_set_nth_other by congruence. reflexivity.
Qed.

(** On a frame that has the column, its cells numbers or missing, the three
    calls that clean the column succeed. *)
Lemma clean_column_returns (df : DataFrame) (label : string) (j : nat) :
  position label (columns df) = Some j ->
  (forall r, In r (rows df) -> numeric (cell_at j r) = true) ->
  exists s s',
    getitem df label = Ok s /\
    astype_int (fillna (IntV 0) s) = Ok s' /\
    setitem df label s' = Ok (clean_column j df).
Proof.
  intros Hj Hnum.
  assert (Hget : getitem df label
                 = Ok (map (fun r : row => (fst r, nth j (snd r) NaN)) (rows df)))
    by (unfold getitem; rewrite Hj; reflexivity).
  assert (Hcast : astype_int
                    (fillna (IntV 0)
                       (map (fun r : row => (fst r, nth j (snd r) NaN)) (rows df)))
                  = Ok (map (fun r : row => (fst r, IntV (int_of (cell_at j r))))
                            (rows df))).
  { unfold astype_int, fillna. rewrite map_map, mapM_map.
    apply mapM_total. intros r Hr. simpl.
    specialize (Hnum r Hr). unfold cell_at in *.
    destruct (nth j (snd r) NaN); simpl in *; [reflexivity .. | discriminate Hnum]. }
  do 2 eexists. split; [exact Hget |]. split; [exact Hcast |].
  destruct (setitem df label
              (map (fun r : row => (fst r, IntV (int_of (cell_at j r)))) (rows df)))
    as [df' |] eqn:Hset.
  - destruct (clean_column_step _ _ _ _ _ Hget Hcast Hset) as (j' & Hj' & ->).
    rewrite Hj in Hj'. injection Hj' as <-. reflexivity.
  - unfold setitem in Hset. rewrite Hj in Hset. discriminate Hset.
Qed.

(** C3: take the frame read_csv returns for a file that loads: a frame with
    the three columns the loader touches, its ID and is_type_strain_header
    cells numbers or missing (the dtype mapping makes them float64).  The
    loader's steps on it succeed, the loader returns their result, and that
    result has the column labels of the frame read without
    strain_number_header, in their order, and its rows under the same index;
    its ID and is_type_strain_header columns hold an integer in every row
    (no missing value is left): 0 where the cell read is missing, and the
    number read, cut toward zero, where that fits int64. *)
Theorem load_and_clean_data_schema (df0 : DataFrame) (j1 j2 j3 : nat) :
  rectangular df0 ->
  position ID (columns df0) = Some j1 ->
  position is_type_strain_header (columns df0) = Some j2 ->
  position strain_number_header (columns df0) = Some j3 ->
  (forall r, In r (rows df0) ->
     numeric (cell_at j1 r) = true /\ numeric (cell_at j2 r) = true) ->
  exists df,
    clean_data df0 = Ok df /\
    (forall fs file_path,
       read_csv fs file_path dtype_mapping = Ok df0 ->
       load_and_clean_data fs file_path = Ok df) /\
    columns df = filter kept (columns df0) /\
    index df = index df0 /\
    forall label, label = ID \/ label = is_type_strain_header ->
      exists s0 s,
        getitem df0 label = Ok s0 /\
        getitem df label = Ok s /\
        labels s = labels s0 /\
        forall i c0, nth_error (values s0) i = Some c0 ->
          exists z,
            nth_error (values s) i = Some (IntV z) /\
            (c0 = NaN -> z = 0%Z) /\
            (forall q, c0 = FloatV q -> in_int64 (truncate q) = true ->
               z = truncate q).
Proof.
  intros Hrect Hj1 Hj2 Hj3 Hnum.
  assert (Hne : j1 <> j2).
  { intros <-. pose proof (position_nth_error _ _ _ Hj1) as H1.
    pose proof (position_nth_error _ _ _ Hj2) as H2.
    rewrite H1 in H2. discriminate H2. }
  assert (Hclean : clean_data df0
                   = Ok (keep_columns (map kept (columns df0))
                           (clean_column j2 (clean_column j1 df0)))).
  { destruct (clean_column_returns df0 ID j1 Hj1 (fun r Hr => proj1 (Hnum r Hr)))
      as (id & id' & Hid & Hid' & Hset1).
    destruct (clean_column_returns (clean_column j1 df0) is_type_strain_header j2 Hj2)
      as (ts & ts' & Hts & Hts' & Hset2).
    { intros r Hr. simpl in Hr. apply in_map_iff in Hr.
      destruct Hr as (r0 & <- & Hr0). unfold cell_at. simpl.
      rewrite nth_set_nth_other by congruence. apply (Hnum r0 Hr0). }
    unfold clean_data. rewrite Hid. simpl. rewrite Hid'. simpl.
    rewrite Hset1. simpl. rewrite Hts. simpl. rewrite Hts'. simpl.
    rewrite Hset2. simpl. unfold drop_column. simpl. rewrite Hj3. reflexivity. }
  eexists. split; [exact Hclean |].
  split.
  { intros fs file_path Hread. unfold load_and_clean_data. rewrite Hread.
    exact Hclean. }
  split; [apply take_mask_map |].
  split.
  { unfold index, keep_columns, clean_column. simpl. rewrite !map_map.
    reflexivity. }
  assert (Hcol : forall label j, position label (columns df0) = Some j ->
            kept label = true -> j = j1 \/ j = j2 ->
            exists s0 s,
              getitem df0 label = Ok s0 /\
              getitem (keep_columns (map kept (columns df0))
                         (clean_column j2 (clean_column j1 df0))) label = Ok s /\
              labels s = labels s0 /\
              forall i c0, nth_error (values s0) i = Some c0 ->
                exists z,
                  nth_error (values s) i = Some (IntV z) /\
                  (c0 = NaN -> z = 0%Z) /\
                  (forall q, c0 = FloatV q -> in_int64 (truncate q) = true ->
                     z = truncate q)).
  { intros label j Hj Hkept Hjj.
    destruct (take_mask_position kept label (columns df0) j Hkept Hj)
      as (j' & Hpos & Hcells).
    unfold getitem. rewrite Hj. simpl. rewrite Hpos.
    eexists. eexists. split; [reflexivity |]. split; [reflexivity |].
    split; [unfold labels; rewrite !map_map; reflexivity |].
    intros i c0 Hc0. unfold values in *. rewrite !map_map in *. simpl in *.
    rewrite nth_error_map in Hc0. rewrite nth_error_map.
    destruct (nth_error (rows df0) i) as [[l cells] |] eqn:Hr; [| discriminate Hc0].
    simpl in Hc0. injection Hc0 as <-. simpl.
    assert (Hlen : length cells = length (columns df0)).
    { unfold rectangular in Hrect. rewrite Forall_forall in Hrect.
      apply (Hrect (l, cells)). eapply nth_error_In; exact Hr. }
    unfold cell_at. simpl.
    rewrite (cleaned_cell (columns df0) cells j1 j2 j j' Hne); auto.
    - exists (int_of (nth j cells NaN)). split; [reflexivity |].
      split.
      + intros ->. reflexivity.
      + intros q -> Hfit. simpl. unfold cast_int64. rewrite Hfit. reflexivity.
    - rewrite Hlen. eapply position_lt; exact Hj1.
    - rewrite Hlen. eapply position_lt; exact Hj2. }
  intros label [-> | ->].
  - apply (Hcol ID j1 Hj1 eq_refl (or_introl eq_refl)).
  - apply (Hcol is_type_strain_header j2 Hj2 eq_refl (or_intror eq_refl)).
Qed.

Lemma load_and_clean_data_schema_witness :
  rectangular sample_read /\
  position ID (columns sample_read) = Some 0%nat /\
  position is_type_strain_header (columns sample_read) = Some 2%nat /\
  position strain_number_header (columns sample_read) = Some 4%nat /\
  (forall r, In r (rows sample_read) ->
     numeric (cell_at 0 r) = true /\ numeric (cell_at 2 r) = true) /\
  exists df,
    clean_data sample_read = Ok df /\
    (forall fs file_path,
       read_csv fs file_path dtype_mapping = Ok sample_read ->
       load_and_clean_data fs file_path = Ok df) /\
    columns df = filter kept (columns sample_read) /\
    index df = index sample_read /\
    forall label, label = ID \/ label = is_type_strain_header ->
      exists s0 s,
        getitem sample_read label = Ok s0 /\
        getitem df label = Ok s /\
        labels s = labels s0 /\
        forall i c0, nth_error (values s0) i = Some c0 ->
          exists z,
            nth_error (values s) i = Some (IntV z) /\
            (c0 = NaN -> z = 0%Z) /\
            (forall q, c0 = FloatV q -> in_int64 (truncate q) = true ->
               z = truncate q).
Proof.
  assert (Hrect : rectangular sample_read)
    by (repeat (apply Forall_cons; [reflexivity |]); apply Forall_nil).
  assert (Hnum : forall r, In r (rows sample_read) ->
            numeric (cell_at 0 r) = true /\ numeric (cell_at 2 r) = true)
    by (intros r [<- | [<- | []]]; split; reflexivity).
  split; [exact Hrect |]. split; [reflexivity |]. split; [reflexivity |].
  split; [reflexivity |]. split; [exact Hnum |].
  apply (load_and_clean_data_schema sample_read 0 2 4);
    [exact Hrect | reflexivity | reflexivity | reflexivity | exact Hnum].
Defined.

(** The frame of the sample, cleaned: its gaps are 0 and 2.5 is cut to 2. *)
Lemma clean_data_sample : clean_data sample_read = Ok sample_cleaned.
Proof. vm_compute. reflexivity. Qed.

(** Every file the model of the reader loads falls under C3: the frame read
    is rectangular, it has the three columns, and its ID and
    is_type_strain_header cells are float64 or missing. *)
Lemma load_and_clean_data_reads (fs : files) (file_path : string) (df : DataFrame) :
  load_and_clean_data fs file_path = Ok df ->
  exists df0 j1 j2 j3,
    read_csv fs file_path dtype_mapping = Ok df0 /\
    clean_data df0 = Ok df /\
    rectangular df0 /\
    position ID (columns df0) = Some j1 /\
    position is_type_strain_header (columns df0) = Some j2 /\
    position strain_number_header (columns df0) = Some j3 /\
    forall r, In r (rows df0) ->
      numeric (cell_at j1 r) = true /\ numeric (cell_at j2 r) = true.
Proof.
  intros H. pose proof H as Hload. unfold load_and_clean_data in H.
  destruct (read_csv fs file_path dtype_mapping) as [df0 |] eqn:Hread;
    [| discriminate H].
  simpl in H. fold (clean_data df0) in H.
  apply load_and_clean_data_Ok in Hload.
  destruct Hload as (f & data & j1 & j2 & j3 & Hf & Hdata & Hj1 & Hj2 & Hj3 & _).
  pose proof Hread as Hread'. apply read_csv_Ok in Hread'.
  destruct Hread' as (f' & data' & Hf' & Hdata' & ->).
  rewrite Hf in Hf'. injection Hf' as <-.
  rewrite Hdata in Hdata'. injection Hdata' as <-.
  exists {| columns := header f; rows := combine (seq 0 (length data)) data |},
         j1, j2, j3.
  split; [reflexivity |]. split; [exact H |].
  assert (Hrow : forall r, In r (combine (seq 0 (length data)) data) ->
            length (snd r) = length (header f) /\
            numeric (cell_at j1 r) = true /\ numeric (cell_at j2 r) = true).
  { intros [l cells] Hr. apply in_combine_r in Hr.
    destruct (In_nth_error _ _ Hr) as (i & Hi).
    assert (Hline : exists line, nth_error (records f) i = Some line).
    { destruct (nth_error (records f) i) as [line |] eqn:E; [eauto |].
      apply nth_error_None in E. apply mapM_Ok_length in Hdata.
      assert (i < length data)%nat by (apply nth_error_Some; congruence). lia. }
    destruct Hline as (line & Hline).
    destruct (mapM_Ok_nth _ _ _ Hdata i line Hline) as (cells' & Hcs & Hconv).
    rewrite Hi in Hcs. injection Hcs as <-.
    apply convert_line_Ok in Hconv. destruct Hconv as (Hlen & Hconv).
    rewrite column_dtypes_length in Hlen.
    assert (Hfloat : forall label j,
              position label (header f) = Some j ->
              lookup_dtype label dtype_mapping = Some float64 ->
              numeric (nth j cells NaN) = true).
    { intros label j Hj Hd.
      destruct (Hconv j float64 (column_dtypes_nth _ _ _ _ _ Hj Hd))
        as (c & Hc & Hcv).
      apply (nth_error_nth _ _ NaN) in Hc. rewrite Hc.
      destruct (convert_float64 _ _ Hcv) as [(_ & ->) | (_ & q & _ & ->)];
        reflexivity. }
    simpl. split; [exact Hlen |]. unfold cell_at. simpl. split.
    - apply (Hfloat ID j1 Hj1 eq_refl).
    - apply (Hfloat is_type_strain_header j2 Hj2 eq_refl). }
  split.
  { unfold rectangular. apply Forall_forall. intros r Hr. apply (Hrow r Hr). }
  split; [exact Hj1 |]. split; [exact Hj2 |]. split; [exact Hj3 |].
  intros r Hr. apply (Hrow r Hr).
Qed.

(** The cast of a float64 that does not fit int64: the number 2^63 in the ID
    column comes out as the least int64. *)
Lemma cast_beyond_int64 :
  to_int (FloatV (inject_Z (2 ^ 63))) = Ok (IntV (- 2 ^ 63)).
Proof. vm_compute. reflexivity. Qed.

(** The reader rounds to the nearest float64, and it reads exponents,
    leading blanks and a number that starts with its point. *)
Lemma read_float_samples :
  read_float "9007199254740993" = Some (inject_Z 9007199254740992) /\
  read_float "1e3" = Some (inject_Z 1000) /\
  read_float " 1" = Some (inject_Z 1) /\
  read_float ".5" = Some (1 # 2).
Proof. repeat split; vm_compute; reflexivity. Qed.

(** C8, as the code has it: the loader raises, and returns no table, when
    the file cannot be found or read and when the header lacks ID,
    is_type_strain_header or strain_number_header, the three columns it
    touches.  (It never looks for species or designation_header.) *)
Theorem load_and_clean_data_raises (fs : files) (file_path : string) :
  fs file_path = None \/
  (exists f, fs file_path = Some f /\
     (~ In ID (header f) \/
      ~ In is_type_strain_header (header f) \/
      ~ In strain_number_header (header f))) ->
  exists e, load_and_clean_data fs file_path = Raise e.
Proof.
  intros Hbad.
  destruct (load_and_clean_data fs file_path) as [df | e] eqn:H;
    [exfalso | eauto].
  apply load_and_clean_data_Ok in H.
  destruct H as (f & data & j1 & j2 & j3 & Hf & _ & Hj1 & Hj2 & Hj3 & _).
  apply position_Some_In in Hj1, Hj2, Hj3.
  destruct Hbad as [Hnone | (f' & Hf' & Habsent)]; [congruence |].
  assert (f' = f) by congruence. subst f'.
  destruct Habsent as [Hn | [Hn | Hn]]; contradiction.
Qed.

Lemma load_and_clean_data_raises_witness :
  (sample_files "metabolites/short.csv" = None \/
   (exists f, sample_files "metabolites/short.csv" = Some f /\
      (~ In ID (header f) \/
       ~ In is_type_strain_header (header f) \/
       ~ In strain_number_header (header f)))) /\
  exists e, load_and_clean_data sample_files "metabolites/short.csv" = Raise e.
Proof.
  assert (Habsent : ~ In is_type_strain_header (header short_csv)).
  { simpl. intros [H | [H | [H | [H | []]]]]; discriminate H. }
  split.
  - right. exists short_csv. split; [reflexivity | right; left; exact Habsent].
  - apply (load_and_clean_data_raises sample_files "metabolites/short.csv").
    right. exists short_csv. split; [reflexivity | right; left; exact Habsent].
Defined.

(** C8 fails as stated: the header of the sample file bare.csv has neither
    species nor designation_header, and the loader returns its table. *)
Lemma load_and_clean_data_without_species :
  sample_files "metabolites/bare.csv" = Some bare_csv /\
  ~ In species (header bare_csv) /\
  ~ In designation_header (header bare_csv) /\
  load_and_clean_data sample_files "metabolites/bare.csv" = Ok sample_bare.
Proof.
  split; [reflexivity |].
  split; [simpl; intros [H | [H | [H | [H | []]]]]; discriminate H |].
  split; [simpl; intros [H | [H | [H | [H | []]]]]; discriminate H |].
  vm_compute. reflexivity.
Qed.

(** ** Order in a list *)

Lemma precedes_In {A : Type} (a b : A) (l : list A) :
  precedes a b l -> In a l /\ In b l.
Proof.
  induction l as [| x t IH]; simpl; [contradiction |].
  intros [[-> Hb] | H]; [auto | destruct (IH H); auto].
Qed.

Lemma precedes_app {A : Type} (a b : A) (l1 l2 : list A) :
  precedes a b (l1 ++ l2) <->
  precedes a b l1 \/ precedes a b l2 \/ (In a l1 /\ In b l2).
Proof.
  induction l1 as [| x t IH]; simpl.
  - tauto.
  - rewrite IH, in_app_iff. split.
    + intros [[-> [Hb | Hb]] | [H | [H | [Ha Hb]]]]; auto 6.
    + intros [[[-> Hb] | H] | [H | [[-> | Ha] Hb]]]; auto 6.
Qed.

Lemma precedes_rev {A : Type} (a b : A) (l : list A) :
  precedes a b (rev l) <-> precedes b a l.
Proof.
  induction l as [| x t IH]; simpl; [tauto |].
  rewrite precedes_app, IH, <- in_rev. simpl. tauto.
Qed.

Lemma In_firstn {A : Type} (x : A) (n : nat) (l : list A) :
  In x (firstn n l) -> In x l.
Proof.
  revert l; induction n as [| n IH]; intros [| y t]; simpl; try tauto.
  intros [-> | H]; auto.
Qed.

Lemma precedes_firstn {A : Type} (a b : A) (n : nat) (l : list A) :
  precedes a b (firstn n l) -> precedes a b l.
Proof.
  revert l; induction n as [| n IH]; intros [| x t]; simpl; try tauto.
  intros [[-> Hb] | H]; [left; split; [reflexivity | eapply In_firstn; eauto] |].
  right. auto.
Qed.

Lemma precedes_map {A B : Type} (f : A -> B) (a b : A) (l : list A) :
  precedes a b l -> precedes (f a) (f b) (map f l).
Proof.
  induction l as [| x t IH]; simpl; [tauto |].
  intros [[-> Hb] | H]; [left; split; [reflexivity | apply in_map; exact Hb] |].
  right. auto.
Qed.

Lemma nth_error_precedes {A : Type} (l : list A) (i j : nat) (a b : A) :
  (i < j)%nat -> nth_error l i = Some a -> nth_error l j = Some b ->
  precedes a b l.
Proof.
  revert i j; induction l as [| x t IH]; intros i j Hij Hi Hj.
  - destruct i; discriminate.
  - destruct j as [| j]; [lia |]. simpl in Hj. destruct i as [| i]; simpl in *.
    + injection Hi as ->. left. split; [reflexivity |].
      eapply nth_error_In; eauto.
    + right. apply (IH i j); auto. lia.
Qed.

(** ** The sort of value_counts *)

Lemma sort_values_descending_fill (l : list (cell * nat)) :
  sort_values_descending l = rev (fill l).
Proof.
  unfold sort_values_descending, argsort, fill. f_equal.
  rewrite <- (rev_involutive l) at 2.
  symmetry. apply fold_left_rev_right.
Qed.

Lemma In_insert (x y : cell * nat) (l : list (cell * nat)) :
  In y (insert x l) <-> y = x \/ In y l.
Proof.
  induction l as [| z t IH]; simpl.
  - intuition congruence.
  - destruct (snd x <=? snd z)%nat; simpl; [intuition congruence |].
    rewrite IH. intuition congruence.
Qed.

Lemma In_fill (y : cell * nat) (l : list (cell * nat)) :
  In y (fill l) <-> In y l.
Proof.
  induction l as [| x t IH]; simpl; [tauto |].
  rewrite In_insert, IH. intuition congruence.
Qed.


(** Two entries in an ascending list after an insertion: they stood in that
    order before, or the new entry is the first of the two and its count is
    not larger, or it is the second and has the strictly larger count. *)
Lemma precedes_insert (x a b : cell * nat) (l : list (cell * nat)) :
  (forall u v, precedes u v l -> (snd u <= snd v)%nat) ->
  precedes a b (insert x l) ->
  precedes a b l \/
  (a = x /\ In b l /\ (snd x <= snd b)%nat) \/
  (b = x /\ In a l /\ (snd a < snd x)%nat).
Proof.
  induction l as [| y t IH]; simpl; intros Hasc H.
  - destruct H as [[_ []] | []].
  - destruct (Nat.leb_spec (snd x) (snd y)) as [Hle | Hgt]; simpl in H.
    + destruct H as [[<- Hb] | H]; [| auto].
      right. left. split; [reflexivity |]. split; [exact Hb |].
      destruct Hb as [<- | Hb]; [exact Hle |].
      assert (snd y <= snd b)%nat by (apply Hasc; left; auto). lia.
    + destruct H as [[<- Hb] | H].
      * apply In_insert in Hb. destruct Hb as [-> | Hb]; [| auto].
        right. right. auto.
      * destruct (IH (fun u v Huv => Hasc u v (or_intror Huv)) H)
          as [Hp | [(-> & Hb & Hlt) | (-> & Ha & Hle)]]; auto 7.
Qed.

(** Two entries of the sorted list stand in strictly ascending order of
    count, or have one count and stand in their input order (the input being
    taken from its end, each entry going in front of its equals). *)
Lemma precedes_fill (a b : cell * nat) (l : list (cell * nat)) :
  precedes a b (fill l) ->
  (snd a < snd b)%nat \/ (snd a = snd b /\ precedes a b l).
Proof.
  revert a b; induction l as [| x t IH]; simpl; intros a b H; [contradiction |].
  apply precedes_insert in H.
  - destruct H as [Hp | [(-> & Hb & Hle) | (-> & Ha & Hlt)]].
    + destruct (IH a b Hp) as [Hlt | [Heq Hab]]; [left; exact Hlt |].
      right. split; [exact Heq | right; exact Hab].
    + apply (proj1 (In_fill b t)) in Hb.
      destruct (Nat.eq_dec (snd x) (snd b)) as [Heq | Hne]; [| left; lia].
      right. split; [exact Heq |]. left. split; [reflexivity | exact Hb].
    + left. exact Hlt.
  - intros u v Huv. destruct (IH u v Huv) as [Hlt | [Heq _]]; lia.
Qed.

(** In the descending sort an entry stands before another when its count is
    strictly larger, or when the counts are equal and it stood after the
    other in the input. *)
Lemma precedes_sort_values_descending (a b : cell * nat) (l : list (cell * nat)) :
  precedes a b (sort_values_descending l) ->
  (snd b < snd a)%nat \/ (snd a = snd b /\ precedes b a l).
Proof.
  rewrite sort_values_descending_fill, precedes_rev. intros H.
  destruct (precedes_fill b a l H) as [Hlt | [Heq Hab]]; auto.
Qed.



(** ** Identity of values *)




Lemma cell_same_isna (a b : cell) :
  cell_same a b = true -> isna a = isna b.
Proof. destruct a, b; simpl; try discriminate; reflexivity. Qed.

(** ** The frequency table *)












(** ** The top species *)

(** C6: for a table, a column of it and any n, the top counts are returned;
    they are at most n entries, no entry has a larger count than an entry
    before it, and a table without rows gives no entry. *)
Theorem top_categorical_counts_bounded (df : DataFrame) (column : string)
  (n j : nat) :
  position column (columns df) = Some j ->
  exists r,
    top_categorical_counts df column n = Ok r /\
    (length r <= n)%nat /\
    (forall i k x y, (i < k)%nat ->
       nth_error r i = Some x -> nth_error r k = Some y ->
       (snd y <= snd x)%nat) /\
    (rows df = [] -> r = []).
Proof.
  intros Hj. unfold top_categorical_counts, getitem. rewrite Hj. simpl.
  eexists. split; [reflexivity |]. unfold head. split; [apply firstn_le_length |].
  split.
  - intros i k x y Hik Hx Hy.
    pose proof (nth_error_precedes _ i k x y Hik Hx Hy) as H.
    apply precedes_firstn, precedes_sort_values_descending in H.
    destruct H as [Hlt | [Heq _]]; lia.
  - intros ->. simpl. destruct n; reflexivity.
Qed.

Lemma top_categorical_counts_bounded_witness :
  position species (columns sample_species) = Some 1%nat /\
  exists r,
    top_categorical_counts sample_species species 2 = Ok r /\
    (length r <= 2)%nat /\
    (forall i k x y, (i < k)%nat ->
       nth_error r i = Some x -> nth_error r k = Some y ->
       (snd y <= snd x)%nat) /\
    (rows sample_species = [] -> r = []).
Proof.
  split; [reflexivity |].
  apply (top_categorical_counts_bounded sample_species species 2 1).
  reflexivity.
Defined.

Lemma occurrences_dropna (k : cell) (vals : list cell) :
  isna k = false -> occurrences k (dropna vals) = occurrences k vals.
Proof.
  intros Hk. unfold occurrences, dropna.
  induction vals as [| v t IH]; simpl; [reflexivity |].
  destruct (isna v) eqn:Ev; simpl.
  - destruct (cell_same k v) eqn:E; [| exact IH].
    apply cell_same_isna in E. congruence.
  - destruct (cell_same k v); simpl; rewrite IH; reflexivity.
Qed.





(** With the counts A:5, B:5, C:3 the species A and B are both listed before
    C. *)
Lemma larger_counts_listed_first :
  exists r, top_10_species sample_species = Ok r /\
    precedes (StrV "A", 5%nat) (StrV "C", 3%nat) r /\
    precedes (StrV "B", 5%nat) (StrV "C", 3%nat) r.
Proof.
  eexists. split; [vm_compute; reflexivity |]. simpl. auto 10.
Qed.

(* ===================================================================== *)
(** * Further properties of the code *)
(* ===================================================================== *)

(** ** filter_by_type_strain *)

Lemma filter_by_type_strain_Ok (df d : DataFrame) (v : cell) :
  filter_by_type_strain df v = Ok d ->
  exists j, position is_type_strain_header (columns df) = Some j /\
            d = rows_where j v df.
Proof.
  intros H.
  destruct (position is_type_strain_header (columns df)) as [j |] eqn:Hj.
  - rewrite (filter_by_type_strain_rows df v j Hj) in H. injection H as <-.
    exists j. split; reflexivity.
  - unfold filter_by_type_strain, getitem in H. rewrite Hj in H. discriminate H.
Qed.

Lemma filter_twice {A : Type} (f g : A -> bool) (l : list A) :
  filter g (filter f l) = filter (fun x => f x && g x) l.
Proof.
  induction l as [| x t IH]; simpl; [reflexivity |].
  destruct (f x); simpl; [destruct (g x) |]; rewrite IH; reflexivity.
Qed.

(** X1: filtering is idempotent: a table already filtered for a value comes
    back unchanged from the filter for that value. *)
Theorem filter_by_type_strain_idempotent (df d : DataFrame) (v : cell) :
  filter_by_type_strain df v = Ok d ->
  filter_by_type_strain d v = Ok d.
Proof.
  intros H. apply filter_by_type_strain_Ok in H. destruct H as (j & Hj & ->).
  rewrite (filter_by_type_strain_rows (rows_where j v df) v j Hj).
  unfold rows_where. simpl. f_equal. f_equal.
  rewrite filter_twice. apply filter_ext. intros r.
  destruct (cell_eqb (cell_at j r) v); reflexivity.
Qed.

Lemma filter_by_type_strain_idempotent_witness :
  filter_by_type_strain sample_prod (IntV 1) = Ok (rows_where 2 (IntV 1) sample_prod) /\
  filter_by_type_strain (rows_where 2 (IntV 1) sample_prod) (IntV 1)
    = Ok (rows_where 2 (IntV 1) sample_prod).
Proof.
  split; [reflexivity |].
  apply (filter_by_type_strain_idempotent sample_prod _ (IntV 1)). reflexivity.
Defined.

(** A cell equals at most one integer. *)
Lemma cell_eqb_int_exclusive (c : cell) (a b : Z) :
  a <> b -> cell_eqb c (IntV a) = true -> cell_eqb c (IntV b) = false.
Proof.
  intros Hab. destruct c as [| z | q | s]; simpl; try discriminate.
  - intros H. apply Z.eqb_eq in H. subst z. apply Z.eqb_neq. exact Hab.
  - intros H. apply Qeq_bool_iff in H.
    destruct (Qeq_bool q (inject_Z b)) eqn:E; [| reflexivity].
    apply Qeq_bool_iff in E. rewrite H in E.
    unfold Qeq in E. simpl in E. lia.
Qed.

(** X2: the filters for two different integers select disjoint rows: the
    table filtered for [a] and then for [b] has the columns and no row. *)
Theorem filter_by_type_strain_disjoint (df d : DataFrame) (a b : Z) :
  a <> b ->
  filter_by_type_strain df (IntV a) = Ok d ->
  filter_by_type_strain d (IntV b) = Ok (no_rows df).
Proof.
  intros Hab H. apply filter_by_type_strain_Ok in H. destruct H as (j & Hj & ->).
  rewrite (filter_by_type_strain_rows (rows_where j (IntV a) df) (IntV b) j Hj).
  unfold rows_where, no_rows. simpl. f_equal. f_equal.
  rewrite filter_twice.
  induction (rows df) as [| r t IH]; simpl; [reflexivity |].
  destruct (cell_eqb (cell_at j r) (IntV a)) eqn:Ha; simpl; [| exact IH].
  rewrite (cell_eqb_int_exclusive _ a b Hab Ha). exact IH.
Qed.

Lemma filter_by_type_strain_disjoint_witness :
  1%Z <> 0%Z /\
  filter_by_type_strain sample_prod (IntV 1) = Ok (rows_where 2 (IntV 1) sample_prod) /\
  filter_by_type_strain (rows_where 2 (IntV 1) sample_prod) (IntV 0)
    = Ok (no_rows sample_prod).
Proof.
  split; [discriminate |]. split; [reflexivity |].
  apply (filter_by_type_strain_disjoint sample_prod _ 1 0);
    [discriminate | reflexivity].
Defined.

(** ** load_and_clean_data *)

Lemma take_mask_position_None (keep : string -> bool) (label : string)
  (cols : list string) :
  position label cols = None ->
  position label (take_mask (map keep cols) cols) = None.
Proof.
  induction cols as [| c t IH]; simpl; intros H; [reflexivity |].
  destruct (String.eqb c label) eqn:E; [discriminate H |].
  destruct (position label t) as [j |]; [discriminate H |].
  unfold take_mask in *. simpl. destruct (keep c); simpl.
  - rewrite E, (IH eq_refl). reflexivity.
  - apply IH. reflexivity.
Qed.

Lemma position_injective (cols : list string) (a b : string) (j : nat) :
  position a cols = Some j -> position b cols = Some j -> a = b.
Proof.
  intros Ha Hb. apply position_nth_error in Ha, Hb. congruence.
Qed.

(** X3: the loader changes no other column: a column other than ID,
    is_type_strain_header and strain_number_header is, in the returned
    frame, the very Series read_csv read (and a label the file lacks is
    missing from the frame as well). *)
Theorem load_and_clean_data_other_columns (fs : files) (file_path : string)
  (df0 df : DataFrame) (label : string) :
  read_csv fs file_path dtype_mapping = Ok df0 ->
  load_and_clean_data fs file_path = Ok df ->
  label <> ID -> label <> is_type_strain_header ->
  label <> strain_number_header ->
  getitem df label = getitem df0 label.
Proof.
  intros Hread Hload Hid Hts Hsn.
  apply load_and_clean_data_Ok in Hload.
  destruct Hload as (f & data & j1 & j2 & j3 & Hf & Hdata & Hj1 & Hj2 & _ & ->).
  apply read_csv_Ok in Hread. destruct Hread as (f' & data' & Hf' & Hdata' & ->).
  assert (f' = f) by congruence. subst f'.
  assert (data' = data) by congruence. subst data'.
  unfold getitem. simpl.
  destruct (position label (header f)) as [j |] eqn:Hj.
  - assert (Hkept : kept label = true).
    { unfold kept. apply negb_true_iff, String.eqb_neq. exact Hsn. }
    destruct (take_mask_position kept label (header f) j Hkept Hj)
      as (j' & Hpos & Hcells).
    rewrite Hpos. f_equal. rewrite !map_map. simpl.
    apply map_ext. intros r. f_equal. rewrite Hcells. unfold cell_at. simpl.
    rewrite !nth_set_nth_other; [reflexivity | |].
    + intros ->. apply Hid. exact (position_injective _ _ _ _ Hj Hj1).
    + intros ->. apply Hts. exact (position_injective _ _ _ _ Hj Hj2).
  - rewrite (take_mask_position_None kept label (header f) Hj). reflexivity.
Qed.

Lemma load_and_clean_data_other_columns_witness :
  read_csv sample_files "metabolites/anti.csv" dtype_mapping
    = Ok {| columns := header anti_csv;
            rows := [ (0%nat, [NaN; StrV "Bacillus"; NaN; StrV "x"; StrV "s1"; IntV 1]) ] |} /\
  load_and_clean_data sample_files "metabolites/anti.csv" = Ok sample_anti /\
  species <> ID /\ species <> is_type_strain_header /\
  species <> strain_number_header /\
  getitem sample_anti species
    = getitem {| columns := header anti_csv;
                 rows := [ (0%nat, [NaN; StrV "Bacillus"; NaN; StrV "x"; StrV "s1"; IntV 1]) ] |}
              species.
Proof.
  split; [vm_compute; reflexivity |]. split; [vm_compute; reflexivity |].
  split; [discriminate |]. split; [discriminate |]. split; [discriminate |].
  apply (load_and_clean_data_other_columns sample_files "metabolites/anti.csv");
    [vm_compute; reflexivity | vm_compute; reflexivity
     | discriminate | discriminate | discriminate].
Defined.

Lemma take_mask_length {A B : Type} (m : list bool) (l1 : list A) (l2 : list B) :
  length l1 = length l2 -> length (take_mask m l1) = length (take_mask m l2).
Proof.
  unfold take_mask. rewrite !length_map.
  revert l1 l2; induction m as [| b m IH]; intros l1 l2 H; [reflexivity |].
  destruct l1 as [| x t1], l2 as [| y t2]; simpl in *; try discriminate;
    [reflexivity |].
  destruct b; simpl; [f_equal |]; apply IH; congruence.
Qed.

(** A frame returned by the loader is rectangular: every row has
    exactly one cell for each of the frame's columns. *)
Theorem load_and_clean_data_rectangular (fs : files) (file_path : string)
  (df : DataFrame) :
  load_and_clean_data fs file_path = Ok df -> rectangular df.
Proof.
  intros H. apply load_and_clean_data_Ok in H.
  destruct H as (f & data & j1 & j2 & j3 & _ & Hdata & _ & _ & _ & ->).
  unfold rectangular, loaded_frame, keep_columns, clean_column. simpl.
  rewrite !Forall_map. simpl. apply Forall_forall. intros [i cells] Hin. simpl.
  apply take_mask_length. rewrite !set_nth_length.
  apply in_combine_r in Hin.
  destruct (In_nth_error _ _ Hin) as (k & Hk).
  assert (Hlen : length data = length (records f))
    by exact (mapM_Ok_length _ _ _ Hdata).
  destruct (nth_error (records f) k) as [line |] eqn:Hline.
  - destruct (mapM_Ok_nth _ _ _ Hdata k line Hline) as (cells' & Hc' & Hconv).
    assert (cells' = cells) by congruence. subst cells'.
    apply convert_line_Ok in Hconv. destruct Hconv as (Hl & _).
    rewrite Hl. apply column_dtypes_length.
  - apply nth_error_None in Hline.
    assert (k < length data)%nat by (apply nth_error_Some; congruence). lia.
Qed.

Lemma load_and_clean_data_rectangular_witness :
  load_and_clean_data sample_files "metabolites/prod.csv" = Ok sample_prod /\
  rectangular sample_prod.
Proof.
  split; [vm_compute; reflexivity |].
  apply (load_and_clean_data_rectangular sample_files "metabolites/prod.csv").
  vm_compute. reflexivity.
Defined.

(** The type-strain column survives the loader. *)
Lemma load_and_clean_data_type_strain_column (fs : files) (file_path : string)
  (df : DataFrame) :
  load_and_clean_data fs file_path = Ok df ->
  exists j, position is_type_strain_header (columns df) = Some j.
Proof.
  intros H. apply load_and_clean_data_Ok in H.
  destruct H as (f & data & j1 & j2 & j3 & _ & _ & _ & Hj2 & _ & ->).
  destruct (take_mask_position kept is_type_strain_header (header f) j2 eq_refl Hj2)
    as (j' & Hpos & _).
  exists j'. exact Hpos.
Qed.

(** ** The checkbox dispatch on loaded tables *)

(** X4: on three tables returned by the loader the checkbox dispatch never
    raises: for every state of the two checkboxes it returns three frames,
    each with the columns of its table and with rows taken from it. *)
Theorem filtered_frames_loaded (fs : files) (pp pu pa : string)
  (prod_df util_df anti_df : DataFrame) (show_1 show_0 : bool) :
  load_and_clean_data fs pp = Ok prod_df ->
  load_and_clean_data fs pu = Ok util_df ->
  load_and_clean_data fs pa = Ok anti_df ->
  exists p u a,
    filtered_frames show_1 show_0 prod_df util_df anti_df = Ok (p, u, a) /\
    columns p = columns prod_df /\ incl (rows p) (rows prod_df) /\
    columns u = columns util_df /\ incl (rows u) (rows util_df) /\
    columns a = columns anti_df /\ incl (rows a) (rows anti_df).
Proof.
  intros Hp Hu Ha.
  destruct (load_and_clean_data_type_strain_column _ _ _ Hp) as (jp & Hjp).
  destruct (load_and_clean_data_type_strain_column _ _ _ Hu) as (ju & Hju).
  destruct (load_and_clean_data_type_strain_column _ _ _ Ha) as (ja & Hja).
  assert (Hsub : forall j v df, incl (rows (rows_where j v df)) (rows df)).
  { intros j v df r Hr. simpl in Hr. apply filter_In in Hr. tauto. }
  unfold filtered_frames.
  destruct show_1, show_0; simpl;
    rewrite ?(filter_by_type_strain_rows prod_df _ jp Hjp),
            ?(filter_by_type_strain_rows util_df _ ju Hju),
            ?(filter_by_type_strain_rows anti_df _ ja Hja); simpl;
    do 3 eexists; (split; [reflexivity |]); simpl;
    repeat split; try apply incl_refl;
    try apply (Hsub jp); try apply (Hsub ju); try apply (Hsub ja).
Qed.

Lemma filtered_frames_loaded_witness :
  load_and_clean_data sample_files "metabolites/prod.csv" = Ok sample_prod /\
  load_and_clean_data sample_files "metabolites/util.csv" = Ok sample_util /\
  load_and_clean_data sample_files "metabolites/anti.csv" = Ok sample_anti /\
  exists p u a,
    filtered_frames true false sample_prod sample_util sample_anti = Ok (p, u, a) /\
    columns p = columns sample_prod /\ incl (rows p) (rows sample_prod) /\
    columns u = columns sample_util /\ incl (rows u) (rows sample_util) /\
    columns a = columns sample_anti /\ incl (rows a) (rows sample_anti).
Proof.
  split; [vm_compute; reflexivity |]. split; [vm_compute; reflexivity |].
  split; [vm_compute; reflexivity |].
  apply (filtered_frames_loaded sample_files "metabolites/prod.csv"
           "metabolites/util.csv" "metabolites/anti.csv");
    vm_compute; reflexivity.
Defined.

(** ** count_metabolites *)

Lemma map_snd_combine_seq {A : Type} (l : list A) (a : nat) :
  map snd (combine (seq a (length l)) l) = l.
Proof.
  revert a; induction l as [| x t IH]; intros a; simpl;
    [reflexivity | f_equal; apply IH].
Qed.

Lemma metabolite_columns_labels (df : DataFrame) :
  map snd (metabolite_columns df) = skipn 4 (columns df).
Proof.
  unfold metabolite_columns. rewrite <- skipn_map, map_snd_combine_seq.
  reflexivity.
Qed.

Lemma metabolite_columns_positions (df : DataFrame) (jl : nat * string) :
  In jl (metabolite_columns df) -> (4 <= fst jl)%nat.
Proof.
  unfold metabolite_columns. intros H.
  destruct (In_nth_error _ _ H) as (k & Hk).
  rewrite nth_error_skipn in Hk.
  destruct (nth_error (columns df) (4 + k)) as [c |] eqn:Hc.
  - rewrite (nth_error_combine_seq _ 0 (4 + k) c Hc) in Hk.
    injection Hk as <-. simpl. lia.
  - apply nth_error_None in Hc.
    assert (Hn : nth_error (combine (seq 0 (length (columns df))) (columns df))
                           (4 + k) = None).
    { apply nth_error_None. rewrite length_combine, length_seq. lia. }
    rewrite Hn in Hk. discriminate Hk.
Qed.

Lemma mapM_labelled {A B L : Type} (g : A -> result B) (lab : A -> L)
  (l : list A) (r : list (L * B)) :
  mapM (fun x => s <- g x ;; Ok (lab x, s)) l = Ok r -> map fst r = map lab l.
Proof.
  revert r; induction l as [| x t IH]; simpl; intros r H.
  - injection H as <-. reflexivity.
  - destruct (g x) as [b |]; [simpl in H | discriminate H].
    destruct (mapM _ t) as [r' |]; [simpl in H | discriminate H].
    injection H as <-. simpl. f_equal. apply IH. reflexivity.
Qed.

(** X5: when count_metabolites returns, its Series has one entry for each
    column from the fifth on, labelled by the columns, in their order; the
    first four columns never enter it. *)
Theorem count_metabolites_labels (df : DataFrame) (s : list (string * Q)) :
  count_metabolites df = Ok s -> map fst s = skipn 4 (columns df).
Proof.
  unfold count_metabolites. intros H.
  rewrite <- metabolite_columns_labels.
  apply (mapM_labelled _ _ _ _ H).
Qed.

Lemma count_metabolites_labels_witness :
  count_metabolites sample_prod = Ok [("metA", 2); ("metB", 3)] /\
  map fst [("metA", 2); ("metB", 3)] = skipn 4 (columns sample_prod).
Proof.
  split; [reflexivity |].
  apply (count_metabolites_labels sample_prod). reflexivity.
Defined.

Lemma sum_numbers_zeros (n : nat) : sum_numbers (repeat 0%Q n) = 0%Q.
Proof.
  unfold sum_numbers. induction n as [| n IH]; simpl; [reflexivity | exact IH].
Qed.

(** X6: a table without rows (for one, what a filter leaves when nothing
    matches) has the count 0 for every metabolite column and the total 0;
    count_metabolites does not fail on it. *)
Theorem count_metabolites_no_rows (df : DataFrame) :
  rows df = [] ->
  count_metabolites df = Ok (map (fun label => (label, 0%Q)) (skipn 4 (columns df))) /\
  metabolite_total df = Ok 0%Q.
Proof.
  intros Hrows.
  assert (Hc : count_metabolites df
               = Ok (map (fun label => (label, 0%Q)) (skipn 4 (columns df)))).
  { unfold count_metabolites.
    rewrite (mapM_total _ (fun jl : nat * string => (snd jl, 0%Q))).
    - rewrite <- metabolite_columns_labels, map_map. reflexivity.
    - intros jl _. unfold column_cells. rewrite Hrows. reflexivity. }
  split; [exact Hc |].
  unfold metabolite_total. rewrite Hc. simpl. f_equal.
  unfold total. rewrite map_map. simpl.
  rewrite map_const. apply sum_numbers_zeros.
Qed.

Lemma count_metabolites_no_rows_witness :
  rows (no_rows sample_prod) = [] /\
  count_metabolites (no_rows sample_prod)
    = Ok (map (fun label => (label, 0%Q)) (skipn 4 (columns (no_rows sample_prod)))) /\
  metabolite_total (no_rows sample_prod) = Ok 0%Q.
Proof.
  split; [reflexivity |].
  apply (count_metabolites_no_rows (no_rows sample_prod)). reflexivity.
Defined.

(** ** Sums of integer cells *)

Lemma Qplus_inject_Z (a b : Z) :
  (inject_Z a + inject_Z b)%Q = inject_Z (a + b).
Proof. unfold Qplus, inject_Z. simpl. f_equal. lia. Qed.

Lemma sum_numbers_inject_Z (zs : list Z) :
  sum_numbers (map inject_Z zs) = inject_Z (sumZ zs).
Proof.
  unfold sum_numbers. change 0%Q with (inject_Z 0).
  assert (H : forall a, fold_left Qplus (map inject_Z zs) (inject_Z a)
                        = inject_Z (a + sumZ zs)).
  { induction zs as [| z t IH]; intros a; simpl.
    - f_equal. lia.
    - rewrite Qplus_inject_Z, IH. f_equal. lia. }
  apply H.
Qed.

Lemma sum_cells_integral (cs : list cell) :
  forallb integral cs = true ->
  sum_cells cs = Ok (inject_Z (sumZ (map int_of cs))).
Proof.
  intros H. unfold sum_cells.
  rewrite (mapM_total _ (fun c => inject_Z (int_of c))).
  - simpl. rewrite <- sum_numbers_inject_Z, map_map. reflexivity.
  - intros c Hc. rewrite forallb_forall in H. specialize (H c Hc).
    destruct c; simpl in *; try discriminate; reflexivity.
Qed.

Lemma metabolites_all_cell (P : cell -> bool) (df : DataFrame) (r : row) (j : nat) :
  P NaN = true -> metabolites_all P df -> In r (rows df) -> (4 <= j)%nat ->
  P (cell_at j r) = true.
Proof.
  intros HNaN Hall Hr Hj. unfold metabolites_all in Hall.
  rewrite Forall_forall in Hall. specialize (Hall r Hr).
  rewrite forallb_forall in Hall. unfold cell_at.
  replace j with (4 + (j - 4))%nat by lia. rewrite <- nth_skipn.
  destruct (Nat.lt_ge_cases (j - 4) (length (skipn 4 (snd r)))) as [Hlt | Hge].
  - apply Hall, nth_In, Hlt.
  - rewrite nth_overflow by exact Hge. exact HNaN.
Qed.

(** On a frame of integers the counts are the integer column sums. *)
Lemma count_metabolites_integral (df : DataFrame) :
  metabolites_all integral df ->
  count_metabolites df
    = Ok (map (fun jl : nat * string => (snd jl, inject_Z (column_sum (fst jl) df)))
              (metabolite_columns df)).
Proof.
  intros Hall. unfold count_metabolites. apply mapM_total. intros jl Hjl.
  rewrite sum_cells_integral.
  - simpl. unfold column_cells, column_sum. rewrite map_map. reflexivity.
  - apply forallb_forall. intros c Hc. unfold column_cells in Hc.
    apply in_map_iff in Hc. destruct Hc as (r & <- & Hr).
    apply (metabolites_all_cell integral df r (fst jl) eq_refl Hall Hr).
    apply (metabolite_columns_positions df jl Hjl).
Qed.

Lemma metabolite_total_integral (df : DataFrame) :
  metabolites_all integral df ->
  metabolite_total df = Ok (inject_Z (grand_sum df)).
Proof.
  intros Hall. unfold metabolite_total.
  rewrite (count_metabolites_integral df Hall). simpl. f_equal.
  unfold total, grand_sum. rewrite map_map. simpl.
  rewrite <- sum_numbers_inject_Z, map_map. reflexivity.
Qed.

Lemma sumZ_Permutation (l l' : list Z) : Permutation l l' -> sumZ l = sumZ l'.
Proof.
  induction 1; simpl; lia.
Qed.

(** X7: the counts do not depend on the order of the rows: two frames of
    integers (int64 cells and missing values) with the same columns and the
    same rows in any order have the same metabolite counts. *)
Theorem count_metabolites_row_order (df df' : DataFrame) :
  metabolites_all integral df ->
  columns df' = columns df ->
  Permutation (rows df) (rows df') ->
  count_metabolites df' = count_metabolites df.
Proof.
  intros Hall Hcols Hperm.
  assert (Hall' : metabolites_all integral df').
  { unfold metabolites_all in *. apply (Permutation_Forall Hperm). exact Hall. }
  rewrite (count_metabolites_integral df Hall),
          (count_metabolites_integral df' Hall').
  unfold metabolite_columns. rewrite Hcols. f_equal.
  apply map_ext. intros jl. f_equal. f_equal. unfold column_sum.
  apply sumZ_Permutation, Permutation_map, Permutation_sym, Hperm.
Qed.

Lemma count_metabolites_row_order_witness :
  metabolites_all integral sample_prod /\
  columns {| columns := columns sample_prod; rows := rev (rows sample_prod) |}
    = columns sample_prod /\
  Permutation (rows sample_prod)
              (rows {| columns := columns sample_prod; rows := rev (rows sample_prod) |}) /\
  count_metabolites {| columns := columns sample_prod; rows := rev (rows sample_prod) |}
    = count_metabolites sample_prod.
Proof.
  assert (Hall : metabolites_all integral sample_prod).
  { unfold metabolites_all. simpl. repeat (apply Forall_cons; [reflexivity |]).
    apply Forall_nil. }
  split; [exact Hall |]. split; [reflexivity |].
  split; [simpl; apply perm_swap |].
  apply (count_metabolites_row_order sample_prod);
    [exact Hall | reflexivity | simpl; apply perm_swap].
Defined.

(** ** compute_statistics on whole tables *)

Lemma take_mask_In {A : Type} (m : list bool) (l : list A) (x : A) :
  In x (take_mask m l) -> In x l.
Proof.
  unfold take_mask. intros H. apply in_map_iff in H.
  destruct H as ([b y] & <- & H). apply filter_In in H. destruct H as (H & _).
  apply in_combine_r in H. exact H.
Qed.

Lemma metabolites_all_rows_at (P : cell -> bool) (key_df df : DataFrame)
  (j : nat) (v : cell) :
  metabolites_all P df -> metabolites_all P (rows_at key_df j v df).
Proof.
  unfold metabolites_all. rewrite !Forall_forall. intros H r Hr.
  apply H. simpl in Hr. eapply take_mask_In. exact Hr.
Qed.

(** Two complementary masks split a sum in two. *)
Lemma take_mask_partition_sum {K A : Type} (keys : list K) (f1 f0 : K -> bool)
  (g : A -> Z) (l : list A) :
  (forall k, In k keys -> f1 k = negb (f0 k)) ->
  (length l <= length keys)%nat ->
  (sumZ (map g (take_mask (map f1 keys) l))
   + sumZ (map g (take_mask (map f0 keys) l)))%Z = sumZ (map g l).
Proof.
  unfold take_mask.
  revert l; induction keys as [| k t IH]; intros l Hf Hlen.
  - destruct l; simpl in *; [reflexivity | lia].
  - destruct l as [| x l]; [reflexivity |]. simpl in Hlen.
    assert (IH' := IH l (fun k' Hk' => Hf k' (or_intror Hk')) ltac:(lia)).
    simpl. rewrite (Hf k (or_introl eq_refl)).
    destruct (f0 k); simpl; lia.
Qed.

Lemma sumZ_map_add {A : Type} (a b : A -> Z) (l : list A) :
  sumZ (map (fun x => (a x + b x)%Z) l) = (sumZ (map a l) + sumZ (map b l))%Z.
Proof. induction l as [| x t IH]; simpl; lia. Qed.

(** The two partitions of a table, cut by a key of zeros and ones that is at
    least as long, add up to the table. *)
Lemma grand_sum_partition (key_df df : DataFrame) (j : nat) :
  (forall r, In r (rows key_df) -> zero_or_one (cell_at j r) = true) ->
  (length (rows df) <= length (rows key_df))%nat ->
  (grand_sum (rows_at key_df j (IntV 1) df)
   + grand_sum (rows_at key_df j (IntV 0) df))%Z = grand_sum df.
Proof.
  intros Hbin Hlen. unfold grand_sum.
  change (metabolite_columns (rows_at key_df j (IntV 1) df))
    with (metabolite_columns df).
  change (metabolite_columns (rows_at key_df j (IntV 0) df))
    with (metabolite_columns df).
  rewrite <- sumZ_map_add. f_equal. apply map_ext. intros jl.
  unfold column_sum, rows_at. simpl.
  apply (take_mask_partition_sum (rows key_df)
           (fun r => cell_eqb (cell_at j r) (IntV 1))
           (fun r => cell_eqb (cell_at j r) (IntV 0))).
  - intros r Hr. apply zero_or_one_exclusive, Hbin, Hr.
  - exact Hlen.
Qed.

(** What the key of prod selects from a table indexed by position. *)
Lemma masked_Ok_range (df key_df sel : DataFrame) (v : Z) (j : nat) :
  RangeIndex df -> RangeIndex key_df ->
  position is_type_strain_header (columns key_df) = Some j ->
  masked df key_df v = Ok sel ->
  sel = rows_at key_df j (IntV v) df /\
  (length (rows df) <= length (rows key_df))%nat.
Proof.
  intros Hdf Hkey Hj Hsel.
  destruct (masked_range df key_df v j Hdf Hkey Hj) as [Hok Herr].
  destruct (Nat.le_gt_cases (length (rows df)) (length (rows key_df))) as [Hle | Hgt].
  - rewrite (Hok Hle) in Hsel. injection Hsel as <-. auto.
  - destruct (Herr Hgt) as (e & He). rewrite He in Hsel. discriminate Hsel.
Qed.

(** X8: when prod's type-strain cells are all 0 or 1 and the metabolite
    cells are integers (tables indexed by position), the Total row reports
    the whole tables: its Prod, Util and Anti numbers are the metabolite
    totals of the unfiltered prod, util and anti tables; every row of util
    and anti is counted once, whatever its own type-strain mark. *)
Theorem compute_statistics_total_whole_tables
  (prod_df util_df anti_df : DataFrame) (st : list stats_row) :
  RangeIndex prod_df -> RangeIndex util_df -> RangeIndex anti_df ->
  binary_type_strain prod_df ->
  metabolites_all integral prod_df ->
  metabolites_all integral util_df ->
  metabolites_all integral anti_df ->
  compute_statistics prod_df util_df anti_df = Ok st ->
  exists ts nts tot,
    st = [ts; nts; tot] /\
    metabolite_total prod_df = Ok (Prod_Metabolites tot) /\
    metabolite_total util_df = Ok (Util_Metabolites tot) /\
    metabolite_total anti_df = Ok (Anti_Metabolites tot).
Proof.
  intros Hp Hu Ha Hbin Hip Hiu Hia H. apply compute_statistics_Ok in H.
  destruct H as (ts & nts & Hts & Hnts & _ & _ & ->).
  destruct Hts as (sp1 & su1 & sa1 & Hsp1 & Hsu1 & Hsa1 & _ & Hmp1 & Hmu1 & Hma1).
  destruct Hnts as (sp0 & su0 & sa0 & Hsp0 & Hsu0 & Hsa0 & _ & Hmp0 & Hmu0 & Hma0).
  destruct (binary_type_strain_cells prod_df Hbin) as (j & Hj & Hcells).
  assert (Hwhole : forall df s1 s0 t1 t0,
             RangeIndex df -> metabolites_all integral df ->
             masked df prod_df 1 = Ok s1 -> masked df prod_df 0 = Ok s0 ->
             metabolite_total s1 = Ok t1 -> metabolite_total s0 = Ok t0 ->
             metabolite_total df = Ok (t1 + t0)%Q).
  { intros df s1 s0 t1 t0 Hdf Hint Hs1 Hs0 Ht1 Ht0.
    destruct (masked_Ok_range df prod_df s1 1 j Hdf Hp Hj Hs1) as (-> & Hlen).
    destruct (masked_Ok_range df prod_df s0 0 j Hdf Hp Hj Hs0) as (-> & _).
    rewrite (metabolite_total_integral _
               (metabolites_all_rows_at integral prod_df df j (IntV 1) Hint)) in Ht1.
    rewrite (metabolite_total_integral _
               (metabolites_all_rows_at integral prod_df df j (IntV 0) Hint)) in Ht0.
    injection Ht1 as <-. injection Ht0 as <-.
    rewrite Qplus_inject_Z, (grand_sum_partition prod_df df j Hcells Hlen).
    apply metabolite_total_integral. exact Hint. }
  do 3 eexists. split; [reflexivity |]. simpl.
  split; [apply (Hwhole prod_df sp1 sp0); assumption |].
  split; [apply (Hwhole util_df su1 su0); assumption |].
  apply (Hwhole anti_df sa1 sa0); assumption.
Qed.

Lemma compute_statistics_total_whole_tables_witness :
  compute_statistics sample_prod sample_util sample_anti
    = Ok [ mkStats "Type Strain" 1 2 5 1; mkStats "Non-Type Strain" 1 3 7 0;
           mkStats "Total" 2 (2 + 3) (5 + 7) (1 + 0) ] /\
  exists ts nts tot,
    [ mkStats "Type Strain" 1 2 5 1; mkStats "Non-Type Strain" 1 3 7 0;
      mkStats "Total" 2 (2 + 3) (5 + 7) (1 + 0) ] = [ts; nts; tot] /\
    metabolite_total sample_prod = Ok (Prod_Metabolites tot) /\
    metabolite_total sample_util = Ok (Util_Metabolites tot) /\
    metabolite_total sample_anti = Ok (Anti_Metabolites tot).
Proof.
  split; [reflexivity |].
  apply (compute_statistics_total_whole_tables sample_prod sample_util sample_anti);
    try reflexivity.
  - eexists. split; [reflexivity |]. simpl.
    repeat (apply Forall_cons; [reflexivity |]). apply Forall_nil.
  - unfold metabolites_all. simpl.
    repeat (apply Forall_cons; [reflexivity |]). apply Forall_nil.
  - unfold metabolites_all. simpl.
    repeat (apply Forall_cons; [reflexivity |]). apply Forall_nil.
  - unfold metabolites_all. simpl.
    repeat (apply Forall_cons; [reflexivity |]). apply Forall_nil.
Defined.

Lemma mapM_returns {A B : Type} (f : A -> result B) (l : list A) :
  (forall x, In x l -> exists y, f x = Ok y) -> exists r, mapM f l = Ok r.
Proof.
  induction l as [| x t IH]; simpl; intros H; [eauto |].
  destruct (H x (or_introl eq_refl)) as (y & ->).
  destruct (IH (fun x' Hx' => H x' (or_intror Hx'))) as (r & ->).
  simpl. eauto.
Qed.

(** On a frame without text among its metabolite cells the total is
    returned. *)
Lemma metabolite_total_numeric (df : DataFrame) :
  metabolites_all numeric df -> exists t, metabolite_total df = Ok t.
Proof.
  intros Hall. unfold metabolite_total, count_metabolites.
  destruct (mapM_returns
              (fun jl : nat * string =>
                 s <- sum_cells (column_cells (fst jl) df) ;; Ok (snd jl, s))
              (metabolite_columns df)) as (r & ->); [| simpl; eauto].
  intros jl Hjl. unfold sum_cells.
  destruct (mapM_returns number (column_cells (fst jl) df)) as (xs & ->);
    [| simpl; eauto].
  intros c Hc. unfold column_cells in Hc. apply in_map_iff in Hc.
  destruct Hc as (r & <- & Hr).
  pose proof (metabolites_all_cell numeric df r (fst jl) eq_refl Hall Hr
                (metabolite_columns_positions df jl Hjl)) as Hnum.
  fold (cell_at (fst jl) r). destruct (cell_at (fst jl) r); simpl in *;
    try discriminate; eauto.
Qed.

(** X9: compute_statistics returns a summary whenever prod has the
    type-strain and the species columns, util and anti have no more rows
    than prod (tables indexed by position) and no metabolite cell is a
    text. *)
Theorem compute_statistics_returns (prod_df util_df anti_df : DataFrame)
  (j k : nat) :
  RangeIndex prod_df -> RangeIndex util_df -> RangeIndex anti_df ->
  position is_type_strain_header (columns prod_df) = Some j ->
  position species (columns prod_df) = Some k ->
  (length (rows util_df) <= length (rows prod_df))%nat ->
  (length (rows anti_df) <= length (rows prod_df))%nat ->
  metabolites_all numeric prod_df ->
  metabolites_all numeric util_df ->
  metabolites_all numeric anti_df ->
  exists st, compute_statistics prod_df util_df anti_df = Ok st.
Proof.
  intros Hp Hu Ha Hj Hk Hlu Hla Hnp Hnu Hna.
  assert (Hsel : forall df v, RangeIndex df ->
             (length (rows df) <= length (rows prod_df))%nat ->
             masked df prod_df v = Ok (rows_at prod_df j (IntV v) df)).
  { intros df v Hdf Hle.
    exact (proj1 (masked_range df prod_df v j Hdf Hp Hj) Hle). }
  assert (Htot : forall df v, metabolites_all numeric df ->
             exists t, metabolite_total (rows_at prod_df j (IntV v) df) = Ok t).
  { intros df v Hn. apply metabolite_total_numeric, metabolites_all_rows_at, Hn. }
  assert (Hsp : forall v, exists n,
             species_count (rows_at prod_df j (IntV v) prod_df) = Ok n).
  { intros v. unfold species_count, getitem. simpl. rewrite Hk. simpl. eauto. }
  unfold compute_statistics.
  rewrite !(Hsel prod_df) by (exact Hp || apply Nat.le_refl).
  rewrite !(Hsel util_df) by assumption.
  rewrite !(Hsel anti_df) by assumption.
  simpl.
  destruct (Hsp 1%Z) as (c1 & ->). destruct (Htot prod_df 1%Z Hnp) as (p1 & ->).
  destruct (Htot util_df 1%Z Hnu) as (u1 & ->).
  destruct (Htot anti_df 1%Z Hna) as (a1 & ->).
  destruct (Hsp 0%Z) as (c0 & ->). destruct (Htot prod_df 0%Z Hnp) as (p0 & ->).
  destruct (Htot util_df 0%Z Hnu) as (u0 & ->).
  destruct (Htot anti_df 0%Z Hna) as (a0 & ->).
  simpl. eauto.
Qed.

Lemma compute_statistics_returns_witness :
  RangeIndex sample_prod /\ RangeIndex sample_util /\ RangeIndex sample_anti /\
  position is_type_strain_header (columns sample_prod) = Some 2%nat /\
  position species (columns sample_prod) = Some 1%nat /\
  (length (rows sample_util) <= length (rows sample_prod))%nat /\
  (length (rows sample_anti) <= length (rows sample_prod))%nat /\
  exists st, compute_statistics sample_prod sample_util sample_anti = Ok st.
Proof.
  assert (Hnum : forall df, In df [sample_prod; sample_util; sample_anti] ->
                            metabolites_all numeric df).
  { intros df [<- | [<- | [<- | []]]]; unfold metabolites_all; simpl;
      repeat (apply Forall_cons; [reflexivity |]); apply Forall_nil. }
  split; [reflexivity |]. split; [reflexivity |]. split; [reflexivity |].
  split; [reflexivity |]. split; [reflexivity |].
  split; [simpl; lia |]. split; [simpl; lia |].
  apply (compute_statistics_returns sample_prod sample_util sample_anti 2 1);
    try reflexivity; try (simpl; lia); apply Hnum; simpl; auto.
Defined.

(** X10: compute_statistics fails with KeyError on a prod table without the
    type-strain column, and with KeyError 'species' on one that has it but
    lacks the species column; no summary is returned, whatever util and anti
    are. *)
Theorem compute_statistics_missing_column (prod_df util_df anti_df : DataFrame) :
  (position is_type_strain_header (columns prod_df) = None ->
   compute_statistics prod_df util_df anti_df
     = Raise (KeyError is_type_strain_header)) /\
  (forall j, position is_type_strain_header (columns prod_df) = Some j ->
   position species (columns prod_df) = None ->
   compute_statistics prod_df util_df anti_df = Raise (KeyError species)).
Proof.
  split.
  - intros H. unfold compute_statistics, masked, getitem. rewrite H. reflexivity.
  - intros j Hj Hs. unfold compute_statistics.
    rewrite masked_self, (filter_by_type_strain_rows prod_df _ j Hj). simpl.
    unfold species_count, getitem. simpl. rewrite Hs. reflexivity.
Qed.

Lemma compute_statistics_missing_column_witness :
  position is_type_strain_header (columns sample_bare) = Some 1%nat /\
  position species (columns sample_bare) = None /\
  compute_statistics sample_bare sample_util sample_anti = Raise (KeyError species).
Proof.
  split; [reflexivity |]. split; [reflexivity |].
  apply (proj2 (compute_statistics_missing_column sample_bare sample_util sample_anti)
               1%nat); reflexivity.
Defined.

(** ** The top metabolites *)

Lemma sort_sums_descending_fill (l : list (string * Q)) :
  sort_sums_descending l = rev (fill_sums l).
Proof.
  unfold sort_sums_descending, argsort_sums, fill_sums. f_equal.
  rewrite <- (rev_involutive l) at 2.
  symmetry. apply fold_left_rev_right.
Qed.

Lemma insert_sum_Permutation (x : string * Q) (l : list (string * Q)) :
  Permutation (insert_sum x l) (x :: l).
Proof.
  induction l as [| y t IH]; simpl; [apply Permutation_refl |].
  destruct (Qle_bool (snd x) (snd y)); [apply Permutation_refl |].
  apply perm_trans with (y :: x :: t); [constructor; exact IH | apply perm_swap].
Qed.

Lemma fill_sums_Permutation (l : list (string * Q)) :
  Permutation (fill_sums l) l.
Proof.
  induction l as [| x t IH]; simpl; [constructor |].
  apply perm_trans with (x :: fill_sums t);
    [apply insert_sum_Permutation | constructor; exact IH].
Qed.

Lemma sort_sums_descending_Permutation (l : list (string * Q)) :
  Permutation (sort_sums_descending l) l.
Proof.
  rewrite sort_sums_descending_fill.
  apply perm_trans with (fill_sums l);
    [apply Permutation_sym, Permutation_rev | apply fill_sums_Permutation].
Qed.

Lemma precedes_insert_sum (x a b : string * Q) (l : list (string * Q)) :
  (forall u v, precedes u v l -> (snd u <= snd v)%Q) ->
  precedes a b (insert_sum x l) ->
  precedes a b l \/ (snd a <= snd b)%Q.
Proof.
  induction l as [| y t IH]; simpl; intros Hasc H.
  - destruct H as [[_ []] | []].
  - destruct (Qle_bool (snd x) (snd y)) eqn:E; simpl in H.
    + apply Qle_bool_iff in E.
      destruct H as [[<- Hb] | H]; [| left; exact H].
      right. destruct Hb as [<- | Hb]; [exact E |].
      apply Qle_trans with (snd y); [exact E |].
      apply Hasc. left. auto.
    + assert (Hlt : (snd y < snd x)%Q).
      { apply Qnot_le_lt. intros Hle. apply Qle_bool_iff in Hle. congruence. }
      destruct H as [[<- Hb] | H].
      * apply (Permutation_in _ (insert_sum_Permutation x t)) in Hb.
        destruct Hb as [<- | Hb];
          [right; apply Qlt_le_weak; exact Hlt | left; left; auto].
      * destruct (IH (fun u v Huv => Hasc u v (or_intror Huv)) H) as [Hp | Hle];
          auto.
Qed.

Lemma fill_sums_ascending (l : list (string * Q)) (a b : string * Q) :
  precedes a b (fill_sums l) -> (snd a <= snd b)%Q.
Proof.
  revert a b; induction l as [| x t IH]; simpl; intros a b H; [contradiction |].
  destruct (precedes_insert_sum x a b (fill_sums t) IH H) as [Hp | Hle]; auto.
Qed.

(** X11: the top metabolites of a table, when its counts are returned, are
    at most n entries, each a metabolite column with its count, and no entry
    has a larger count than an entry before it; when the table has at most n
    metabolite columns they are all there. *)
Theorem top_metabolites_bounded (df : DataFrame) (n : nat)
  (s : list (string * Q)) :
  count_metabolites df = Ok s ->
  exists r,
    top_metabolites df n = Ok r /\
    (length r <= n)%nat /\
    incl r s /\
    (forall i k x y, (i < k)%nat ->
       nth_error r i = Some x -> nth_error r k = Some y ->
       (snd y <= snd x)%Q) /\
    ((length s <= n)%nat -> Permutation r s).
Proof.
  intros Hs. unfold top_metabolites. rewrite Hs. simpl.
  eexists. split; [reflexivity |]. unfold head.
  split; [apply firstn_le_length |]. split; [| split].
  - intros x Hx. apply In_firstn in Hx.
    apply (Permutation_in _ (sort_sums_descending_Permutation s) Hx).
  - intros i k x y Hik Hx Hy.
    pose proof (nth_error_precedes _ i k x y Hik Hx Hy) as H.
    apply precedes_firstn in H.
    rewrite sort_sums_descending_fill, precedes_rev in H.
    apply (fill_sums_ascending s y x H).
  - intros Hlen. rewrite firstn_all2.
    + apply sort_sums_descending_Permutation.
    + rewrite (Permutation_length (sort_sums_descending_Permutation s)).
      exact Hlen.
Qed.

Lemma top_metabolites_bounded_witness :
  count_metabolites sample_prod = Ok [("metA", 2); ("metB", 3)] /\
  exists r,
    top_metabolites sample_prod 1 = Ok r /\
    (length r <= 1)%nat /\
    incl r [("metA", 2); ("metB", 3)] /\
    (forall i k x y, (i < k)%nat ->
       nth_error r i = Some x -> nth_error r k = Some y ->
       (snd y <= snd x)%Q) /\
    ((length [("metA", 2%Q); ("metB", 3%Q)] <= 1)%nat ->
     Permutation r [("metA", 2); ("metB", 3)]).
Proof.
  split; [reflexivity |].
  apply (top_metabolites_bounded sample_prod 1). reflexivity.
Defined.

(** ** value_counts *)

Lemma sum_counts_bump (v : cell) (tbl : list (cell * nat)) :
  sum_counts (bump v tbl) = S (sum_counts tbl).
Proof.
  induction tbl as [| [k c] t IH]; simpl; [reflexivity |].
  destruct (cell_same k v); simpl; [reflexivity | rewrite IH; lia].
Qed.

Lemma sum_counts_frequency_table (vals : list cell) (tbl : list (cell * nat)) :
  sum_counts (fold_left (fun tbl v => if isna v then tbl else bump v tbl) vals tbl)
  = (length (dropna vals) + sum_counts tbl)%nat.
Proof.
  revert tbl; induction vals as [| v t IH]; intros tbl; simpl; [reflexivity |].
  destruct (isna v); simpl; [apply IH |].
  rewrite IH, sum_counts_bump. lia.
Qed.

Lemma sum_counts_insert (x : cell * nat) (l : list (cell * nat)) :
  sum_counts (insert x l) = (snd x + sum_counts l)%nat.
Proof.
  induction l as [| y t IH]; simpl; [reflexivity |].
  destruct (snd x <=? snd y)%nat; simpl; [reflexivity | rewrite IH; lia].
Qed.

Lemma sum_counts_app (l1 l2 : list (cell * nat)) :
  sum_counts (l1 ++ l2) = (sum_counts l1 + sum_counts l2)%nat.
Proof. induction l1 as [| x t IH]; simpl; [reflexivity | rewrite IH; lia]. Qed.

Lemma sum_counts_rev (l : list (cell * nat)) : sum_counts (rev l) = sum_counts l.
Proof.
  induction l as [| x t IH]; simpl; [reflexivity |].
  rewrite sum_counts_app, IH. simpl. lia.
Qed.

Lemma sum_counts_sort_values_descending (l : list (cell * nat)) :
  sum_counts (sort_values_descending l) = sum_counts l.
Proof.
  rewrite sort_values_descending_fill, sum_counts_rev. unfold fill.
  induction l as [| x t IH]; simpl; [reflexivity |].
  rewrite sum_counts_insert, IH. reflexivity.
Qed.

(** X12: value_counts accounts for every value that is not missing, once:
    its counts add up to the number of non-missing values of the Series.
    Missing values (a blank species) are counted nowhere, and the first n
    entries account for no more than that number. *)
Theorem value_counts_total (s : Series cell) (n : nat) :
  sum_counts (value_counts s) = length (dropna (values s)) /\
  (sum_counts (head n (value_counts s)) <= length (dropna (values s)))%nat.
Proof.
  assert (Hall : sum_counts (value_counts s) = length (dropna (values s))).
  { unfold value_counts, frequency_table.
    rewrite sum_counts_sort_values_descending, sum_counts_frequency_table.
    simpl. lia. }
  split; [exact Hall |].
  rewrite <- Hall. unfold head.
  rewrite <- (firstn_skipn n (value_counts s)) at 2.
  rewrite sum_counts_app. lia.
Qed.

(** ** What compute_statistics reads of util and anti *)

Lemma metabolite_columns_fst (df : DataFrame) :
  map fst (metabolite_columns df) = seq 4 (length (columns df) - 4).
Proof.
  unfold metabolite_columns.
  rewrite <- skipn_map, map_fst_combine_seq, skipn_seq. reflexivity.
Qed.

Lemma mapM_ext_in {A B : Type} (f g : A -> result B) (l : list A) :
  (forall x, In x l -> f x = g x) -> mapM f l = mapM g l.
Proof.
  induction l as [| x t IH]; simpl; intros H; [reflexivity |].
  rewrite (H x (or_introl eq_refl)), (IH (fun y Hy => H y (or_intror Hy))).
  reflexivity.
Qed.

Lemma mapM_labelled_values {A B L : Type} (g : A -> result B) (lab : A -> L)
  (l : list A) :
  mapM g l = (r <- mapM (fun x => s <- g x ;; Ok (lab x, s)) l ;; Ok (map snd r)).
Proof.
  induction l as [| x t IH]; simpl; [reflexivity |].
  destruct (g x) as [b |]; simpl; [| reflexivity].
  rewrite IH.
  destruct (mapM (fun x0 => s <- g x0 ;; Ok (lab x0, s)) t); reflexivity.
Qed.

(** The total as a function of the column positions only. *)
Lemma metabolite_total_positions (df : DataFrame) :
  metabolite_total df =
  (xs <- mapM (fun j => sum_cells (column_cells j df))
              (seq 4 (length (columns df) - 4)) ;;
   Ok (sum_numbers xs)).
Proof.
  rewrite <- metabolite_columns_fst, mapM_map.
  rewrite (mapM_labelled_values
             (fun jl : nat * string => sum_cells (column_cells (fst jl) df)) snd).
  unfold metabolite_total, count_metabolites, total.
  destruct (mapM _ (metabolite_columns df)); reflexivity.
Qed.

Lemma column_cells_metabolite (df : DataFrame) (j : nat) :
  (4 <= j)%nat ->
  column_cells j df = map (fun cs => nth (j - 4) cs NaN) (metabolite_cells df).
Proof.
  intros Hj. unfold column_cells, metabolite_cells. rewrite map_map.
  apply map_ext. intros r. rewrite nth_skipn. f_equal. lia.
Qed.

(** Frames with as many columns and the same metabolite cells have the same
    total. *)
Lemma metabolite_total_same (df df' : DataFrame) :
  length (columns df) = length (columns df') ->
  metabolite_cells df = metabolite_cells df' ->
  metabolite_total df = metabolite_total df'.
Proof.
  intros Hlen Hcells. rewrite !metabolite_total_positions, Hlen.
  rewrite (mapM_ext_in (fun j => sum_cells (column_cells j df))
                       (fun j => sum_cells (column_cells j df'))); [reflexivity |].
  intros j Hj. apply in_seq in Hj.
  rewrite !column_cells_metabolite by lia. rewrite Hcells. reflexivity.
Qed.

Lemma take_mask_map_commute {A B : Type} (h : A -> B) (m : list bool) (l : list A) :
  map h (take_mask m l) = take_mask m (map h l).
Proof.
  unfold take_mask. revert l; induction m as [| b m IH]; intros l; [reflexivity |].
  destruct l as [| x t]; [reflexivity |]. simpl.
  destruct b; simpl; [f_equal |]; apply IH.
Qed.

Lemma masked_total_same (df df' key_df : DataFrame) (v : Z) :
  same_metabolites df df' ->
  (sel <- masked df key_df v ;; metabolite_total sel)
  = (sel <- masked df' key_df v ;; metabolite_total sel).
Proof.
  intros (Hidx & Hlen & Hcells). unfold masked.
  destruct (getitem key_df is_type_strain_header) as [col |]; [simpl | reflexivity].
  unfold getitem_bool. rewrite <- Hidx.
  destruct (check_bool_indexer (index df) (eq_scalar col (IntV v))) as [m |];
    [simpl | reflexivity].
  apply metabolite_total_same; [exact Hlen |].
  unfold metabolite_cells in *. cbn [rows].
  rewrite !take_mask_map_commute, Hcells. reflexivity.
Qed.

(** X13: of the util and anti tables compute_statistics reads the row index,
    the number of columns and the metabolite cells, and nothing else: two
    util (or anti) tables that differ only in their first four columns (their
    own species and type-strain marks among them) or in their labels give
    the same result, summary or error. *)
Theorem compute_statistics_reads_metabolites_only
  (prod_df util_df anti_df util_df' anti_df' : DataFrame) :
  same_metabolites util_df util_df' ->
  same_metabolites anti_df anti_df' ->
  compute_statistics prod_df util_df' anti_df'
  = compute_statistics prod_df util_df anti_df.
Proof.
  intros Hu Ha. unfold compute_statistics.
  rewrite !(masked_total_same util_df util_df' prod_df _ Hu).
  rewrite !(masked_total_same anti_df anti_df' prod_df _ Ha).
  reflexivity.
Qed.

Lemma compute_statistics_reads_metabolites_only_witness :
  same_metabolites sample_util
    {| columns := [ID; "name"; "marks"; "note"; "metC"];
       rows := [ (0%nat, [IntV 7; StrV "Vibrio"; IntV 1; NaN; IntV 5]);
                 (1%nat, [IntV 8; StrV "Vibrio"; IntV 1; NaN; IntV 7]) ] |} /\
  same_metabolites sample_anti sample_anti /\
  compute_statistics sample_prod
    {| columns := [ID; "name"; "marks"; "note"; "metC"];
       rows := [ (0%nat, [IntV 7; StrV "Vibrio"; IntV 1; NaN; IntV 5]);
                 (1%nat, [IntV 8; StrV "Vibrio"; IntV 1; NaN; IntV 7]) ] |}
    sample_anti
  = compute_statistics sample_prod sample_util sample_anti.
Proof.
  split; [repeat split |]. split; [repeat split |].
  apply (compute_statistics_reads_metabolites_only sample_prod sample_util sample_anti);
    repeat split.
Defined.

(** ** The script *)

(** X14: when one of the three files does not load, a run stops with the
    error of the first of them (prod, then util, then anti) and puts nothing
    on the page, whatever the widgets. *)
Theorem run_load_failure (fs : files) (w : widgets) (e : exn) :
  load_and_clean_data fs "metabolites/prod.csv" = Raise e \/
  (exists prod_df,
     load_and_clean_data fs "metabolites/prod.csv" = Ok prod_df /\
     load_and_clean_data fs "metabolites/util.csv" = Raise e) \/
  (exists prod_df util_df,
     load_and_clean_data fs "metabolites/prod.csv" = Ok prod_df /\
     load_and_clean_data fs "metabolites/util.csv" = Ok util_df /\
     load_and_clean_data fs "metabolites/anti.csv" = Raise e) ->
  run fs w = ([], Raise e).
Proof.
  unfold run, app, then_, eval.
  intros [H | [(p & Hp & H) | (p & u & Hp & Hu & H)]].
  - rewrite H. reflexivity.
  - rewrite Hp, H. reflexivity.
  - rewrite Hp, Hu, H. reflexivity.
Qed.

Lemma run_load_failure_witness :
  (load_and_clean_data sample_files "metabolites/prod.csv" = Ok sample_prod /\
   load_and_clean_data sample_files "metabolites/util.csv" = Ok sample_util /\
   load_and_clean_data (fun path => if String.eqb path "metabolites/anti.csv"
                                    then None else sample_files path)
                       "metabolites/anti.csv"
     = Raise (FileNotFoundError "metabolites/anti.csv")) /\
  run (fun path => if String.eqb path "metabolites/anti.csv"
                   then None else sample_files path) first_visit
    = ([], Raise (FileNotFoundError "metabolites/anti.csv")).
Proof.
  split; [repeat split; vm_compute; reflexivity |].
  apply (run_load_failure _ first_visit). right. right.
  exists sample_prod, sample_util. repeat split; vm_compute; reflexivity.
Defined.

Lemma appends_ret {A : Type} (a : A) : appends (ret a).
Proof. intros page. exists []. simpl. symmetry. apply app_nil_r. Qed.

Lemma appends_eval {A : Type} (r : result A) : appends (eval r).
Proof. intros page. exists []. simpl. symmetry. apply app_nil_r. Qed.

Lemma appends_render (e : element) : appends (render e).
Proof. intros page. exists [e]. reflexivity. Qed.

Lemma appends_then {A B : Type} (m : script A) (k : A -> script B) :
  appends m -> (forall a, appends (k a)) -> appends (then_ m k).
Proof.
  intros Hm Hk page. unfold then_. destruct (Hm page) as (r1 & H1).
  destruct (m page) as [page' [a | e]]; simpl in H1; subst page'.
  - destruct (Hk a (page ++ r1)) as (r2 & H2). exists (r1 ++ r2).
    rewrite H2. symmetry. apply app_assoc.
  - exists r1. reflexivity.
Qed.

Lemma appends_checkbox (label : string) (state : bool) :
  appends (checkbox label state).
Proof.
  apply appends_then; [apply appends_render | intros; apply appends_ret].
Qed.

Lemma appends_button (label : string) (state : bool) :
  appends (button label state).
Proof.
  apply appends_then; [apply appends_render | intros; apply appends_ret].
Qed.

Lemma appends_show {A : Type} (pressed : bool) (heading : string)
  (analysis : result A) (as_element : A -> element) :
  appends (show pressed heading analysis as_element).
Proof.
  unfold show. destruct pressed; [| apply appends_ret].
  apply appends_then; [apply appends_render | intros _].
  apply appends_then; [apply appends_eval | intros x; apply appends_render].
Qed.

Create HintDb script.

#[local] Hint Resolve appends_ret appends_eval appends_render appends_checkbox
  appends_button appends_show : script.

(** X15: the statistics come first and do not depend on the widgets: when
    the three tables load and compute_statistics returns a summary of them,
    every run, whatever the checkboxes and the buttons, begins its page with
    the title, the heading and that summary of the unfiltered tables. *)
Theorem run_statistics_first (fs : files) (w : widgets)
  (prod_df util_df anti_df : DataFrame) (st : list stats_row) :
  loaded fs prod_df util_df anti_df ->
  compute_statistics prod_df util_df anti_df = Ok st ->
  exists rest,
    fst (run fs w)
    = [ Title "Metabolites Overview";
        Text "### Broad Statistics for Type and Non-Type Strains";
        Table st ] ++ rest.
Proof.
  intros (Hp & Hu & Ha) Hst. unfold run, app.
  unfold then_ at 1, eval at 1. rewrite Hp.
  unfold then_ at 1, eval at 1. rewrite Hu.
  unfold then_ at 1, eval at 1. rewrite Ha.
  unfold then_ at 1, render at 1. simpl app.
  unfold then_ at 1, render at 1. simpl app.
  unfold then_ at 1, eval at 1. rewrite Hst.
  unfold then_ at 1, render at 1. simpl app.
  match goal with
  | |- exists rest, fst (?k ?page) = _ => assert (Hk : appends k)
  end.
  { repeat (apply appends_then; [auto with script | intros ?]).
    auto with script. }
  apply Hk.
Qed.

Lemma run_statistics_first_witness :
  loaded sample_files sample_prod sample_util sample_anti /\
  compute_statistics sample_prod sample_util sample_anti
    = Ok [ mkStats "Type Strain" 1 2 5 1; mkStats "Non-Type Strain" 1 3 7 0;
           mkStats "Total" 2 (2 + 3) (5 + 7) (1 + 0) ] /\
  exists rest,
    fst (run sample_files
             (mkWidgets true false true false false false true false false true false))
    = [ Title "Metabolites Overview";
        Text "### Broad Statistics for Type and Non-Type Strains";
        Table [ mkStats "Type Strain" 1 2 5 1; mkStats "Non-Type Strain" 1 3 7 0;
                mkStats "Total" 2 (2 + 3) (5 + 7) (1 + 0) ] ] ++ rest.
Proof.
  assert (Hl : loaded sample_files sample_prod sample_util sample_anti)
    by (repeat split; vm_compute; reflexivity).
  split; [exact Hl |]. split; [reflexivity |].
  apply (run_statistics_first sample_files _ sample_prod sample_util sample_anti);
    [exact Hl | reflexivity].
Defined.

(** X16: ticking and unticking the checkboxes alone changes nothing and
    cannot fail: when the three tables load and the summary is computed, a
    run with no button pressed ends without error, for every state of the
    two checkboxes, and its page is the title, the summary and the sidebar
    widgets. *)
Theorem run_without_button (fs : files) (show_1 show_0 : bool)
  (prod_df util_df anti_df : DataFrame) (st : list stats_row) :
  loaded fs prod_df util_df anti_df ->
  compute_statistics prod_df util_df anti_df = Ok st ->
  run fs (mkWidgets show_1 show_0 false false false false false false false
                    false false)
  = (base_page st, Ok tt).
Proof.
  intros (Hp & Hu & Ha) Hst.
  destruct (filtered_frames_loaded fs _ _ _ prod_df util_df anti_df show_1 show_0
              Hp Hu Ha) as (p & u & a & Hf & _).
  unfold run, app, then_, eval, checkbox, button, render, show, ret, then_.
  rewrite Hp, Hu, Ha. simpl. rewrite Hst. simpl. rewrite Hf. reflexivity.
Qed.

Lemma run_without_button_witness :
  loaded sample_files sample_prod sample_util sample_anti /\
  compute_statistics sample_prod sample_util sample_anti
    = Ok [ mkStats "Type Strain" 1 2 5 1; mkStats "Non-Type Strain" 1 3 7 0;
           mkStats "Total" 2 (2 + 3) (5 + 7) (1 + 0) ] /\
  run sample_files
      (mkWidgets false true false false false false false false false false false)
  = (base_page [ mkStats "Type Strain" 1 2 5 1; mkStats "Non-Type Strain" 1 3 7 0;
                 mkStats "Total" 2 (2 + 3) (5 + 7) (1 + 0) ], Ok tt).
Proof.
  assert (Hl : loaded sample_files sample_prod sample_util sample_anti)
    by (repeat split; vm_compute; reflexivity).
  split; [exact Hl |]. split; [reflexivity |].
  apply (run_without_button sample_files false true sample_prod sample_util sample_anti);
    [exact Hl | reflexivity].
Defined.

(** X17: a util file without the species column loads and the page shows the
    statistics; the error comes only when "Show Top 10 Utilization Species"
    is pressed: the run then puts the heading of that analysis on the page
    and stops there with KeyError 'species', showing none of the analyses
    after it. *)
Theorem run_top_species_missing_column (fs : files) (show_1 show_0 : bool)
  (b6 b7 b8 b9 : bool)
  (prod_df util_df anti_df : DataFrame) (st : list stats_row) :
  loaded fs prod_df util_df anti_df ->
  compute_statistics prod_df util_df anti_df = Ok st ->
  position species (columns util_df) = None ->
  run fs (mkWidgets show_1 show_0 false false false false true b6 b7 b8 b9)
  = (base_page st ++ [Text "### Top 10 Species Utilizing Metabolites"],
     Raise (KeyError species)).
Proof.
  intros (Hp & Hu & Ha) Hst Hs.
  destruct (filtered_frames_loaded fs _ _ _ prod_df util_df anti_df show_1 show_0
              Hp Hu Ha) as (p & u & a & Hf & _ & _ & Hcu & _).
  assert (Htop : top_10_species u = Raise (KeyError species)).
  { unfold top_10_species, top_categorical_counts, getitem.
    rewrite Hcu, Hs. reflexivity. }
  unfold run, app, then_, eval, checkbox, button, render, show, ret, then_.
  rewrite Hp, Hu, Ha. simpl. rewrite Hst. simpl. rewrite Hf. simpl.
  rewrite Htop. reflexivity.
Qed.

Lemma run_top_species_missing_column_witness :
  loaded (fun path => if String.eqb path "metabolites/util.csv"
                      then Some bare_csv else sample_files path)
         sample_prod sample_bare sample_anti /\
  compute_statistics sample_prod sample_bare sample_anti
    = Ok [ mkStats "Type Strain" 1 2 0 1; mkStats "Non-Type Strain" 1 3 0 0;
           mkStats "Total" 2 (2 + 3) (0 + 0) (1 + 0) ] /\
  position species (columns sample_bare) = None /\
  run (fun path => if String.eqb path "metabolites/util.csv"
                   then Some bare_csv else sample_files path)
      (mkWidgets true true false false false false true false false false false)
  = (base_page [ mkStats "Type Strain" 1 2 0 1; mkStats "Non-Type Strain" 1 3 0 0;
                 mkStats "Total" 2 (2 + 3) (0 + 0) (1 + 0) ]
       ++ [Text "### Top 10 Species Utilizing Metabolites"],
     Raise (KeyError species)).
Proof.
  assert (Hl : loaded (fun path => if String.eqb path "metabolites/util.csv"
                                   then Some bare_csv else sample_files path)
                      sample_prod sample_bare sample_anti)
    by (repeat split; vm_compute; reflexivity).
  split; [exact Hl |]. split; [reflexivity |]. split; [reflexivity |].
  apply (run_top_species_missing_column _ true true false false false false
           sample_prod sample_bare sample_anti);
    [exact Hl | reflexivity | reflexivity].
Defined.

(** ** The analyses and the frames of the dispatch *)

(** A run on loaded tables whose summary is computed: its page is the base
    page followed by what the analyses put on it, and the analyses are run
    on the frames the dispatch returns. *)
Lemma run_loaded (fs : files) (w : widgets)
  (prod_df util_df anti_df p u a : DataFrame) (st : list stats_row) :
  loaded fs prod_df util_df anti_df ->
  compute_statistics prod_df util_df anti_df = Ok st ->
  filtered_frames (show_type_strain_1 w) (show_type_strain_0 w)
                  prod_df util_df anti_df = Ok (p, u, a) ->
  run fs w = analyses w p u a (base_page st).
Proof.
  intros (Hp & Hu & Ha) Hst Hf.
  unfold run, app, then_, eval, checkbox, button, render, ret.
  rewrite Hp, Hu, Ha. simpl. rewrite Hst. simpl. rewrite Hf. reflexivity.
Qed.

(** C5: in a run on the three loaded tables, every analysis a button asks
    for is computed on the frames the checkbox dispatch returns, the
    production analyses on the first, the utilization analyses on the second
    and the antimicrobial analyses on the third.  With both checkboxes
    selected, or neither, these frames are the three tables as loaded; with
    only "Show Type Strain (1)" selected they are the rows of each table that
    have 1 in the table's own is_type_strain column, and with only "Show
    Non-Type Strain (0)" selected the rows that have 0 there. *)
Theorem run_analyses_on_filtered_frames (fs : files) (w : widgets)
  (prod_df util_df anti_df : DataFrame) (st : list stats_row) :
  loaded fs prod_df util_df anti_df ->
  compute_statistics prod_df util_df anti_df = Ok st ->
  exists jp ju ja p u a,
    position is_type_strain_header (columns prod_df) = Some jp /\
    position is_type_strain_header (columns util_df) = Some ju /\
    position is_type_strain_header (columns anti_df) = Some ja /\
    filtered_frames (show_type_strain_1 w) (show_type_strain_0 w)
                    prod_df util_df anti_df = Ok (p, u, a) /\
    run fs w = analyses w p u a (base_page st) /\
    (show_type_strain_1 w = show_type_strain_0 w ->
       (p, u, a) = (prod_df, util_df, anti_df)) /\
    (show_type_strain_1 w = true -> show_type_strain_0 w = false ->
       (p, u, a) = (rows_where jp (IntV 1) prod_df,
                    rows_where ju (IntV 1) util_df,
                    rows_where ja (IntV 1) anti_df)) /\
    (show_type_strain_1 w = false -> show_type_strain_0 w = true ->
       (p, u, a) = (rows_where jp (IntV 0) prod_df,
                    rows_where ju (IntV 0) util_df,
                    rows_where ja (IntV 0) anti_df)).
Proof.
  intros Hl Hst. pose proof Hl as (Hp & Hu & Ha).
  destruct (load_and_clean_data_type_strain_column _ _ _ Hp) as (jp & Hjp).
  destruct (load_and_clean_data_type_strain_column _ _ _ Hu) as (ju & Hju).
  destruct (load_and_clean_data_type_strain_column _ _ _ Ha) as (ja & Hja).
  assert (Hf : exists p u a,
            filtered_frames (show_type_strain_1 w) (show_type_strain_0 w)
                            prod_df util_df anti_df = Ok (p, u, a) /\
            (show_type_strain_1 w = show_type_strain_0 w ->
               (p, u, a) = (prod_df, util_df, anti_df)) /\
            (show_type_strain_1 w = true -> show_type_strain_0 w = false ->
               (p, u, a) = (rows_where jp (IntV 1) prod_df,
                            rows_where ju (IntV 1) util_df,
                            rows_where ja (IntV 1) anti_df)) /\
            (show_type_strain_1 w = false -> show_type_strain_0 w = true ->
               (p, u, a) = (rows_where jp (IntV 0) prod_df,
                            rows_where ju (IntV 0) util_df,
                            rows_where ja (IntV 0) anti_df))).
  { unfold filtered_frames.
    destruct (show_type_strain_1 w), (show_type_strain_0 w); simpl;
      rewrite ?(filter_by_type_strain_rows prod_df _ jp Hjp),
              ?(filter_by_type_strain_rows util_df _ ju Hju),
              ?(filter_by_type_strain_rows anti_df _ ja Hja); simpl;
      do 3 eexists; (split; [reflexivity |]);
      repeat split; intros; try discriminate; reflexivity. }
  destruct Hf as (p & u & a & Hf & Hcases).
  exists jp, ju, ja, p, u, a.
  split; [exact Hjp |]. split; [exact Hju |]. split; [exact Hja |].
  split; [exact Hf |].
  split; [exact (run_loaded fs w _ _ _ p u a st Hl Hst Hf) | exact Hcases].
Qed.

Lemma run_analyses_on_filtered_frames_witness :
  loaded sample_files sample_prod sample_util sample_anti /\
  compute_statistics sample_prod sample_util sample_anti
    = Ok [ mkStats "Type Strain" 1 2 5 1; mkStats "Non-Type Strain" 1 3 7 0;
           mkStats "Total" 2 (2 + 3) (5 + 7) (1 + 0) ] /\
  exists jp ju ja p u a,
    position is_type_strain_header (columns sample_prod) = Some jp /\
    position is_type_strain_header (columns sample_util) = Some ju /\
    position is_type_strain_header (columns sample_anti) = Some ja /\
    filtered_frames true false sample_prod sample_util sample_anti
      = Ok (p, u, a) /\
    run sample_files
        (mkWidgets true false true true false false false false false false false)
    = analyses
        (mkWidgets true false true true false false false false false false false)
        p u a
        (base_page [ mkStats "Type Strain" 1 2 5 1;
                     mkStats "Non-Type Strain" 1 3 7 0;
                     mkStats "Total" 2 (2 + 3) (5 + 7) (1 + 0) ]) /\
    (true = false -> (p, u, a) = (sample_prod, sample_util, sample_anti)) /\
    (true = true -> false = false ->
       (p, u, a) = (rows_where jp (IntV 1) sample_prod,
                    rows_where ju (IntV 1) sample_util,
                    rows_where ja (IntV 1) sample_anti)) /\
    (true = false -> false = true ->
       (p, u, a) = (rows_where jp (IntV 0) sample_prod,
                    rows_where ju (IntV 0) sample_util,
                    rows_where ja (IntV 0) sample_anti)).
Proof.
  assert (Hl : loaded sample_files sample_prod sample_util sample_anti)
    by (repeat split; vm_compute; reflexivity).
  split; [exact Hl |]. split; [reflexivity |].
  apply (run_analyses_on_filtered_frames sample_files
           (mkWidgets true false true true false false false false false false false)
           sample_prod sample_util sample_anti);
    [exact Hl | reflexivity].
Defined.

(** With only "Show Type Strain (1)" selected, the production and the
    utilization counts shown are those of the type strains of each table:
    of its first strain in the production table, of its second in the
    utilization table. *)
Lemma run_type_strains_only :
  run sample_files
      (mkWidgets true false true true false false false false false false false)
  = (base_page [ mkStats "Type Strain" 1 2 5 1; mkStats "Non-Type Strain" 1 3 7 0;
                 mkStats "Total" 2 (2 + 3) (5 + 7) (1 + 0) ]
     ++ [ Text "### Total Production Metabolite Count";
          Sums [("metA", 0 + 2); ("metB", 0 + 0)];
          Text "### Total Utilization Metabolite Count";
          Sums [("metC", 0 + 7)] ],
     Ok tt).
Proof. vm_compute. reflexivity. Qed.

(** ** Counts of a table and of its two partitions *)

Lemma rows_where_rows_at (j : nat) (v : cell) (df : DataFrame) :
  rows_where j v df = rows_at df j v df.
Proof.
  unfold rows_where, rows_at. f_equal. symmetry.
  apply (take_mask_map (fun r => cell_eqb (cell_at j r) v)).
Qed.

Lemma map_combine_maps {A B C D : Type} (f : A -> B) (g : A -> C)
  (h : B * C -> D) (l : list A) :
  map h (combine (map f l) (map g l)) = map (fun x => h (f x, g x)) l.
Proof. induction l as [| x t IH]; simpl; [reflexivity | rewrite IH; reflexivity]. Qed.

(** X18: the counts of a table are the counts of its two partitions added
    up, column by column: for a table of integers whose type-strain cells are
    all 0 or 1, the count of every metabolite column is the count shown for
    the type strains plus the count shown for the others. *)
Theorem count_metabolites_partitions (df : DataFrame) :
  binary_type_strain df ->
  metabolites_all integral df ->
  exists d1 d0 s1 s0,
    filter_by_type_strain df (IntV 1) = Ok d1 /\
    filter_by_type_strain df (IntV 0) = Ok d0 /\
    count_metabolites d1 = Ok s1 /\
    count_metabolites d0 = Ok s0 /\
    count_metabolites df
      = Ok (map (fun e : (string * Q) * (string * Q) =>
                   (fst (fst e), (snd (fst e) + snd (snd e))%Q))
                (combine s1 s0)).
Proof.
  intros Hbin Hint.
  destruct (binary_type_strain_cells df Hbin) as (j & Hj & Hcells).
  exists (rows_where j (IntV 1) df), (rows_where j (IntV 0) df).
  do 2 eexists.
  split; [apply filter_by_type_strain_rows; exact Hj |].
  split; [apply filter_by_type_strain_rows; exact Hj |].
  rewrite !rows_where_rows_at.
  split; [apply count_metabolites_integral, metabolites_all_rows_at, Hint |].
  split; [apply count_metabolites_integral, metabolites_all_rows_at, Hint |].
  rewrite (count_metabolites_integral df Hint). f_equal.
  change (metabolite_columns (rows_at df j (IntV 1) df)) with (metabolite_columns df).
  change (metabolite_columns (rows_at df j (IntV 0) df)) with (metabolite_columns df).
  rewrite (map_combine_maps
             (fun jl : nat * string =>
                (snd jl, inject_Z (column_sum (fst jl) (rows_at df j (IntV 1) df))))
             (fun jl : nat * string =>
                (snd jl, inject_Z (column_sum (fst jl) (rows_at df j (IntV 0) df))))).
  apply map_ext. intros jl. simpl. f_equal.
  rewrite Qplus_inject_Z. f_equal. symmetry.
  unfold column_sum, rows_at. simpl.
  apply (take_mask_partition_sum (rows df)
           (fun r => cell_eqb (cell_at j r) (IntV 1))
           (fun r => cell_eqb (cell_at j r) (IntV 0))).
  - intros r Hr. apply zero_or_one_exclusive, Hcells, Hr.
  - apply Nat.le_refl.
Qed.

Lemma count_metabolites_partitions_witness :
  binary_type_strain sample_prod /\
  metabolites_all integral sample_prod /\
  exists d1 d0 s1 s0,
    filter_by_type_strain sample_prod (IntV 1) = Ok d1 /\
    filter_by_type_strain sample_prod (IntV 0) = Ok d0 /\
    count_metabolites d1 = Ok s1 /\
    count_metabolites d0 = Ok s0 /\
    count_metabolites sample_prod
      = Ok (map (fun e : (string * Q) * (string * Q) =>
                   (fst (fst e), (snd (fst e) + snd (snd e))%Q))
                (combine s1 s0)).
Proof.
  assert (Hbin : binary_type_strain sample_prod).
  { eexists. split; [reflexivity |]. simpl.
    repeat (apply Forall_cons; [reflexivity |]). apply Forall_nil. }
  assert (Hint : metabolites_all integral sample_prod).
  { unfold metabolites_all. simpl.
    repeat (apply Forall_cons; [reflexivity |]). apply Forall_nil. }
  split; [exact Hbin |]. split; [exact Hint |].
  apply (count_metabolites_partitions sample_prod); assumption.
Defined.

(** ** Blank type-strain marks *)

(** X19: a strain whose is_type_strain field is blank in the file is a
    non-type strain for the program: its row, loaded, is among the rows the
    filter for 0 returns and is not among the rows the filter for 1
    returns. *)
Theorem load_blank_mark_is_non_type_strain (fs : files) (file_path : string)
  (df : DataFrame) (f : csv) (j i : nat) (line : list string) :
  load_and_clean_data fs file_path = Ok df ->
  fs file_path = Some f ->
  position is_type_strain_header (header f) = Some j ->
  nth_error (records f) i = Some line ->
  is_na (field j line) = true ->
  exists d0 d1 r,
    filter_by_type_strain df (IntV 0) = Ok d0 /\
    filter_by_type_strain df (IntV 1) = Ok d1 /\
    nth_error (rows df) i = Some r /\ fst r = i /\
    In r (rows d0) /\ ~ In r (rows d1).
Proof.
  intros Hload Hf Hj Hline Hna.
  apply load_and_clean_data_Ok in Hload.
  destruct Hload as (f' & data & j1 & j2 & j3 & Hf' & Hdata & Hj1 & Hj2 & _ & ->).
  assert (f' = f) by congruence. subst f'.
  assert (j2 = j) by congruence. subst j2.
  destruct (loaded_column f data j1 j Hdata Hj1 Hj is_type_strain_header j Hj
              eq_refl eq_refl (or_intror eq_refl)) as (s & Hs & Hlen & Hcol).
  destruct (Hcol i line Hline) as (c & Hc & z & -> & Hz & _).
  rewrite (Hz Hna) in Hc.
  apply getitem_Ok in Hs. destruct Hs as (j' & Hj' & ->).
  remember (rows (loaded_frame f data j1 j)) as loaded_rows eqn:Hrows.
  unfold values in Hc. rewrite map_map, nth_error_map in Hc.
  destruct (nth_error loaded_rows i) as [r |] eqn:Hr;
    simpl in Hc; [| discriminate Hc].
  injection Hc as Hcell. subst loaded_rows.
  assert (Hlabel : fst r = i).
  { pose proof (loaded_index f data j1 j Hdata) as Hidx. unfold index in Hidx.
    pose proof (map_nth_error fst i _ Hr) as Hfst. rewrite Hidx in Hfst.
    assert (Hi : (i < length (records f))%nat)
      by (apply nth_error_Some; congruence).
    rewrite nth_error_seq in Hfst.
    destruct (Nat.ltb_spec i (length (records f))); [| lia].
    injection Hfst as <-. reflexivity. }
  exists (rows_where j' (IntV 0) (loaded_frame f data j1 j)),
         (rows_where j' (IntV 1) (loaded_frame f data j1 j)), r.
  split; [apply filter_by_type_strain_rows; exact Hj' |].
  split; [apply filter_by_type_strain_rows; exact Hj' |].
  split; [reflexivity |]. split; [exact Hlabel |]. simpl. split.
  - apply filter_In. split; [eapply nth_error_In; exact Hr |].
    unfold cell_at. rewrite Hcell. reflexivity.
  - intros Hin. apply filter_In in Hin. destruct Hin as (_ & Hin).
    unfold cell_at in Hin. rewrite Hcell in Hin. discriminate Hin.
Qed.

Lemma load_blank_mark_is_non_type_strain_witness :
  load_and_clean_data sample_files "metabolites/anti.csv" = Ok sample_anti /\
  sample_files "metabolites/anti.csv" = Some anti_csv /\
  position is_type_strain_header (header anti_csv) = Some 2%nat /\
  nth_error (records anti_csv) 0
    = Some [EmptyString; "Bacillus"; EmptyString; "x"; "s1"; "1"] /\
  is_na (field 2 [EmptyString; "Bacillus"; EmptyString; "x"; "s1"; "1"]) = true /\
  exists d0 d1 r,
    filter_by_type_strain sample_anti (IntV 0) = Ok d0 /\
    filter_by_type_strain sample_anti (IntV 1) = Ok d1 /\
    nth_error (rows sample_anti) 0 = Some r /\ fst r = 0%nat /\
    In r (rows d0) /\ ~ In r (rows d1).
Proof.
  split; [vm_compute; reflexivity |]. split; [reflexivity |].
  split; [reflexivity |]. split; [reflexivity |]. split; [reflexivity |].
  apply (load_blank_mark_is_non_type_strain sample_files "metabolites/anti.csv"
           sample_anti anti_csv 2 0 [EmptyString; "Bacillus"; EmptyString; "x"; "s1"; "1"]);
    reflexivity.
Defined.
